(** * DetectaBB: boleto validation, score fusion and explanation

    A shallow embedding of the analysis pipeline of the DetectaBB backend
    (src/ml/parser.py, src/ml/validator.py, src/ml/model.py,
    src/ml/explainer.py and the fusion step of src/worker/tasks.py), with
    the properties of its specification stated and settled against it;
    and of what the endpoints do around the pipeline: the verdict of
    [test_ocr] and the upload of [analisar_boleto] (src/api/main.py), the
    quota of an anonymous address (src/api/main.py, src/auth/routes.py)
    and the check of a token (src/auth/middleware.py, src/auth/utils.py).

    Conventions of the embedding.
    - A Python [str] is a [string]: the UTF-8 bytes of the text.  The
      character classes of the regular expressions ([\d], [\s], [\w]) and
      case folding are taken on ASCII (and on the Latin-1 letters for
      [lower]); a byte of a longer UTF-8 sequence belongs to no class.
    - A Python [int] is a [Z]; a Python [float] is read as the rational
      number it denotes, a [Q].  A product of two floats is the float
      nearest to the product of the two numbers, as binary64 has it
      ([mul_float]; [Binary64] checks it against the floats of Rocq).
      Comparisons, [max] and [int] are exact on floats, and so on the
      numbers.  The decimal that [float] reads from a text and the one
      that [round] gives are kept as they are written, not moved to the
      nearest float.  NaN and the infinities are outside the model, and
      with them a product beyond the largest float.
    - A value whose Python type is not fixed by the code (a member of the
      [dados] dictionary) is a [pyval]; [PList n] is a list of [n] elements,
      which the code never inspects.  The dictionary has the nine keys that
      [parse_dados_boleto] creates, each bound to [None] until its field is
      found.
    - Code that can raise is in the [result] monad; [try ... except] is a
      [match] on the result.  What the interpreter itself contributes (the
      text of an exception, the clock, [strptime]) is a member of
      [Runtime].
    - A collection of the database is the list of its documents, in the
      order of their insertion, and an endpoint takes the stores and
      returns them as it leaves them.  A failure of the database or of the
      queue is outside the model, and with it the [except Exception] of an
      endpoint that answers it; so is what several requests do to one
      document at the same time. *)

From Stdlib Require Import ZArith QArith Qabs Qround List String Ascii Bool.
From Stdlib Require Import Lia Lqa.
From Stdlib Require Import DecimalString.
From Stdlib Require PrimFloat FloatOps SpecFloat Uint63.
Import ListNotations.

Local Open Scope list_scope.

(** [l.append(x)] and [l.extend(l')], on a list that is passed along. *)
Definition append {A : Type} (l : list A) (x : A) : list A := l ++ [x].
Definition extend {A : Type} (l l' : list A) : list A := l ++ l'.

Local Open Scope string_scope.
Local Open Scope Z_scope.

(** ** Python values, exceptions and results *)

Inductive pyval : Type :=
| PNone
| PStr (s : string)
| PNum (q : Q)
| PList (n : nat).

(** The exceptions the modelled code can meet, by what raised them. *)
Inductive exn : Type :=
| TypeError (operacao : string) (v : pyval)
| ValueError (operacao : string) (s : string)
| AttributeError (atributo : string) (v : pyval)
| IndexError.

Inductive result (A : Type) : Type :=
| Ok (a : A)
| Raise (e : exn).

Arguments Ok {A} a.
Arguments Raise {A} e.

Definition bind {A B : Type} (r : result A) (k : A -> result B) : result B :=
  match r with
  | Ok a => k a
  | Raise e => Raise e
  end.

Notation "x <- r ;; k" := (bind r (fun x => k))
  (at level 61, r at next level, right associativity).
Notation "' p <- r ;; k" := (bind r (fun x => let p := x in k))
  (at level 61, p pattern, r at next level, right associativity).

(** [for x in xs: st = f(st, x)], stopping at the first exception. *)
Fixpoint for_each {S X : Type} (f : S -> X -> result S)
  (xs : list X) (st : S) : result S :=
  match xs with
  | [] => Ok st
  | x :: xs' => st' <- f st x ;; for_each f xs' st'
  end.

(** Truthiness, as [if v:] tests it. *)
Definition truthy (v : pyval) : bool :=
  match v with
  | PNone => false
  | PStr s => negb (s =? "")%string
  | PNum q => negb (Qeq_bool q 0)
  | PList n => negb (n =? 0)%nat
  end.

(** ** Strings *)

Definition is_digit (c : ascii) : bool :=
  ((48 <=? nat_of_ascii c) && (nat_of_ascii c <=? 57))%nat.

Fixpoint filter_str (p : ascii -> bool) (s : string) : string :=
  match s with
  | EmptyString => EmptyString
  | String c s' => if p c then String c (filter_str p s') else filter_str p s'
  end.

Fixpoint forall_str (p : ascii -> bool) (s : string) : bool :=
  match s with
  | EmptyString => true
  | String c s' => p c && forall_str p s'
  end.

Fixpoint take (n : nat) (s : string) : string :=
  match n, s with
  | O, _ => EmptyString
  | S _, EmptyString => EmptyString
  | S n', String c s' => String c (take n' s')
  end.

Fixpoint drop (n : nat) (s : string) : string :=
  match n, s with
  | O, _ => s
  | S _, EmptyString => EmptyString
  | S n', String _ s' => drop n' s'
  end.

(** [s[i:j]] for [0 <= i <= j]: a slice never raises, it is cut at the end
    of the string. *)
Definition slice (s : string) (i j : nat) : string := take (j - i) (drop i s).

(** [s[i]] for [0 <= i]: a one-character string, or IndexError. *)
Definition index (s : string) (i : nat) : result string :=
  match String.get i s with
  | Some c => Ok (String c EmptyString)
  | None => Raise IndexError
  end.

(** [s * n]. *)
Fixpoint repeat_str (s : string) (n : nat) : string :=
  match n with
  | O => EmptyString
  | S n' => s ++ repeat_str s n'
  end.

(** [str(z)] and [str(n)] for integers. *)
Definition str (z : Z) : string := NilZero.string_of_int (Z.to_int z).
Definition str_nat (n : nat) : string := str (Z.of_nat n).

(** [int(c)] for a one-character string. *)
Definition int_char (c : ascii) : result Z :=
  if is_digit c then Ok (Z.of_nat (nat_of_ascii c) - 48)
  else Raise (ValueError "int" (String c EmptyString)).

(** [int(s[i])]. *)
Definition int_at (s : string) (i : nat) : result Z :=
  match String.get i s with
  | Some c => int_char c
  | None => Raise IndexError
  end.

(** [re.sub(r'[^\d]', '', v)]: a TypeError on anything but a string. *)
Definition re_sub_nao_digitos (v : pyval) : result string :=
  match v with
  | PStr s => Ok (filter_str is_digit s)
  | _ => Raise (TypeError "re.sub" v)
  end.

(** ** validator.py: the check digits *)

Definition passo_modulo10 (st : Z * Z) (c : ascii) : result (Z * Z) :=
  let '(soma, multiplicador) := st in
  d <- int_char c ;;
  let resultado := d * multiplicador in
  let resultado :=
    if resultado >? 9 then resultado / 10 + resultado mod 10 else resultado in
  Ok (soma + resultado, if multiplicador =? 2 then 1 else 2).

Definition calcular_dv_modulo10 (sequencia : string) : result string :=
  '(soma, _) <-
    for_each passo_modulo10 (rev (list_ascii_of_string sequencia)) (0, 2) ;;
  let resto := soma mod 10 in
  let dv := if resto =? 0 then 0 else 10 - resto in
  Ok (str dv).

Definition passo_modulo11 (st : Z * Z) (c : ascii) : result (Z * Z) :=
  let '(soma, multiplicador) := st in
  d <- int_char c ;;
  let soma := soma + d * multiplicador in
  let multiplicador := multiplicador + 1 in
  Ok (soma, if multiplicador >? 9 then 2 else multiplicador).

Definition calcular_dv_modulo11 (sequencia : string) : result string :=
  '(soma, _) <-
    for_each passo_modulo11 (rev (list_ascii_of_string sequencia)) (0, 2) ;;
  let resto := soma mod 11 in
  let dv := 11 - resto in
  let dv := if (dv =? 0) || (dv =? 10) || (dv =? 11) then 1 else dv in
  Ok (str dv).

(** ** validator.py: the field validators *)

(** The dictionary a validator returns.  [detalhes] is the per-field map of
    the top-level validator, in insertion order; it is empty for a field
    validator, whose dictionary has no such key. *)
#[warning="-register-all"]
Inductive Resultado : Type := mkResultado {
  valido : bool;
  erros : list string;
  detalhes : list (string * Resultado)
}.

(** The dictionary of a field validator. *)
Definition resultado (v : bool) (es : list string) : Resultado :=
  {| valido := v; erros := es; detalhes := [] |}.

(** [len(erros) == 0]. *)
Definition vazia {A : Type} (l : list A) : bool :=
  match l with [] => true | _ :: _ => false end.

(** What the interpreter supplies: [str(e)] of an exception, [str(v)] of a
    value that is not a string, [datetime.strptime], [strftime] and
    [isoformat], and [datetime.now()], read once for a whole run.  A
    [datetime] is its count of microseconds. *)
Record Runtime : Type := {
  str_exn : exn -> string;
  str_val : pyval -> string;
  strptime : pyval -> string -> result Z;
  strftime : Z -> string -> string;
  isoformat : Z -> string;
  agora : Z
}.

(** [f"{v}"]: a string is rendered as it is, [None] by its name. *)
Definition formatar (rt : Runtime) (v : pyval) : string :=
  match v with
  | PStr s => s
  | PNone => "None"
  | _ => str_val rt v
  end.

Definition erro_dv (k : string) (calculado informado : string) : string :=
  "DV" ++ k ++ " inválido (esperado: " ++ calculado
       ++ ", encontrado: " ++ informado ++ ")".

(** [if informado != calculado: erros.append(...)]. *)
Definition conferir_dv (erros : list string) (k informado calculado : string)
  : list string :=
  if negb (informado =? calculado)%string
  then append erros (erro_dv k calculado informado)
  else erros.

Definition validar_linha_digitavel_try (linha : pyval) : result Resultado :=
  let erros := [] in
  digitos <- re_sub_nao_digitos linha ;;
  if negb (String.length digitos =? 47)%nat then
    let erros := append erros ("Linha digitável deve ter 47 dígitos (tem "
                               ++ str_nat (String.length digitos) ++ ")") in
    Ok (resultado false erros)
  else
    let campo1 := slice digitos 0 10 in
    let campo2 := slice digitos 10 21 in
    let campo3 := slice digitos 21 32 in
    dv1_informado <- index campo1 9 ;;
    dv1_calculado <- calcular_dv_modulo10 (slice campo1 0 9) ;;
    let erros := conferir_dv erros "1" dv1_informado dv1_calculado in
    dv2_informado <- index campo2 10 ;;
    dv2_calculado <- calcular_dv_modulo10 (slice campo2 0 10) ;;
    let erros := conferir_dv erros "2" dv2_informado dv2_calculado in
    dv3_informado <- index campo3 10 ;;
    dv3_calculado <- calcular_dv_modulo10 (slice campo3 0 10) ;;
    let erros := conferir_dv erros "3" dv3_informado dv3_calculado in
    Ok (resultado (vazia erros) erros).

Definition validar_linha_digitavel (rt : Runtime) (linha : pyval) : Resultado :=
  match validar_linha_digitavel_try linha with
  | Ok r => r
  | Raise e =>
      resultado false ["Erro ao validar linha digitável: " ++ str_exn rt e]
  end.

Definition validar_codigo_barras_try (codigo : pyval) : result Resultado :=
  let erros := [] in
  digitos <- re_sub_nao_digitos codigo ;;
  if negb (String.length digitos =? 44)%nat then
    let erros := append erros ("Código de barras deve ter 44 dígitos (tem "
                               ++ str_nat (String.length digitos) ++ ")") in
    Ok (resultado false erros)
  else
    dv_informado <- index digitos 4 ;;
    let codigo_sem_dv := slice digitos 0 4 ++ slice digitos 5 44 in
    dv_calculado <- calcular_dv_modulo11 codigo_sem_dv ;;
    let erros :=
      if negb (dv_informado =? dv_calculado)%string
      then append erros ("DV do código de barras inválido (esperado: "
                         ++ dv_calculado ++ ", encontrado: "
                         ++ dv_informado ++ ")")
      else erros in
    Ok (resultado (vazia erros) erros).

Definition validar_codigo_barras (rt : Runtime) (codigo : pyval) : Resultado :=
  match validar_codigo_barras_try codigo with
  | Ok r => r
  | Raise e =>
      resultado false ["Erro ao validar código de barras: " ++ str_exn rt e]
  end.

(** [v <= q] and [v > q] against a number: only a number is ordered. *)
Definition menor_igual (v : pyval) (q : Q) : result bool :=
  match v with
  | PNum x => Ok (Qle_bool x q)
  | _ => Raise (TypeError "<=" v)
  end.

Definition maior (v : pyval) (q : Q) : result bool :=
  match v with
  | PNum x => Ok (negb (Qle_bool x q))
  | _ => Raise (TypeError ">" v)
  end.

(** [validar_valor] has no handler of its own. *)
Definition validar_valor (valor : pyval) : result Resultado :=
  let erros := [] in
  nao_positivo <- menor_igual valor 0 ;;
  let erros :=
    if nao_positivo then append erros "Valor deve ser maior que zero"
    else erros in
  excede <- maior valor (999999999 # 100) ;;
  let erros :=
    if excede
    then append erros "Valor excede limite máximo (R$ 9.999.999,99)"
    else erros in
  Ok (resultado (vazia erros) erros).

(** [.days] of a difference of two [datetime]: the floor of its count of
    days. *)
Definition days (delta : Z) : Z := delta / 86400000000.

Definition validar_vencimento_try (rt : Runtime) (vencimento_str : pyval)
  : result Resultado :=
  let erros := [] in
  vencimento <- strptime rt vencimento_str "%d/%m/%Y" ;;
  let hoje := agora rt in
  let erros :=
    if days (hoje - vencimento) >? 5 * 365
    then append erros ("Boleto com vencimento muito antigo ("
                       ++ formatar rt vencimento_str ++ ")")
    else erros in
  let erros :=
    if days (vencimento - hoje) >? 2 * 365
    then append erros ("Boleto com vencimento muito distante ("
                       ++ formatar rt vencimento_str ++ ")")
    else erros in
  Ok (resultado (vazia erros) erros).

Definition validar_vencimento (rt : Runtime) (vencimento_str : pyval)
  : Resultado :=
  match validar_vencimento_try rt vencimento_str with
  | Ok r => r
  | Raise e => resultado false ["Data de vencimento inválida: " ++ str_exn rt e]
  end.

(** [peso[i]]. *)
Definition item (l : list Z) (i : nat) : result Z :=
  match nth_error l i with
  | Some x => Ok x
  | None => Raise IndexError
  end.

(** [for i in range(n): soma += int(cnpj_digitos[i]) * peso[i]]. *)
Definition soma_ponderada (cnpj_digitos : string) (peso : list Z) (n : nat)
  : result Z :=
  for_each (fun soma i =>
              d <- int_at cnpj_digitos i ;;
              p <- item peso i ;;
              Ok (soma + d * p))
           (seq 0 n) 0.

Definition peso1 : list Z := [5; 4; 3; 2; 9; 8; 7; 6; 5; 4; 3; 2].
Definition peso2 : list Z := [6; 5; 4; 3; 2; 9; 8; 7; 6; 5; 4; 3; 2].

(** [0 if resto < 2 else 11 - resto]. *)
Definition dv_do_resto (resto : Z) : Z := if resto <? 2 then 0 else 11 - resto.

Definition validar_cnpj_try (cnpj : pyval) : result Resultado :=
  let erros := [] in
  cnpj_digitos <- re_sub_nao_digitos cnpj ;;
  if negb (String.length cnpj_digitos =? 14)%nat then
    let erros := append erros "CNPJ deve ter 14 dígitos" in
    Ok (resultado false erros)
  else
    primeiro <- index cnpj_digitos 0 ;;
    if (cnpj_digitos =? repeat_str primeiro 14)%string then
      let erros := append erros "CNPJ inválido (sequência repetida)" in
      Ok (resultado false erros)
    else
      soma <- soma_ponderada cnpj_digitos peso1 12 ;;
      let resto := soma mod 11 in
      let dv1 := dv_do_resto resto in
      d12 <- int_at cnpj_digitos 12 ;;
      let erros :=
        if negb (d12 =? dv1)
        then append erros "Primeiro dígito verificador do CNPJ inválido"
        else erros in
      soma <- soma_ponderada cnpj_digitos peso2 13 ;;
      let resto := soma mod 11 in
      let dv2 := dv_do_resto resto in
      d13 <- int_at cnpj_digitos 13 ;;
      let erros :=
        if negb (d13 =? dv2)
        then append erros "Segundo dígito verificador do CNPJ inválido"
        else erros in
      Ok (resultado (vazia erros) erros).

Definition validar_cnpj (rt : Runtime) (cnpj : pyval) : Resultado :=
  match validar_cnpj_try cnpj with
  | Ok r => r
  | Raise e => resultado false ["Erro ao validar CNPJ: " ++ str_exn rt e]
  end.

Definition bancos_validos : list string :=
  ["001"; "033"; "104"; "237"; "341"; "748"; "756";
   "077"; "260"; "290"; "403"; "422"; "140"; "197"].

(** [codigo in bancos_validos], a set of strings: a list cannot be hashed,
    and nothing but a string is equal to a member. *)
Definition pertence (codigo : pyval) (conjunto : list string) : result bool :=
  match codigo with
  | PStr s => Ok (existsb (String.eqb s) conjunto)
  | PList _ => Raise (TypeError "hash" codigo)
  | _ => Ok false
  end.

(** [validar_codigo_banco] has no handler of its own. *)
Definition validar_codigo_banco (rt : Runtime) (codigo : pyval)
  : result Resultado :=
  let erros := [] in
  conhecido <- pertence codigo bancos_validos ;;
  let erros :=
    if negb conhecido
    then append erros ("Código de banco desconhecido: " ++ formatar rt codigo)
    else erros in
  Ok (resultado (vazia erros) erros).

(** ** validator.py: the boleto *)

(** The dictionary of extracted fields. *)
Record Dados : Type := {
  codigo_barras : pyval;
  linha_digitavel : pyval;
  valor : pyval;
  vencimento : pyval;
  beneficiario_nome : pyval;
  beneficiario_cnpj : pyval;
  codigo_banco : pyval;
  banco_nome : pyval;
  agencia : pyval
}.

(** The state of [validar_boleto_febraban]: its two local accumulators. *)
Definition Acumulado : Type := (list string * list (string * Resultado))%type.

(** [if not r['valido']: erros.extend(r['erros'])] and
    [detalhes[chave] = r]. *)
Definition registrar (ac : Acumulado) (chave : string) (r : Resultado)
  : Acumulado :=
  let '(es, ds) := ac in
  (if negb (valido r) then extend es (erros r) else es, append ds (chave, r)).

(** [erros.append(mensagem)]. *)
Definition faltante (ac : Acumulado) (mensagem : string) : Acumulado :=
  let '(es, ds) := ac in (append es mensagem, ds).

Definition validar_boleto_febraban_try (rt : Runtime) (dados : Dados)
  : result Resultado :=
  let ac : Acumulado := ([], []) in
  (* 1. linha digitável *)
  let ac :=
    if truthy (linha_digitavel dados)
    then registrar ac "linha_digitavel"
           (validar_linha_digitavel rt (linha_digitavel dados))
    else faltante ac "Linha digitável não encontrada" in
  (* 2. código de barras *)
  let ac :=
    if truthy (codigo_barras dados)
    then registrar ac "codigo_barras"
           (validar_codigo_barras rt (codigo_barras dados))
    else ac in
  (* 3. valor *)
  ac <- (if truthy (valor dados)
         then r <- validar_valor (valor dados) ;; Ok (registrar ac "valor" r)
         else Ok (faltante ac "Valor não encontrado")) ;;
  (* 4. vencimento *)
  let ac :=
    if truthy (vencimento dados)
    then registrar ac "vencimento"
           (validar_vencimento rt (vencimento dados))
    else faltante ac "Vencimento não encontrado" in
  (* 5. CNPJ *)
  let ac :=
    if truthy (beneficiario_cnpj dados)
    then registrar ac "cnpj" (validar_cnpj rt (beneficiario_cnpj dados))
    else ac in
  (* 6. banco *)
  ac <- (if truthy (codigo_banco dados)
         then r <- validar_codigo_banco rt (codigo_banco dados) ;;
              Ok (registrar ac "banco" r)
         else Ok (faltante ac "Código do banco não encontrado")) ;;
  let '(es, ds) := ac in
  Ok {| valido := vazia es; erros := es; detalhes := ds |}.

Definition validar_boleto_febraban (rt : Runtime) (dados : Dados) : Resultado :=
  match validar_boleto_febraban_try rt dados with
  | Ok r => r
  | Raise e =>
      {| valido := false;
         erros := ["Erro na validação: " ++ str_exn rt e];
         detalhes := [] |}
  end.

(** ** model.py: the classifier boundary *)

Definition Qgt_bool (a b : Q) : bool := negb (Qle_bool a b).

(** [max(a, b)]: the first argument unless the second is greater. *)
Definition max2 (a b : Q) : Q := if Qgt_bool b a then b else a.

(** [l[i]]. *)
Definition item_de {A : Type} (l : list A) (i : nat) : result A :=
  match nth_error l i with
  | Some x => Ok x
  | None => Raise IndexError
  end.

(** The trained classifier, over a feature dictionary of type [F]:
    [modelo.predict(df)[0]] and [modelo.predict_proba(df)[0]]. *)
Record Modelo (F : Type) : Type := {
  predict : F -> Z;
  predict_proba : F -> list Q
}.

Arguments predict {F} _ _.
Arguments predict_proba {F} _ _.

Module Predicao.
Record t (F : Type) : Type := mk {
  is_fraudulento : bool;
  classe_predita : Z;
  score_fraude : Z;
  confianca : Q;
  probabilidades : Q * Q;
  features_usadas : F
}.
Arguments mk {F}.
Arguments is_fraudulento {F} _.
Arguments classe_predita {F} _.
Arguments score_fraude {F} _.
Arguments confianca {F} _.
Arguments probabilidades {F} _.
Arguments features_usadas {F} _.
End Predicao.

(** [int(x)]: truncation toward zero. *)
Definition int_de_float (x : Q) : Z := Z.quot (Qnum x) (Zpos (Qden x)).

(** Rounding to the nearest integer, a tie going to the even one. *)
Definition arredondar_par (q : Q) : Z :=
  let f := Qfloor q in
  let resto := (q - inject_Z f)%Q in
  if Qgt_bool resto (1 # 2) then f + 1
  else if Qgt_bool (1 # 2) resto then f
  else if Z.even f then f else f + 1.

(** The exponent of a number that is not zero: the [e] with
    [2^e <= |x| < 2^(e+1)]. *)
Definition expoente (x : Q) : Z :=
  let a := Qabs x in
  if Qle_bool 1 a then Z.log2 (Qfloor a) else - Z.log2_up (Qceiling (/ a)).

(** [m * 2^q]. *)
Definition escala (m q : Z) : Q :=
  match q with
  | Zneg p => m # 2 ^ p
  | _ => inject_Z (m * 2 ^ q)
  end.

(** The float nearest to a number, a tie going to the even significand:
    the multiple of [2^q] nearest to it, where [q] leaves 53 bits to the
    significand and is not below the step [2^-1074] of the subnormal
    floats. *)
Definition binary64 (x : Q) : Q :=
  if Qeq_bool x 0 then 0%Q
  else
    let q := Z.max (expoente x - 52) (-1074) in
    escala (arredondar_par (x * escala 1 (- q))) q.

(** [a * b] of two floats. *)
Definition mul_float (a b : Q) : Q := binary64 (a * b).

Definition predizer_fraude {F : Type} (modelo : Modelo F) (features : F)
  : result (Predicao.t F) :=
  let classe := predict modelo features in
  let probabilidades := predict_proba modelo features in
  prob_falso <- item_de probabilidades 0 ;;
  prob_verdadeiro <- item_de probabilidades 1 ;;
  Ok {| Predicao.is_fraudulento := (classe =? 0);
        Predicao.classe_predita := classe;
        Predicao.score_fraude := int_de_float (mul_float prob_falso 100);
        Predicao.confianca := max2 prob_falso prob_verdadeiro;
        Predicao.probabilidades := (prob_falso, prob_verdadeiro);
        Predicao.features_usadas := features |}.

(** The score in the floats of Rocq, which are the binary64 floats of the
    machine as those of Python are. *)
Module Binary64.
Import PrimFloat FloatOps SpecFloat.

(** [int(x)] of a float: [None] for NaN and the infinities, on which [int]
    raises. *)
Definition int_binary64 (x : float) : option Z :=
  match Prim2SF x with
  | S754_zero _ => Some 0
  | S754_finite negativo m e =>
      let v := match e with
               | Z0 => Zpos m
               | Zpos p => Zpos m * 2 ^ Zpos p
               | Zneg p => Zpos m / 2 ^ Zpos p
               end in
      Some (if negativo then - v else v)
  | _ => None
  end.

(** [int(prob_falso * 100)]. *)
Definition score_binary64 (prob_falso : float) : option Z :=
  int_binary64 (mul prob_falso 100%float).

(** The number that a float denotes. *)
Definition racional (x : float) : option Q :=
  match Prim2SF x with
  | S754_zero _ => Some 0%Q
  | S754_finite negativo m e =>
      Some (escala (if negativo then Zneg m else Zpos m) e)
  | _ => None
  end.

(** [mul_float] gives the product of the floats, and [int_de_float] of it
    the score. *)
Definition confere_produto (x : float) : bool :=
  match racional x, racional (mul x 100%float), score_binary64 x with
  | Some q, Some r, Some s =>
      Qeq_bool (mul_float q 100) r && (int_de_float (mul_float q 100) =? s)
  | _, _, _ => false
  end.

(** The floats [0 / n], [1 / n], ..., [n / n]. *)
Definition fracoes (n : nat) : list float :=
  map (fun k => div (of_uint63 (Uint63.of_Z (Z.of_nat k)))
                    (of_uint63 (Uint63.of_Z (Z.of_nat n))))
      (seq 0 (S n)).

(** The probabilities of the examples: the float nearest to 0.05 and to
    0.35, and 0.75 and 0.6875. *)
Definition p_0_05 : float := 0x1.999999999999ap-5%float.
Definition p_0_35 : float := 0x1.6666666666666p-2%float.
Definition p_0_75 : float := 0.75%float.
Definition p_0_6875 : float := 0.6875%float.

End Binary64.

(** ** explainer.py *)

Definition ascii_lower (c : ascii) : ascii :=
  let n := nat_of_ascii c in
  if ((65 <=? n) && (n <=? 90))%nat then ascii_of_nat (n + 32) else c.

(** The second byte of a capital letter of the Latin-1 supplement
    (U+00C0 to U+00DE without the multiplication sign U+00D7). *)
Definition latin1_maiuscula (c : ascii) : bool :=
  let n := nat_of_ascii c in
  ((128 <=? n) && (n <=? 158) && negb (n =? 151))%nat.

(** [s.lower()], on ASCII and on the Latin-1 letters. *)
Fixpoint lower (s : string) : string :=
  match s with
  | EmptyString => EmptyString
  | String c s' =>
      if (nat_of_ascii c =? 195)%nat then
        match s' with
        | EmptyString => String c EmptyString
        | String d s'' =>
            if latin1_maiuscula d
            then String c (String (ascii_of_nat (nat_of_ascii d + 32)) (lower s''))
            else String c (String d (lower s''))
        end
      else String (ascii_lower c) (lower s')
  end.

(** [palavra in texto]. *)
Fixpoint contem (palavra texto : string) : bool :=
  String.prefix palavra texto
  || match texto with
     | EmptyString => false
     | String _ texto' => contem palavra texto'
     end.

(** [any(palavra in texto for palavra in palavras)]. *)
Definition alguma (palavras : list string) (texto : string) : bool :=
  existsb (fun palavra => contem palavra texto) palavras.

Definition _determinar_gravidade (erro : string) : string :=
  let erro_lower := lower erro in
  if alguma ["inválido"; "incorreto"; "falha crítica"] erro_lower then "critica"
  else if alguma ["dígito verificador"; "código de barras"] erro_lower then "alta"
  else if alguma ["formato"; "incompleto"] erro_lower then "media"
  else "baixa".

(** [d.get(chave, padrao)] on a dictionary given as an association list. *)
Fixpoint dict_get {A : Type} (d : list (string * A)) (chave : string)
  (padrao : A) : A :=
  match d with
  | [] => padrao
  | (k, v) :: d' => if (k =? chave)%string then v else dict_get d' chave padrao
  end.

Definition _calcular_impacto (gravidade : string) : Z :=
  dict_get [("critica", 95); ("alta", 80); ("media", 60); ("baixa", 30)]
           gravidade 50.

Definition _get_cor_gravidade (gravidade : string) : string :=
  dict_get [("critica", "danger"); ("alta", "warning");
            ("media", "medium"); ("baixa", "primary")]
           gravidade "medium".

Module Razao.
Record t : Type := mk {
  gravidade : string;
  categoria : string;
  categoria_nome : string;
  cor : string;
  titulo : string;
  descricao_simples : string;
  descricao_avancada : string;
  impacto : Z;
  fonte : string
}.
End Razao.

(** [f"{z:.0f}"] and [f"{z:.2f}"] of an integer. *)
Definition formatar_0f (z : Z) : string := str z.
Definition formatar_2f (z : Z) : string := str z ++ ".00".

(** Two digits, and the groups of three digits with their commas. *)
Definition dois_digitos (z : Z) : string :=
  if z <? 10 then "0" ++ str z else str z.

Definition tres_digitos (z : Z) : string :=
  if z <? 10 then "00" ++ str z
  else if z <? 100 then "0" ++ str z else str z.

Fixpoint milhares (n : nat) (z : Z) : string :=
  match n with
  | O => str z
  | S n' =>
      if z <? 1000 then str z
      else milhares n' (z / 1000) ++ "," ++ tres_digitos (z mod 1000)
  end.

(** [f"{q:,.2f}"] of a number that is not negative. *)
Definition formatar_milhares_2f (q : Q) : string :=
  let centavos := arredondar_par (q * 100) in
  milhares (Z.to_nat (Z.log2 centavos)) (centavos / 100)
  ++ "." ++ dois_digitos (centavos mod 100).

(** The entry of one validation error. *)
Definition razao_validacao (erro : string) : Razao.t :=
  let gravidade := _determinar_gravidade erro in
  {| Razao.gravidade := gravidade;
     Razao.categoria := "validacao_tecnica";
     Razao.categoria_nome := "Validação Técnica";
     Razao.cor := _get_cor_gravidade gravidade;
     Razao.titulo := "Possível Inconsistência Técnica";
     Razao.descricao_simples :=
       "Foi identificada uma possível irregularidade: " ++ erro;
     Razao.descricao_avancada :=
       "Validação FEBRABAN: " ++ erro
       ++ ". Isso pode indicar adulteração ou erro na geração do boleto.";
     Razao.impacto := _calcular_impacto gravidade;
     Razao.fonte := "Validação FEBRABAN" |}.

Definition razao_padrao_suspeito (score_fraude : Z) : Razao.t :=
  {| Razao.gravidade := "alta";
     Razao.categoria := "machine_learning";
     Razao.categoria_nome := "Análise de Padrões";
     Razao.cor := "danger";
     Razao.titulo := "Padrão Suspeito Identificado";
     Razao.descricao_simples :=
       "O modelo de IA identificou características que sugerem possível fraude (confiança: "
       ++ formatar_0f (score_fraude * 100) ++ "%)";
     Razao.descricao_avancada :=
       "Score de fraude: " ++ formatar_2f score_fraude
       ++ ". O modelo Random Forest, treinado com milhares de boletos reais e falsos, identificou padrões estatísticos atípicos que podem indicar falsificação.";
     Razao.impacto := 85;
     Razao.fonte := "Machine Learning" |}.

Definition razao_padrao_normal (score_fraude : Z) : Razao.t :=
  {| Razao.gravidade := "baixa";
     Razao.categoria := "machine_learning";
     Razao.categoria_nome := "Análise de Padrões";
     Razao.cor := "success";
     Razao.titulo := "Padrão Aparentemente Normal";
     Razao.descricao_simples :=
       "O modelo de IA não identificou características suspeitas significativas (confiança: "
       ++ formatar_0f ((1 - score_fraude) * 100) ++ "%)";
     Razao.descricao_avancada :=
       "Score de autenticidade: " ++ formatar_2f (1 - score_fraude)
       ++ ". As características analisadas sugerem conformidade com padrões de boletos legítimos.";
     Razao.impacto := 15;
     Razao.fonte := "Machine Learning" |}.

Definition razao_valor_elevado (valor : Q) : Razao.t :=
  {| Razao.gravidade := "media";
     Razao.categoria := "valor";
     Razao.categoria_nome := "Análise de Valor";
     Razao.cor := "warning";
     Razao.titulo := "Valor Elevado";
     Razao.descricao_simples :=
       "O valor do boleto é elevado (R$ " ++ formatar_milhares_2f valor
       ++ "). Recomenda-se verificação adicional.";
     Razao.descricao_avancada :=
       "Boletos com valores acima de R$ 10.000,00 merecem atenção extra. Em caso de fraude, o prejuízo seria significativo.";
     Razao.impacto := 60;
     Razao.fonte := "Análise de Risco" |}.

Definition razao_generica : Razao.t :=
  {| Razao.gravidade := "baixa";
     Razao.categoria := "geral";
     Razao.categoria_nome := "Análise Geral";
     Razao.cor := "primary";
     Razao.titulo := "Análise Completa Realizada";
     Razao.descricao_simples :=
       "Todas as verificações de segurança foram executadas.";
     Razao.descricao_avancada :=
       "O boleto passou por validação FEBRABAN, análise de Machine Learning e verificações de padrões suspeitos.";
     Razao.impacto := 30;
     Razao.fonte := "Sistema DetectaBB" |}.

(** [score > q] for the integer score against a float threshold. *)
Definition score_maior (score : Z) (q : Q) : bool := Qgt_bool (inject_Z score) q.
Definition score_menor (score : Z) (q : Q) : bool := Qgt_bool q (inject_Z score).

Definition _gerar_razoes_detalhadas {F : Type} (dados_extraidos : Dados)
  (resultado_validacao : Resultado) (predicao_ml : Predicao.t F)
  : result (list Razao.t) :=
  let razoes := [] in
  (* one entry per validation error *)
  let razoes := extend razoes (map razao_validacao (erros resultado_validacao)) in
  (* the classifier *)
  let score_fraude := Predicao.score_fraude predicao_ml in
  let razoes :=
    if score_maior score_fraude (7 # 10)
    then append razoes (razao_padrao_suspeito score_fraude)
    else if score_menor score_fraude (3 # 10)
    then append razoes (razao_padrao_normal score_fraude)
    else razoes in
  (* the amount *)
  elevado <- maior (valor dados_extraidos) 10000 ;;
  let razoes :=
    if elevado
    then match valor dados_extraidos with
         | PNum v => append razoes (razao_valor_elevado v)
         | _ => razoes
         end
    else razoes in
  (* the placeholder *)
  let razoes := if vazia razoes then append razoes razao_generica else razoes in
  Ok razoes.

Definition _identificar_principal_motivo {F : Type}
  (resultado_validacao : Resultado) (predicao_ml : Predicao.t F) : string :=
  let es := erros resultado_validacao in
  match es with
  | primeiro :: _ =>
      let erros_criticos :=
        filter (fun e => contem "inválido" (lower e)
                         || contem "incorreto" (lower e)) es in
      match erros_criticos with
      | critico :: _ => "Possível irregularidade detectada: " ++ critico
      | [] => "Inconsistência identificada: " ++ primeiro
      end
  | [] =>
      let score := Predicao.score_fraude predicao_ml in
      if score_maior score (8 # 10)
      then "Modelo de ML identificou padrão suspeito com alta confiança"
      else if score_maior score (6 # 10)
      then "Modelo de ML identificou características atípicas"
      else if score_menor score (3 # 10)
      then "Todas as verificações sugerem autenticidade"
      else "Análise inconclusiva - recomenda-se verificação manual"
  end.

Module Recomendacao.
Record t : Type := mk {
  nivel_risco : string;
  cor : string;
  acao_principal : string;
  mensagem : string;
  proximos_passos : list string
}.
End Recomendacao.

(** [a >= b] on floats. *)
Definition Qge_bool (a b : Q) : bool := Qle_bool b a.

Definition _gerar_recomendacao (is_fraudulento : bool) (confianca : Q)
  (score_fraude : Z) : Recomendacao.t :=
  if is_fraudulento then
    if Qge_bool confianca (85 # 100) then
      {| Recomendacao.nivel_risco := "ALTO";
         Recomendacao.cor := "danger";
         Recomendacao.acao_principal := "NÃO PAGAR (Alta Probabilidade de Fraude)";
         Recomendacao.mensagem :=
           "Este boleto apresenta FORTES indícios de falsificação. Recomendamos fortemente não efetuar o pagamento.";
         Recomendacao.proximos_passos :=
           ["NÃO efetue o pagamento deste boleto";
            "Entre em contato DIRETAMENTE com a empresa emissora pelos canais oficiais";
            "Reporte este possível boleto falso às autoridades competentes";
            "Solicite um novo boleto através de canais seguros e oficiais";
            "Verifique se o e-mail/site de origem é legítimo"] |}
    else if Qge_bool confianca (65 # 100) then
      {| Recomendacao.nivel_risco := "MÉDIO-ALTO";
         Recomendacao.cor := "warning";
         Recomendacao.acao_principal := "VERIFICAR ANTES DE PAGAR";
         Recomendacao.mensagem :=
           "Este boleto apresenta características suspeitas. É necessária verificação adicional antes do pagamento.";
         Recomendacao.proximos_passos :=
           ["Aguarde! Não pague ainda";
            "Confirme os dados com a empresa emissora pelos canais oficiais";
            "Verifique se os dados bancários correspondem aos oficiais";
            "Confirme a autenticidade do e-mail/site de origem";
            "Solicite nova via por canal seguro, se necessário"] |}
    else
      {| Recomendacao.nivel_risco := "MÉDIO";
         Recomendacao.cor := "warning";
         Recomendacao.acao_principal := "PROCEDER COM CAUTELA";
         Recomendacao.mensagem :=
           "Algumas irregularidades foram detectadas. Recomendamos verificação antes do pagamento.";
         Recomendacao.proximos_passos :=
           ["Confira cuidadosamente todos os dados do boleto";
            "Em caso de dúvida, contate a empresa emissora";
            "Verifique se o valor e vencimento estão corretos";
            "Confirme se o banco é o esperado para este tipo de cobrança"] |}
  else
    if Qge_bool confianca (85 # 100) then
      {| Recomendacao.nivel_risco := "BAIXO";
         Recomendacao.cor := "success";
         Recomendacao.acao_principal := "PODE PAGAR (Com Verificação)";
         Recomendacao.mensagem :=
           "Este boleto aparenta ser autêntico. Mesmo assim, sempre confira os dados antes do pagamento.";
         Recomendacao.proximos_passos :=
           ["Boleto aparenta ser legítimo";
            "Confira os dados: valor, vencimento e beneficiário";
            "Verifique se o banco corresponde ao esperado";
            "Em caso de qualquer dúvida, contate o emissor";
            "Proceda com o pagamento normalmente"] |}
    else if Qge_bool confianca (65 # 100) then
      {| Recomendacao.nivel_risco := "BAIXO-MÉDIO";
         Recomendacao.cor := "success";
         Recomendacao.acao_principal := "PROVÁVEL AUTENTICIDADE";
         Recomendacao.mensagem :=
           "O boleto passou nas verificações básicas, mas sempre confirme os dados importantes.";
         Recomendacao.proximos_passos :=
           ["Verificações de segurança aprovadas";
            "Confira valor e vencimento";
            "Em caso de dúvida, confirme com o emissor";
            "Você pode prosseguir com o pagamento"] |}
    else
      {| Recomendacao.nivel_risco := "INCERTO";
         Recomendacao.cor := "medium";
         Recomendacao.acao_principal := "VERIFICAR MANUALMENTE";
         Recomendacao.mensagem :=
           "Não foi possível determinar com certeza. Recomendamos verificação manual cuidadosa.";
         Recomendacao.proximos_passos :=
           ["Analise cuidadosamente todos os dados";
            "Confirme a autenticidade com o emissor";
            "Verifique os dados bancários";
            "Proceda somente após confirmação"] |}.

Module Simples.
Record t : Type := mk {
  status : string;
  confianca : string;
  resumo : string;
  principal_motivo : string;
  acao_recomendada : string
}.
End Simples.

(** The three dictionaries of the technical explanation, side by side. *)
Module Avancado.
Record t : Type := mk {
  (* analise_tecnica *)
  modelo_ml : string;
  score_fraude : Z;
  confianca_percentual : Q;
  probabilidades : Q * Q;
  limiar_decisao : Q;
  (* metricas *)
  features_analisadas : Z;
  validacoes_tecnicas : nat;
  peso_validacao : Q;
  peso_ml : Q;
  (* detalhes_tecnicos *)
  validacao_febraban : bool;
  erros_encontrados : list string;
  features_importantes : list string
}.
End Avancado.

Module Explicacao.
Record t : Type := mk {
  simples : Simples.t;
  avancado : Avancado.t;
  razoes : list Razao.t;
  recomendacao : Recomendacao.t;
  gerado_em : string
}.
End Explicacao.

(** [round(x, 2)] of a float. *)
Definition round2 (x : Q) : Q := (inject_Z (arredondar_par (x * 100)) / 100)%Q.

(** The callers pass neither [shap_values] nor [feature_names]: both keep
    their default [None]. *)
Definition gerar_explicacao_humanizada {F : Type} (rt : Runtime)
  (dados_extraidos : Dados) (resultado_validacao : Resultado)
  (predicao_ml : Predicao.t F) : result Explicacao.t :=
  let is_fraudulento := Predicao.is_fraudulento predicao_ml in
  let score_fraude := Predicao.score_fraude predicao_ml in
  let confianca := Predicao.confianca predicao_ml in
  let nivel_confianca :=
    if Qge_bool confianca (9 # 10) then "Muito Alta"
    else if Qge_bool confianca (75 # 100) then "Alta"
    else if Qge_bool confianca (6 # 10) then "Média"
    else "Baixa" in
  let '(status, resumo, acao_recomendada) :=
    if is_fraudulento
    then ("POSSIVELMENTE FALSO",
          "Este boleto apresenta características suspeitas que sugerem possível falsificação.",
          "Recomendamos NÃO efetuar o pagamento sem verificação adicional")
    else ("POSSIVELMENTE AUTÊNTICO",
          "Este boleto aparenta ser autêntico, mas sempre confira os dados com o emissor.",
          "Você pode prosseguir com cautela, mas sempre verifique os dados") in
  let explicacao_simples :=
    {| Simples.status := status;
       Simples.confianca := nivel_confianca;
       Simples.resumo := resumo;
       Simples.principal_motivo :=
         _identificar_principal_motivo resultado_validacao predicao_ml;
       Simples.acao_recomendada := acao_recomendada |} in
  let explicacao_avancada :=
    {| Avancado.modelo_ml := "Random Forest Classifier";
       Avancado.score_fraude := score_fraude * 100;
       Avancado.confianca_percentual := round2 (mul_float confianca 100);
       Avancado.probabilidades := Predicao.probabilidades predicao_ml;
       Avancado.limiar_decisao := 5 # 10;
       Avancado.features_analisadas := 0;
       Avancado.validacoes_tecnicas := List.length (erros resultado_validacao);
       Avancado.peso_validacao := 4 # 10;
       Avancado.peso_ml := 6 # 10;
       Avancado.validacao_febraban := negb (valido resultado_validacao);
       Avancado.erros_encontrados := erros resultado_validacao;
       Avancado.features_importantes := [] |} in
  razoes <- _gerar_razoes_detalhadas dados_extraidos resultado_validacao
              predicao_ml ;;
  let recomendacao := _gerar_recomendacao is_fraudulento confianca score_fraude in
  Ok {| Explicacao.simples := explicacao_simples;
        Explicacao.avancado := explicacao_avancada;
        Explicacao.razoes := razoes;
        Explicacao.recomendacao := recomendacao;
        Explicacao.gerado_em := isoformat rt (agora rt) |}.

(** ** tasks.py: the fused verdict *)

Module FraudeAnalise.
Record t : Type := mk {
  isFraudulento : bool;
  score : Z;
  confianca : Q;
  metodos : list string;
  motivos : list string;
  explicacao : Explicacao.t
}.
End FraudeAnalise.

(** Step 5 of [processar_boleto] and the [fraudeAnalise] dictionary it
    stores. *)
Definition fraude_analise {F : Type} (validacao : Resultado)
  (predicao_ml : Predicao.t F) (explicacao : Explicacao.t) : FraudeAnalise.t :=
  let is_fraudulento :=
    negb (valido validacao) || Predicao.is_fraudulento predicao_ml in
  let metodos := [] in
  let metodos :=
    if negb (valido validacao) then append metodos "validacao_febraban"
    else metodos in
  let metodos :=
    if Predicao.is_fraudulento predicao_ml then append metodos "modelo_ml"
    else metodos in
  {| FraudeAnalise.isFraudulento := is_fraudulento;
     FraudeAnalise.score := Predicao.score_fraude predicao_ml;
     FraudeAnalise.confianca := Predicao.confianca predicao_ml;
     FraudeAnalise.metodos := metodos;
     FraudeAnalise.motivos :=
       if negb (valido validacao) then erros validacao else [];
     FraudeAnalise.explicacao := explicacao |}.

(** ** parser.py: regular expressions *)

(** The fragment of the [re] syntax the patterns use.  Matching is by
    backtracking, leftmost, each repetition greedy, as [re.search] does. *)
Inductive regex : Type :=
| Classe (p : ascii -> bool)
| Seq (r1 r2 : regex)
| Opc (r : regex)
| Estrela (r : regex)
| Grupo (r : regex)
| Fronteira
| Vazio.

(** [r{n}], [r{1,3}] and [r+]. *)
Fixpoint vezes (n : nat) (r : regex) : regex :=
  match n with
  | O => Vazio
  | S O => r
  | S n' => Seq r (vezes n' r)
  end.

Definition um_a_tres (r : regex) : regex := Seq r (Opc (Seq r (Opc r))).
Definition mais (r : regex) : regex := Seq r (Estrela r).

Fixpoint sequencia (rs : list regex) : regex :=
  match rs with
  | [] => Vazio
  | [r] => r
  | r :: rs' => Seq r (sequencia rs')
  end.

Definition codigo (c : ascii) : nat := nat_of_ascii c.

(** [\s], [\w], a character of a set, and a letter under IGNORECASE. *)
Definition is_space (c : ascii) : bool :=
  (((9 <=? codigo c) && (codigo c <=? 13))
   || ((28 <=? codigo c) && (codigo c <=? 32)))%nat.

Definition is_word (c : ascii) : bool :=
  (is_digit c
   || ((65 <=? codigo c) && (codigo c <=? 90))
   || ((97 <=? codigo c) && (codigo c <=? 122))
   || (codigo c =? 95))%nat.

Definition um_de (cs : string) (c : ascii) : bool :=
  existsb (Ascii.eqb c) (list_ascii_of_string cs).

Definition letra (l : ascii) (c : ascii) : bool :=
  Ascii.eqb (ascii_lower c) (ascii_lower l).

(** A literal word, letter by letter; [caixa] is false under IGNORECASE. *)
Definition literal (caixa : bool) (palavra : string) : regex :=
  sequencia (map (fun l => Classe (if caixa then Ascii.eqb l else letra l))
                 (list_ascii_of_string palavra)).

Definition digito : regex := Classe is_digit.
Definition espaco : regex := Classe is_space.
Definition ponto_ou_espaco : regex := Classe (fun c => um_de "." c || is_space c).

(** Where the matcher stands: the character before, the text ahead and the
    groups closed so far. *)
Record Estado : Type := {
  anterior : option ascii;
  adiante : string;
  grupos : list string
}.

Definition proximo (s : string) : option ascii :=
  match s with
  | EmptyString => None
  | String c _ => Some c
  end.

Definition palavra_em (c : option ascii) : bool :=
  match c with
  | Some x => is_word x
  | None => false
  end.

Fixpoint casar (r : regex) (k : Estado -> option Estado) (e : Estado)
  : option Estado :=
  match r with
  | Classe p =>
      match adiante e with
      | String c s' =>
          if p c
          then k {| anterior := Some c; adiante := s'; grupos := grupos e |}
          else None
      | EmptyString => None
      end
  | Seq r1 r2 => casar r1 (casar r2 k) e
  | Opc r' =>
      match casar r' k e with
      | Some e' => Some e'
      | None => k e
      end
  | Estrela r' =>
      (fix laco (n : nat) (e0 : Estado) : option Estado :=
         match n with
         | O => k e0
         | S n' =>
             match casar r' (laco n') e0 with
             | Some e' => Some e'
             | None => k e0
             end
         end) (String.length (adiante e)) e
  | Grupo r' =>
      casar r'
        (fun e' =>
           let n := (String.length (adiante e) - String.length (adiante e'))%nat in
           k {| anterior := anterior e';
                adiante := adiante e';
                grupos := append (grupos e') (take n (adiante e)) |})
        e
  | Fronteira =>
      if xorb (palavra_em (anterior e)) (palavra_em (proximo (adiante e)))
      then k e
      else None
  | Vazio => k e
  end.

Fixpoint procurar (r : regex) (antes : option ascii) (s : string)
  : option Estado :=
  match casar r Some {| anterior := antes; adiante := s; grupos := [] |} with
  | Some e => Some e
  | None =>
      match s with
      | EmptyString => None
      | String c s' => procurar r (Some c) s'
      end
  end.

(** [re.search(padrao, texto)], as the groups of the first match. *)
Definition re_search (padrao : regex) (texto : string) : option (list string) :=
  option_map grupos (procurar padrao None texto).

(** [match.group(i + 1)]. *)
Definition grupo (gs : list string) (i : nat) : string := nth i gs "".

(** [s.replace(a, b)] for a one-character [a]. *)
Fixpoint replace (a : ascii) (b : string) (s : string) : string :=
  match s with
  | EmptyString => EmptyString
  | String c s' =>
      if Ascii.eqb c a then b ++ replace a b s' else String c (replace a b s')
  end.

(** ** parser.py: the extractors *)

Definition padrao_linha : regex :=
  sequencia
    [Grupo (vezes 5 digito); Opc ponto_ou_espaco;
     Grupo (vezes 5 digito); Opc espaco;
     Grupo (vezes 5 digito); Opc ponto_ou_espaco;
     Grupo (vezes 6 digito); Opc espaco;
     Grupo (vezes 5 digito); Opc ponto_ou_espaco;
     Grupo (vezes 6 digito); Opc espaco;
     Grupo digito; Opc espaco;
     Grupo (vezes 14 digito)].

(** [\b(\d{n})\b]. *)
Definition padrao_so_digitos (n : nat) : regex :=
  sequencia [Fronteira; Grupo (vezes n digito); Fronteira].

Definition nova_linha : ascii := ascii_of_nat 10.

Definition extrair_linha_digitavel (texto : string) : option string :=
  let texto := replace nova_linha " " texto in
  match re_search padrao_linha texto with
  | Some gs =>
      Some (grupo gs 0 ++ "." ++ grupo gs 1 ++ " " ++ grupo gs 2 ++ "."
            ++ grupo gs 3 ++ " " ++ grupo gs 4 ++ "." ++ grupo gs 5 ++ " "
            ++ grupo gs 6 ++ " " ++ grupo gs 7)
  | None =>
      match re_search (padrao_so_digitos 47) texto with
      | Some gs =>
          (* 47 digits: [digitos[32]] is the slice [32:33] *)
          let digitos := grupo gs 0 in
          Some (slice digitos 0 5 ++ "." ++ slice digitos 5 10 ++ " "
                ++ slice digitos 10 15 ++ "." ++ slice digitos 15 21 ++ " "
                ++ slice digitos 21 26 ++ "." ++ slice digitos 26 32 ++ " "
                ++ slice digitos 32 33 ++ " " ++ slice digitos 33 47)
      | None => None
      end
  end.

Definition extrair_codigo_barras (texto : string) : option string :=
  match re_search (padrao_so_digitos 44) texto with
  | Some gs => Some (grupo gs 0)
  | None => None
  end.

(** [\d{1,3}(?:[.,]\d{3})*[.,]\d{2}]. *)
Definition quantia : regex :=
  sequencia
    [um_a_tres digito;
     Estrela (Seq (Classe (um_de ".,")) (vezes 3 digito));
     Classe (um_de ".,"); vezes 2 digito].

(** [R\$?\s?], under IGNORECASE. *)
Definition cifrao : regex :=
  sequencia [Classe (letra "R"); Opc (Classe (um_de "$")); Opc espaco].

Definition padroes_valor : list regex :=
  [Seq cifrao (Grupo quantia);
   sequencia [literal false "Valor"; mais (Classe (fun c => um_de ":" c || is_space c));
              cifrao; Grupo quantia];
   Grupo quantia].

(** The value of a string of decimal digits. *)
Definition int_digitos (s : string) : Z :=
  fold_left (fun n c => 10 * n + (Z.of_nat (nat_of_ascii c) - 48))
            (list_ascii_of_string s) 0.

Fixpoint contar (a : ascii) (s : string) : nat :=
  match s with
  | EmptyString => O
  | String c s' => if Ascii.eqb c a then S (contar a s') else contar a s'
  end.

Fixpoint antes_de (a : ascii) (s : string) : string :=
  match s with
  | EmptyString => EmptyString
  | String c s' => if Ascii.eqb c a then EmptyString else String c (antes_de a s')
  end.

Fixpoint depois_de (a : ascii) (s : string) : string :=
  match s with
  | EmptyString => EmptyString
  | String c s' => if Ascii.eqb c a then s' else depois_de a s'
  end.

(** [float(s)] for a string of decimal digits with at most one point in
    it, which is what [quantia] leaves once its points are removed and its
    commas are turned into points; more than one point is a ValueError. *)
Definition float_de_str (s : string) : result Q :=
  if forall_str (fun c => is_digit c || um_de "." c) s
     && negb (filter_str is_digit s =? "")%string
     && (contar "." s <=? 1)%nat
  then
    let inteira := antes_de "." s in
    let decimal := depois_de "." s in
    Ok (inject_Z (int_digitos (inteira ++ decimal))
        / inject_Z (10 ^ Z.of_nat (String.length decimal)))%Q
  else Raise (ValueError "float" s).

(** [for padrao in padroes: ...], the body giving [None] for [continue]. *)
Fixpoint primeiro_que {A B : Type} (f : A -> option B) (l : list A) : option B :=
  match l with
  | [] => None
  | x :: l' =>
      match f x with
      | Some y => Some y
      | None => primeiro_que f l'
      end
  end.

Definition extrair_valor (texto : string) : option Q :=
  primeiro_que
    (fun padrao =>
       match re_search padrao texto with
       | Some gs =>
           let valor_str := grupo gs 0 in
           let valor_str := replace "," "." (replace "." "" valor_str) in
           match float_de_str valor_str with
           | Ok v => Some v
           | Raise _ => None
           end
       | None => None
       end)
    padroes_valor.

(** [\d{2}/\d{2}/\d{n}]. *)
Definition data (n : nat) : regex :=
  sequencia [vezes 2 digito; Classe (um_de "/"); vezes 2 digito;
             Classe (um_de "/"); vezes n digito].

Definition padroes_vencimento : list regex :=
  [sequencia [literal false "Vencimento";
              mais (Classe (fun c => um_de ":" c || is_space c));
              Grupo (data 4)];
   Grupo (data 4);
   Grupo (data 2)].

Definition extrair_vencimento (rt : Runtime) (texto : string) : option string :=
  primeiro_que
    (fun padrao =>
       match re_search padrao texto with
       | Some gs =>
           let data_str := grupo gs 0 in
           if (String.length data_str =? 10)%nat then
             match strptime rt (PStr data_str) "%d/%m/%Y" with
             | Ok _ => Some data_str
             | Raise _ => None
             end
           else
             match strptime rt (PStr data_str) "%d/%m/%y" with
             | Ok d => Some (strftime rt d "%d/%m/%Y")
             | Raise _ => None
             end
       | None => None
       end)
    padroes_vencimento.

Definition padroes_cnpj : list regex :=
  [Grupo (sequencia
            [vezes 2 digito; Opc ponto_ou_espaco;
             vezes 3 digito; Opc ponto_ou_espaco;
             vezes 3 digito; Opc (Classe (fun c => um_de "/" c || is_space c));
             vezes 4 digito; Opc (Classe (fun c => um_de "-" c || is_space c));
             vezes 2 digito]);
   padrao_so_digitos 14].

Definition extrair_cnpj (texto : string) : option string :=
  primeiro_que
    (fun padrao =>
       match re_search padrao texto with
       | Some gs =>
           let cnpj := filter_str is_digit (grupo gs 0) in
           if (String.length cnpj =? 14)%nat
           then Some (slice cnpj 0 2 ++ "." ++ slice cnpj 2 5 ++ "."
                      ++ slice cnpj 5 8 ++ "/" ++ slice cnpj 8 12 ++ "-"
                      ++ slice cnpj 12 14)
           else None
       | None => None
       end)
    padroes_cnpj.

Definition bancos : list (string * string) :=
  [("001", "Banco do Brasil"); ("033", "Santander");
   ("104", "Caixa Econômica Federal"); ("237", "Bradesco");
   ("341", "Itaú"); ("748", "Sicredi"); ("756", "Bancoob");
   ("077", "Banco Inter"); ("260", "Nubank"); ("290", "PagSeguro");
   ("403", "Cora")].

(** [bancos.get(codigo_banco, f"Banco {codigo_banco}")]: the default is
    built before the lookup; a list cannot be hashed, and nothing but a
    string is equal to a key. *)
Definition identificar_banco (rt : Runtime) (codigo_banco : pyval)
  : result string :=
  let padrao := "Banco " ++ formatar rt codigo_banco in
  match codigo_banco with
  | PStr s => Ok (dict_get bancos s padrao)
  | PList _ => Raise (TypeError "hash" codigo_banco)
  | _ => Ok padrao
  end.

(** ** parser.py: the boleto *)

Definition dados_vazios : Dados :=
  {| codigo_barras := PNone; linha_digitavel := PNone; valor := PNone;
     vencimento := PNone; beneficiario_nome := PNone;
     beneficiario_cnpj := PNone; codigo_banco := PNone; banco_nome := PNone;
     agencia := PNone |}.

(** [dados[chave] = v], one definition a key. *)
Definition com_linha_digitavel (v : pyval) (d : Dados) : Dados :=
  {| codigo_barras := codigo_barras d; linha_digitavel := v; valor := valor d;
     vencimento := vencimento d; beneficiario_nome := beneficiario_nome d;
     beneficiario_cnpj := beneficiario_cnpj d; codigo_banco := codigo_banco d;
     banco_nome := banco_nome d; agencia := agencia d |}.

Definition com_codigo_banco (v : pyval) (d : Dados) : Dados :=
  {| codigo_barras := codigo_barras d; linha_digitavel := linha_digitavel d;
     valor := valor d; vencimento := vencimento d;
     beneficiario_nome := beneficiario_nome d;
     beneficiario_cnpj := beneficiario_cnpj d; codigo_banco := v;
     banco_nome := banco_nome d; agencia := agencia d |}.

Definition com_codigo_barras (v : pyval) (d : Dados) : Dados :=
  {| codigo_barras := v; linha_digitavel := linha_digitavel d;
     valor := valor d; vencimento := vencimento d;
     beneficiario_nome := beneficiario_nome d;
     beneficiario_cnpj := beneficiario_cnpj d; codigo_banco := codigo_banco d;
     banco_nome := banco_nome d; agencia := agencia d |}.

Definition com_valor (v : pyval) (d : Dados) : Dados :=
  {| codigo_barras := codigo_barras d; linha_digitavel := linha_digitavel d;
     valor := v; vencimento := vencimento d;
     beneficiario_nome := beneficiario_nome d;
     beneficiario_cnpj := beneficiario_cnpj d; codigo_banco := codigo_banco d;
     banco_nome := banco_nome d; agencia := agencia d |}.

Definition com_vencimento (v : pyval) (d : Dados) : Dados :=
  {| codigo_barras := codigo_barras d; linha_digitavel := linha_digitavel d;
     valor := valor d; vencimento := v;
     beneficiario_nome := beneficiario_nome d;
     beneficiario_cnpj := beneficiario_cnpj d; codigo_banco := codigo_banco d;
     banco_nome := banco_nome d; agencia := agencia d |}.

Definition com_beneficiario_cnpj (v : pyval) (d : Dados) : Dados :=
  {| codigo_barras := codigo_barras d; linha_digitavel := linha_digitavel d;
     valor := valor d; vencimento := vencimento d;
     beneficiario_nome := beneficiario_nome d;
     beneficiario_cnpj := v; codigo_banco := codigo_banco d;
     banco_nome := banco_nome d; agencia := agencia d |}.

Definition com_banco_nome (v : pyval) (d : Dados) : Dados :=
  {| codigo_barras := codigo_barras d; linha_digitavel := linha_digitavel d;
     valor := valor d; vencimento := vencimento d;
     beneficiario_nome := beneficiario_nome d;
     beneficiario_cnpj := beneficiario_cnpj d; codigo_banco := codigo_banco d;
     banco_nome := v; agencia := agencia d |}.

(** An extractor's [str] or [None], and its truth as [if x:] tests it. *)
Definition de_str (o : option string) : pyval :=
  match o with
  | Some s => PStr s
  | None => PNone
  end.

Definition de_float (o : option Q) : pyval :=
  match o with
  | Some q => PNum q
  | None => PNone
  end.

(** The text is a [str]: the five extractors cannot raise on it, so the
    handler of [parse_dados_boleto] can only be entered from step 6, and
    returns the dictionary as it stands there. *)
Definition parse_dados_boleto (rt : Runtime) (texto_ocr : string) : Dados :=
  let dados := dados_vazios in
  (* 1. linha digitável *)
  let linha := de_str (extrair_linha_digitavel texto_ocr) in
  let dados :=
    if truthy linha
    then match linha with
         | PStr s => com_codigo_banco (PStr (slice s 0 3))
                       (com_linha_digitavel linha dados)
         | _ => dados
         end
    else dados in
  (* 2. código de barras *)
  let barras := de_str (extrair_codigo_barras texto_ocr) in
  let dados := if truthy barras then com_codigo_barras barras dados else dados in
  (* 3. valor *)
  let v := de_float (extrair_valor texto_ocr) in
  let dados := if truthy v then com_valor v dados else dados in
  (* 4. vencimento *)
  let venc := de_str (extrair_vencimento rt texto_ocr) in
  let dados := if truthy venc then com_vencimento venc dados else dados in
  (* 5. CNPJ *)
  let cnpj := de_str (extrair_cnpj texto_ocr) in
  let dados := if truthy cnpj then com_beneficiario_cnpj cnpj dados else dados in
  (* 6. banco *)
  match identificar_banco rt (codigo_banco dados) with
  | Ok banco =>
      if truthy (PStr banco) then com_banco_nome (PStr banco) dados else dados
  | Raise _ => dados
  end.

(** ** model.py: the features *)

Module Features.
Record t : Type := mk {
  banco : Z;
  codigoBanco : Z;
  agencia : Z;
  valor : Q;
  linha_codBanco : Z;
  linha_moeda : Z;
  linha_valor : Z
}.
End Features.

Fixpoint strip_esquerda (s : string) : string :=
  match s with
  | EmptyString => EmptyString
  | String c s' => if is_space c then strip_esquerda s' else s
  end.

Definition inverter (s : string) : string :=
  string_of_list_ascii (rev (list_ascii_of_string s)).

(** [s.strip()]. *)
Definition strip (s : string) : string :=
  inverter (strip_esquerda (inverter (strip_esquerda s))).

(** Digits, with single underscores between them only. *)
Fixpoint digitos_agrupados (s : string) : bool :=
  match s with
  | EmptyString => false
  | String c s' =>
      is_digit c
      && match s' with
         | EmptyString => true
         | String d s'' =>
             if Ascii.eqb d "_" then digitos_agrupados s''
             else digitos_agrupados s'
         end
  end.

(** [int(s)] of a string: blanks around, a sign, decimal digits. *)
Definition int_str (s : string) : result Z :=
  let t := strip s in
  let '(sinal, corpo) :=
    match t with
    | String c t' =>
        if Ascii.eqb c "-" then (-1, t')
        else if Ascii.eqb c "+" then (1, t') else (1, t)
    | EmptyString => (1, t)
    end in
  if digitos_agrupados corpo
  then Ok (sinal * int_digitos (filter_str is_digit corpo))
  else Raise (ValueError "int" s).

(** [int(v)] and [float(v)].  An amount that is a [str] does not come from
    the parser; it is read by [float_de_str], which knows digits and one
    point only. *)
Definition int_de (v : pyval) : result Z :=
  match v with
  | PStr s => int_str s
  | PNum q => Ok (int_de_float q)
  | _ => Raise (TypeError "int" v)
  end.

Definition float_de (v : pyval) : result Q :=
  match v with
  | PStr s => float_de_str s
  | PNum q => Ok q
  | _ => Raise (TypeError "float" v)
  end.

Definition preparar_features (dados_extraidos : Dados) : result Features.t :=
  (* linha = dados.get('linha_digitavel', '') or '' *)
  let linha :=
    if truthy (linha_digitavel dados_extraidos)
    then linha_digitavel dados_extraidos else PStr "" in
  linha_digitos <-
    match linha with
    | PStr s => Ok (replace " " "" (replace "." "" s))
    | _ => Raise (AttributeError "replace" linha)
    end ;;
  let n := String.length linha_digitos in
  linha_codBanco <-
    (if (3 <=? n)%nat then int_str (slice linha_digitos 0 3) else Ok 0) ;;
  linha_moeda <-
    (if (4 <=? n)%nat then c <- index linha_digitos 3 ;; int_str c else Ok 0) ;;
  linha_valor <-
    (if (47 <=? n)%nat then int_str (slice linha_digitos 37 47) else Ok 0) ;;
  codigo_banco <-
    match codigo_banco dados_extraidos with
    | PNone => Ok 0
    | v => int_de v
    end ;;
  valor <-
    match valor dados_extraidos with
    | PNone => Ok 0%Q
    | v => float_de v
    end ;;
  let agencia :=
    match agencia dados_extraidos with
    | PNone => 0
    | v =>
        let v' := match v with
                  | PStr s => PStr (antes_de "-" s)
                  | _ => v
                  end in
        match int_de v' with
        | Ok a => a
        | Raise _ => 0
        end
    end in
  Ok {| Features.banco := codigo_banco;
        Features.codigoBanco := codigo_banco;
        Features.agencia := agencia;
        Features.valor := valor;
        Features.linha_codBanco := linha_codBanco;
        Features.linha_moeda := linha_moeda;
        Features.linha_valor := linha_valor |}.

(** ** tasks.py: the job *)

(** [processar_boleto] from the text of the OCR on, without its writes to
    the database: an exception of a step is the failure of the job. *)
Definition processar_boleto (rt : Runtime) (modelo : Modelo Features.t)
  (texto : string) : result FraudeAnalise.t :=
  let dados := parse_dados_boleto rt texto in
  let validacao := validar_boleto_febraban rt dados in
  features <- preparar_features dados ;;
  predicao_ml <- predizer_fraude modelo features ;;
  explicacao <-
    gerar_explicacao_humanizada rt dados validacao predicao_ml ;;
  Ok (fraude_analise validacao predicao_ml explicacao).

(** ** api/main.py: the verdict of [test_ocr] *)

(** The dictionary [resultado_final]; [motivos] and [explicacao] are keys
    that it may not have. *)
Module ResultadoFinal.
Record t : Type := mk {
  isFraudulento : bool;
  score : Z;
  confianca : Q;
  metodos : list string;
  motivos : option (list string);
  explicacao : option Explicacao.t
}.
End ResultadoFinal.

(** Step 6 of [test_ocr] and what it adds for an authenticated caller. *)
Definition resultado_final {F : Type} (is_authenticated : bool)
  (validacao : Resultado) (predicao_ml : Predicao.t F)
  (explicacao : Explicacao.t) : ResultadoFinal.t :=
  let is_fraudulento :=
    Bool.eqb (valido validacao) false || Predicao.is_fraudulento predicao_ml in
  let metodos := [] in
  let motivos := None in
  let '(metodos, motivos) :=
    if negb (valido validacao)
    then (append metodos "validacao_febraban", Some (erros validacao))
    else (metodos, motivos) in
  let metodos :=
    if Predicao.is_fraudulento predicao_ml then append metodos "modelo_ml"
    else metodos in
  {| ResultadoFinal.isFraudulento := is_fraudulento;
     ResultadoFinal.score := Predicao.score_fraude predicao_ml;
     ResultadoFinal.confianca := Predicao.confianca predicao_ml;
     ResultadoFinal.metodos := metodos;
     ResultadoFinal.motivos := motivos;
     ResultadoFinal.explicacao :=
       if is_authenticated then Some explicacao else None |}.

(** ** api/main.py and auth/routes.py: the quota of an anonymous address *)

(** A document of [db.acessos_anonimos], with the fields that the code
    reads: [None] is a key that the document does not have and, for
    [ultima_analise], one that holds null, as [.get] gives [None] for
    both.  The field [data_registro] of [AcessoAnonimo] is never read. *)
Module Acesso.
Record t : Type := mk {
  ip_address : string;
  analises_hoje : option Z;
  ultima_analise : option Z
}.
End Acesso.

(** [t.date()] of a [datetime], a count of microseconds: its count of
    days. *)
Definition date (t : Z) : Z := t / 86400000000.

(** [find_one({"ip_address": ip})]: the first document of the address. *)
Definition find_one (colecao : list Acesso.t) (ip : string) : option Acesso.t :=
  find (fun a => (Acesso.ip_address a =? ip)%string) colecao.

(** [update_one({"ip_address": ip}, u, upsert=upsert)]: the first document
    of the address is updated; with [upsert] and no such document, one is
    inserted, made of the filter and of the update. *)
Fixpoint update_one (colecao : list Acesso.t) (ip : string)
  (u : Acesso.t -> Acesso.t) (upsert : bool) : list Acesso.t :=
  match colecao with
  | [] =>
      if upsert
      then [u {| Acesso.ip_address := ip; Acesso.analises_hoje := None;
                 Acesso.ultima_analise := None |}]
      else []
  | a :: resto =>
      if (Acesso.ip_address a =? ip)%string then u a :: resto
      else a :: update_one resto ip u upsert
  end.

(** [{"$inc": {"analises_hoje": 1}, "$set": {"ultima_analise": t}}]. *)
Definition inc_analises_hoje (t : Z) (a : Acesso.t) : Acesso.t :=
  {| Acesso.ip_address := Acesso.ip_address a;
     Acesso.analises_hoje :=
       Some (match Acesso.analises_hoje a with
             | Some n => n + 1
             | None => 1
             end);
     Acesso.ultima_analise := Some t |}.

(** [{"$set": {"analises_hoje": 0}}]. *)
Definition set_analises_hoje_0 (a : Acesso.t) : Acesso.t :=
  {| Acesso.ip_address := Acesso.ip_address a;
     Acesso.analises_hoje := Some 0;
     Acesso.ultima_analise := Acesso.ultima_analise a |}.

(** [acesso.get("analises_hoje", 0)]. *)
Definition get_analises_hoje (a : Acesso.t) : Z :=
  match Acesso.analises_hoje a with
  | Some n => n
  | None => 0
  end.

(** What an endpoint does: it returns, or it raises an [HTTPException]. *)
Inductive http (A : Type) : Type :=
| Retorna (a : A)
| HTTPException (status_code : Z) (detail : string).

Arguments Retorna {A} a.
Arguments HTTPException {A} status_code detail.

(** The block of [analisar_boleto] and of [test_ocr] for a caller without
    a token: the limit is checked against the document of the address and
    the analysis is counted.  [utcnow1] and [utcnow2] are the two readings
    of the clock, [detail] is the message of the endpoint. *)
Definition limite_anonimo (detail : string) (acessos_anonimos : list Acesso.t)
  (ip_address : string) (utcnow1 utcnow2 : Z) : http (list Acesso.t) :=
  let hoje := date utcnow1 in
  let acesso := find_one acessos_anonimos ip_address in
  let atingido :=
    match acesso with
    | Some a =>
        let ultima_analise := Acesso.ultima_analise a in
        let analises_hoje := get_analises_hoje a in
        let analises_hoje :=
          match ultima_analise with
          | Some u => if date u <? hoje then 0 else analises_hoje
          | None => analises_hoje
          end in
        2 <=? analises_hoje
    | None => false
    end in
  if atingido then HTTPException 403 detail
  else Retorna (update_one acessos_anonimos ip_address
                  (inc_analises_hoje utcnow2) true).

Definition limite_de_analisar : string :=
  "Limite diário de 2 análises atingido. Faça login para análises ilimitadas!".
Definition limite_de_test_ocr : string :=
  "Limite diário atingido. Faça login para continuar!".

(** [max(0, 2 - analises_hoje)] of the document of the address, as both
    endpoints compute [analises_restantes] for their response. *)
Definition analises_restantes (acessos_anonimos : list Acesso.t)
  (ip_address : string) : Z :=
  let acesso := find_one acessos_anonimos ip_address in
  let analises_hoje :=
    match acesso with
    | Some a => get_analises_hoje a
    | None => 0
    end in
  Z.max 0 (2 - analises_hoje).

(** The upload of [analisar_boleto]. *)
Record Arquivo : Type := {
  content_type : string;
  file_bytes : string;
  filename : string
}.

(** A document of [db.analises] as [analisar_boleto] inserts it for a
    caller without a token. *)
Module Analise.
Record t : Type := mk {
  _id : string;
  status : string;
  uploadedAt : Z;
  fileType : string;
  fileSize : nat;
  fileName : string;
  is_authenticated : bool;
  ip_address : string
}.
End Analise.

(** A job of the queue [boletos:jobs]. *)
Module Job.
Record t : Type := mk {
  analise_id : string;
  file_base64 : string;
  file_type : string;
  user_id : option string;
  is_authenticated : bool
}.
End Job.

(** The response of [analisar_boleto] to a caller without a token. *)
Module Resposta.
Record t : Type := mk {
  id : string;
  status : string;
  message : string;
  fileName : string;
  fileSize : nat;
  fileType : string;
  is_authenticated : bool;
  analises_restantes : Z;
  mensagem_acesso : string
}.
End Resposta.

(** The three stores that [analisar_boleto] writes to. *)
Record Banco : Type := {
  acessos_anonimos : list Acesso.t;
  analises : list Analise.t;
  fila : list Job.t
}.

(** What a request gets from outside: the readings of the clock in their
    order, the identifier that [uuid.uuid4()] draws, and base 64. *)
Record Ambiente : Type := {
  utcnow : nat -> Z;
  uuid4 : string;
  b64encode : string -> string
}.

Definition allowed_types : list string :=
  ["image/jpeg"; "image/png"; "application/pdf"].

(** [', '.join(l)]. *)
Fixpoint join (sep : string) (l : list string) : string :=
  match l with
  | [] => ""
  | [x] => x
  | x :: l' => x ++ sep ++ join sep l'
  end.

(** [analisar_boleto] for a caller without a token ([token_payload] is
    [None]), with the stores as it leaves them: what was written before an
    [HTTPException] stays written. *)
Definition analisar_boleto_anonimo (amb : Ambiente) (db : Banco)
  (host : string) (file : Arquivo) : http Resposta.t * Banco :=
  match limite_anonimo limite_de_analisar (acessos_anonimos db) host
          (utcnow amb 0) (utcnow amb 1) with
  | HTTPException status_code detail => (HTTPException status_code detail, db)
  | Retorna acessos =>
      let db := {| acessos_anonimos := acessos; analises := analises db;
                   fila := fila db |} in
      (* 1. the type of the file *)
      if negb (existsb (String.eqb (content_type file)) allowed_types) then
        (HTTPException 400
           ("Tipo de arquivo inválido. Aceitos: " ++ join ", " allowed_types),
         db)
      else
        (* 2. its size *)
        let file_size := String.length (file_bytes file) in
        if (10 * 1024 * 1024 <? file_size)%nat then
          (HTTPException 400 "Arquivo muito grande. Máximo: 10MB", db)
        else if (file_size =? 0)%nat then
          (HTTPException 400 "Arquivo vazio", db)
        else
          let file_base64 := b64encode amb (file_bytes file) in
          let analise_id := uuid4 amb in
          let analise_doc :=
            {| Analise._id := analise_id;
               Analise.status := "processing";
               Analise.uploadedAt := utcnow amb 2;
               Analise.fileType := content_type file;
               Analise.fileSize := file_size;
               Analise.fileName := filename file;
               Analise.is_authenticated := false;
               Analise.ip_address := host |} in
          let job_data :=
            {| Job.analise_id := analise_id;
               Job.file_base64 := file_base64;
               Job.file_type := content_type file;
               Job.user_id := None;
               Job.is_authenticated := false |} in
          let db := {| acessos_anonimos := acessos_anonimos db;
                       analises := append (analises db) analise_doc;
                       fila := append (fila db) job_data |} in
          (Retorna
             {| Resposta.id := analise_id;
                Resposta.status := "processing";
                Resposta.message :=
                  "Boleto recebido e adicionado à fila de processamento";
                Resposta.fileName := filename file;
                Resposta.fileSize := file_size;
                Resposta.fileType := content_type file;
                Resposta.is_authenticated := false;
                Resposta.analises_restantes :=
                  analises_restantes (acessos_anonimos db) host;
                Resposta.mensagem_acesso :=
                  "Faça login para análises ilimitadas e histórico completo!" |},
           db)
  end.

(** The answer of [/auth/quick-access]. *)
Module AcessoRapido.
Record t : Type := mk {
  permitido : bool;
  analises_restantes : Z;
  mensagem : string
}.
End AcessoRapido.

(** [insert_one(doc)]. *)
Definition insert_one (colecao : list Acesso.t) (doc : Acesso.t)
  : list Acesso.t := append colecao doc.

(** [verificar_acesso_anonimo], with the collection as it leaves it. *)
Definition verificar_acesso_anonimo (acessos_anonimos : list Acesso.t)
  (ip_address : string) (utcnow1 : Z) : AcessoRapido.t * list Acesso.t :=
  let hoje := date utcnow1 in
  match find_one acessos_anonimos ip_address with
  | None =>
      (* AcessoAnonimo(ip_address=ip_address, analises_hoje=0).dict() *)
      let novo_acesso :=
        {| Acesso.ip_address := ip_address; Acesso.analises_hoje := Some 0;
           Acesso.ultima_analise := None |} in
      ({| AcessoRapido.permitido := true;
          AcessoRapido.analises_restantes := 2;
          AcessoRapido.mensagem :=
            "Bem-vindo! Você tem 2 análises gratuitas hoje." |},
       insert_one acessos_anonimos novo_acesso)
  | Some acesso =>
      let ultima_analise := Acesso.ultima_analise acesso in
      let novo_dia :=
        match ultima_analise with
        | Some u => date u <? hoje
        | None => false
        end in
      if novo_dia then
        ({| AcessoRapido.permitido := true;
            AcessoRapido.analises_restantes := 2;
            AcessoRapido.mensagem := "Novo dia! Você tem 2 análises gratuitas." |},
         update_one acessos_anonimos ip_address set_analises_hoje_0 false)
      else
        let analises_hoje := get_analises_hoje acesso in
        if 2 <=? analises_hoje then
          ({| AcessoRapido.permitido := false;
              AcessoRapido.analises_restantes := 0;
              AcessoRapido.mensagem :=
                "Limite diário atingido. Faça login para análises ilimitadas!" |},
           acessos_anonimos)
        else
          ({| AcessoRapido.permitido := true;
              AcessoRapido.analises_restantes := 2 - analises_hoje;
              AcessoRapido.mensagem :=
                "Você ainda tem " ++ str (2 - analises_hoje)
                ++ " análise(s) gratuita(s) hoje." |},
           acessos_anonimos)
  end.

(** [registrar_analise_anonima]: the analysis is counted, with no check. *)
Definition registrar_analise_anonima (acessos_anonimos : list Acesso.t)
  (ip_address : string) (utcnow1 : Z) : bool * list Acesso.t :=
  (true, update_one acessos_anonimos ip_address (inc_analises_hoje utcnow1) true).

(** ** auth/utils.py and auth/middleware.py: the token *)

(** The claims of a token, a dictionary. *)
Definition Payload : Type := list (string * pyval).

(** What [jwt.decode] does with a token. *)
Inductive jwt_decode_result : Type :=
| Decoded (payload : Payload)
| ExpiredSignatureError
| InvalidTokenError.

Definition decodificar_token (jwt_decode : string -> jwt_decode_result)
  (token : string) : option Payload :=
  match jwt_decode token with
  | Decoded payload => Some payload
  | ExpiredSignatureError => None
  | InvalidTokenError => None
  end.

(** [s.split()]: the words of [s] between its blanks; [atual] is the word
    that is being read. *)
Fixpoint palavras (atual : string) (s : string) : list string :=
  match s with
  | EmptyString => if (atual =? "")%string then [] else [atual]
  | String c s' =>
      if is_space c
      then if (atual =? "")%string then palavras "" s'
           else atual :: palavras "" s'
      else palavras (atual ++ String c EmptyString) s'
  end.

Definition split (s : string) : list string := palavras "" s.

(** [verificar_token_opcional]: [scheme, token = authorization.split()]
    is a ValueError unless there are two words, and the handler returns
    [None]. *)
Definition verificar_token_opcional (jwt_decode : string -> jwt_decode_result)
  (authorization : option string) : option Payload :=
  match authorization with
  | None => None
  | Some a =>
      if (a =? "")%string then None
      else
        match split a with
        | [scheme; token] =>
            if negb (lower scheme =? "bearer")%string then None
            else decodificar_token jwt_decode token
        | _ => None
        end
  end.

(** What the body of a [try] raises. *)
Inductive excecao : Type :=
| ExValueError
| ExHTTPException (status_code : Z) (detail : string).

(** The body of the [try] of [verificar_token_obrigatorio]. *)
Definition verificar_token_obrigatorio_try
  (jwt_decode : string -> jwt_decode_result) (authorization : string)
  : excecao + Payload :=
  match split authorization with
  | [scheme; token] =>
      if negb (lower scheme =? "bearer")%string
      then inl (ExHTTPException 401 "Formato de autenticação inválido")
      else
        match decodificar_token jwt_decode token with
        | Some ((_ :: _) as payload) => inr payload
        | _ => inl (ExHTTPException 401 "Token inválido ou expirado")
        end
  | _ => inl ExValueError
  end.

(** [verificar_token_obrigatorio]: [except ValueError] comes first, then
    [except Exception], which an [HTTPException] is one of. *)
Definition verificar_token_obrigatorio
  (jwt_decode : string -> jwt_decode_result) (authorization : string)
  : http Payload :=
  if (authorization =? "")%string
  then HTTPException 401 "Token de autenticação não fornecido"
  else
    match verificar_token_obrigatorio_try jwt_decode authorization with
    | inr payload => Retorna payload
    | inl ExValueError => HTTPException 401 "Formato de token inválido"
    | inl (ExHTTPException _ _) => HTTPException 401 "Erro na autenticação"
    end.

(** ** An interpreter for the examples *)

Module Calendario.

Definition bissexto (ano : Z) : bool :=
  ((ano mod 4 =? 0) && negb (ano mod 100 =? 0)) || (ano mod 400 =? 0).

Definition dias_do_mes (ano mes : Z) : Z :=
  if mes =? 2 then (if bissexto ano then 29 else 28)
  else if (mes =? 4) || (mes =? 6) || (mes =? 9) || (mes =? 11) then 30
  else 31.

(** The days of the months before [mes]. *)
Definition dias_antes (ano mes : Z) : Z :=
  fold_left (fun n m => n + dias_do_mes ano (Z.of_nat m))
            (seq 1 (Z.to_nat (mes - 1))) 0.

(** The proleptic Gregorian ordinal: 1 for 01/01/0001. *)
Definition ordinal (ano mes dia : Z) : Z :=
  let a := ano - 1 in
  365 * a + a / 4 - a / 100 + a / 400 + dias_antes ano mes + dia.

Definition microssegundos_do_dia : Z := 86400000000.

Definition data_valida (ano mes dia : Z) : bool :=
  (1 <=? ano) && (ano <=? 9999) && (1 <=? mes) && (mes <=? 12)
  && (1 <=? dia) && (dia <=? dias_do_mes ano mes).

(** The three fields of [d/m/y], each a run of digits. *)
Definition campos (s : string) : option (string * string * string) :=
  if (contar "/" s =? 2)%nat then
    let d := antes_de "/" s in
    let r := depois_de "/" s in
    Some (d, antes_de "/" r, depois_de "/" r)
  else None.

Definition so_digitos (lo hi : nat) (s : string) : bool :=
  forall_str is_digit s
  && (lo <=? String.length s)%nat && (String.length s <=? hi)%nat.

Definition ler_data (v : pyval) (formato : string) : result Z :=
  match v with
  | PStr s =>
      match campos s with
      | Some (d, m, a) =>
          let longo := (formato =? "%d/%m/%Y")%string in
          if so_digitos 1 2 d && so_digitos 1 2 m
             && (if longo then so_digitos 4 4 a else so_digitos 2 2 a)
          then
            let ano :=
              if longo then int_digitos a
              else if int_digitos a <=? 68 then 2000 + int_digitos a
                   else 1900 + int_digitos a in
            if data_valida ano (int_digitos m) (int_digitos d)
            then Ok (ordinal ano (int_digitos m) (int_digitos d)
                     * microssegundos_do_dia)
            else Raise (ValueError "strptime" s)
          else Raise (ValueError "strptime" s)
      | None => Raise (ValueError "strptime" s)
      end
  | _ => Raise (TypeError "strptime" v)
  end.

(** The year, month and day of an ordinal, by search from a lower bound. *)
Fixpoint ano_de (n : nat) (ano dia : Z) : Z :=
  match n with
  | O => ano
  | S n' => if ordinal (ano + 1) 1 1 <=? dia then ano_de n' (ano + 1) dia else ano
  end.

Fixpoint mes_de (n : nat) (ano mes dia : Z) : Z :=
  match n with
  | O => mes
  | S n' =>
      if (mes <? 12) && (ordinal ano (mes + 1) 1 <=? dia)
      then mes_de n' ano (mes + 1) dia else mes
  end.

Definition quatro_digitos (z : Z) : string :=
  (if z <? 1000 then "0" else "") ++ tres_digitos z.

Definition escrever_data (t : Z) (formato : string) : string :=
  let dia := t / microssegundos_do_dia in
  let ano := ano_de 8 (dia / 366 + 1) dia in
  let mes := mes_de 11 ano 1 dia in
  dois_digitos (dia - ordinal ano mes 1 + 1) ++ "/" ++ dois_digitos mes
  ++ "/" ++ quatro_digitos ano.

Definition texto_da_excecao (e : exn) : string :=
  match e with
  | TypeError operacao _ => "unsupported operand type for " ++ operacao
  | ValueError operacao s => "invalid value for " ++ operacao ++ ": '" ++ s ++ "'"
  | AttributeError atributo _ => "object has no attribute '" ++ atributo ++ "'"
  | IndexError => "string index out of range"
  end.

Definition texto_do_valor (v : pyval) : string :=
  match v with
  | PNone => "None"
  | PStr s => s
  | PNum q => str (Qnum q) ++ "/" ++ str (Zpos (Qden q))
  | PList _ => "[...]"
  end.

(** The interpreter at the instant [agora]. *)
Definition runtime (agora : Z) : Runtime :=
  {| str_exn := texto_da_excecao;
     str_val := texto_do_valor;
     strptime := ler_data;
     strftime := escrever_data;
     isoformat := fun t => escrever_data t "%d/%m/%Y";
     agora := agora |}.

End Calendario.

(** ** The layout of the linha digitável *)

(** The three blocks with a check digit of their own. *)
Inductive Bloco : Type := Bloco1 | Bloco2 | Bloco3.

(** Where the block starts, how many digits its check digit covers, and
    the number it has in the messages. *)
Definition inicio (b : Bloco) : nat :=
  match b with Bloco1 => 0 | Bloco2 => 10 | Bloco3 => 21 end.

Definition tamanho (b : Bloco) : nat :=
  match b with Bloco1 => 9 | Bloco2 => 10 | Bloco3 => 10 end.

Definition numero (b : Bloco) : string :=
  match b with Bloco1 => "1" | Bloco2 => "2" | Bloco3 => "3" end.

(** An error of the check digit of block [b]. *)
Definition erro_do_bloco (b : Bloco) (e : string) : bool :=
  String.prefix ("DV" ++ numero b ++ " ") e.

(** ** The check digits as the specification words them *)

(** The digits of a string from right to left, as numbers. *)
Definition valores_da_direita (sequencia : string) : list Z :=
  map (fun c => Z.of_nat (nat_of_ascii c) - 48)
      (rev (list_ascii_of_string sequencia)).

(** The sum of [termo i d] over the digits [d] at the positions [i],
    counted from [i0]. *)
Fixpoint soma_posicional (termo : nat -> Z -> Z) (i0 : nat) (ds : list Z) : Z :=
  match ds with
  | [] => 0
  | d :: ds' => termo i0 d + soma_posicional termo (S i0) ds'
  end.

(** Modulo 10: the multipliers alternate 2, 1, 2, 1 from the right; a
    product above 9 is replaced by the sum of its two digits; the check
    digit is 0 when the sum is a multiple of 10, else 10 less the rest. *)
Definition multiplicador10 (i : nat) : Z := if Nat.even i then 2 else 1.

Definition termo10 (i : nat) (d : Z) : Z :=
  let produto := d * multiplicador10 i in
  if produto >? 9 then produto / 10 + produto mod 10 else produto.

Definition dv_modulo10_spec (sequencia : string) : Z :=
  let soma := soma_posicional termo10 0 (valores_da_direita sequencia) in
  if soma mod 10 =? 0 then 0 else 10 - soma mod 10.

(** Modulo 11: the multipliers cycle 2, 3, ..., 9 from the right; the check
    digit is 11 less the rest of the sum, and 1 in place of 0, 10 and 11. *)
Definition multiplicador11 (i : nat) : Z := 2 + Z.of_nat (i mod 8).

Definition termo11 (i : nat) (d : Z) : Z := d * multiplicador11 i.

Definition dv_modulo11_spec (sequencia : string) : Z :=
  let soma := soma_posicional termo11 0 (valores_da_direita sequencia) in
  let dv := 11 - soma mod 11 in
  if (dv =? 0) || (dv =? 10) || (dv =? 11) then 1 else dv.

(** ** The check digits of a CNPJ *)

(** The digit at position [n] is the check digit that the weights [peso]
    give over the [n] digits before it. *)
Definition confere (cnpj_digitos : string) (peso : list Z) (n : nat) : bool :=
  match soma_ponderada cnpj_digitos peso n, int_at cnpj_digitos n with
  | Ok soma, Ok d => d =? dv_do_resto (soma mod 11)
  | _, _ => false
  end.

Definition erro_primeiro_dv : string :=
  "Primeiro dígito verificador do CNPJ inválido".
Definition erro_segundo_dv : string :=
  "Segundo dígito verificador do CNPJ inválido".

(** The errors of a CNPJ of 14 digits that is not one digit repeated. *)
Definition erros_dos_dvs (cnpj_digitos : string) : list string :=
  ((if confere cnpj_digitos peso1 12 then [] else [erro_primeiro_dv])
   ++ (if confere cnpj_digitos peso2 13 then [] else [erro_segundo_dv]))%list.

(** ** The invariant of a validation result *)

(** [valido] is true exactly when [erros] is empty. *)
Definition coerente (r : Resultado) : Prop := valido r = true <-> erros r = [].

(** The four messages of a mandatory field that was not found. *)
Definition linha_nao_encontrada : string := "Linha digitável não encontrada".
Definition valor_nao_encontrado : string := "Valor não encontrado".
Definition vencimento_nao_encontrado : string := "Vencimento não encontrado".
Definition banco_nao_encontrado : string := "Código do banco não encontrado".

Definition mensagens_de_falta : list string :=
  [linha_nao_encontrada; valor_nao_encontrado; vencimento_nao_encontrado;
   banco_nao_encontrado].

(** What a recorded result adds to the errors, and what a field adds to
    the errors and to [detalhes]: the findings of its validator when the
    field is there, the message [falta] when it is not. *)
Definition achados (r : Resultado) : list string :=
  if valido r then [] else erros r.

Definition contribuicao (campo : pyval) (r : Resultado) (falta : list string)
  : list string :=
  if truthy campo then achados r else falta.

Definition registro (campo : pyval) (chave : string) (r : Resultado)
  : list (string * Resultado) :=
  if truthy campo then [(chave, r)] else [].

(** [e] is one of the four messages. *)
Definition e_falta (e : string) : bool :=
  existsb (String.eqb e) mensagens_de_falta.

(** No error of the list is one of the four messages. *)
Definition sem_falta (es : list string) : Prop :=
  Forall (fun e => e_falta e = false) es.

(** The fields are of the types the parser gives them: the amount a
    number or [None], the bank code not a list. *)
Definition bem_tipado (dados : Dados) : bool :=
  match valor dados with
  | PNone | PNum _ => true
  | _ => false
  end
  && match codigo_banco dados with
     | PList _ => false
     | _ => true
     end.

(** [chave in detalhes]. *)
Definition tem_chave (chave : string) (ds : list (string * Resultado)) : bool :=
  existsb (fun kv => (fst kv =? chave)%string) ds.

(** Every per-field result recorded so far satisfies the invariant. *)
Definition detalhes_coerentes (ds : list (string * Resultado)) : Prop :=
  Forall (fun kv => coerente (snd kv)) ds.

(** What holds of a result whenever the computation returns one. *)
Definition sempre {A : Type} (P : A -> Prop) (r : result A) : Prop :=
  forall a, r = Ok a -> P a.

(** ** The severity map and the scenario of an authentic boleto *)

(** The impact and the color of each severity. *)
Definition mapa_gravidade : list (string * Z * string) :=
  [("critica", 95, "danger"); ("alta", 80, "warning");
   ("media", 60, "medium"); ("baixa", 30, "primary")].

(** The entry carries the impact and the color of its severity. *)
Definition no_mapa (r : Razao.t) : Prop :=
  In (Razao.gravidade r, Razao.impacto r, Razao.cor r) mapa_gravidade.

(** The entries written out in [_gerar_razoes_detalhadas] with values of
    their own: category, severity, impact and color. *)
Definition entradas_fixas : list (string * string * Z * string) :=
  [("machine_learning", "alta", 85, "danger");
   ("machine_learning", "baixa", 15, "success");
   ("valor", "media", 60, "warning")].

Definition entrada_fixa (r : Razao.t) : Prop :=
  In (Razao.categoria r, Razao.gravidade r, Razao.impacto r, Razao.cor r)
     entradas_fixas.

(** A classifier that always answers [classe] with [probabilidades]. *)
Definition modelo_constante (F : Type) (classe : Z) (probabilidades : list Q)
  : Modelo F :=
  {| predict := fun _ => classe; predict_proba := fun _ => probabilidades |}.

(** The scenario: noon of 03/11/2026, a text with a CNPJ, a linha digitável
    of bank 001 whose three check digits are right, the amount R$ 150,00
    and a vencimento 30 days later, and a classifier answering class 1 with
    probabilities 0.05 and 0.95. *)
Definition agora_exemplo : Z :=
  Calendario.ordinal 2026 11 3 * Calendario.microssegundos_do_dia
  + 12 * 3600 * 1000000.

Definition rt_exemplo : Runtime := Calendario.runtime agora_exemplo.

Definition texto_exemplo : string :=
  "CNPJ: 11.222.333/0001-81 00190.00009 01234.567004 00000.000000 1 00000000015000 Valor: R$ 150,00 Vencimento: 03/12/2026".

Definition modelo_autentico : Modelo Features.t :=
  modelo_constante Features.t 1 [1 # 20; 19 # 20].

(** The fields of an authentic boleto of R$ 150,00. *)
Definition dados_exemplo : Dados := parse_dados_boleto rt_exemplo texto_exemplo.

(** The floats nearest to 0.35 and to 0.65, and a classifier answering
    class 1 with them. *)
Definition p_0_35 : Q := 6305039478318694 # 2 ^ 54.
Definition p_0_65 : Q := 5854679515581645 # 2 ^ 53.
Definition modelo_0_35 : Modelo unit := modelo_constante unit 1 [p_0_35; p_0_65].

(** A prediction of fraud with the probabilities 0.75 and 0.25. *)
Definition predicao_fraude : Predicao.t unit :=
  {| Predicao.is_fraudulento := true;
     Predicao.classe_predita := 0;
     Predicao.score_fraude := 75;
     Predicao.confianca := 3 # 4;
     Predicao.probabilidades := (3 # 4, 1 # 4);
     Predicao.features_usadas := tt |}.

(** Fields with an amount of zero, and fields with a text for amount. *)
Definition dados_valor_zero : Dados := com_valor (PNum 0) dados_exemplo.
Definition dados_valor_texto : Dados :=
  com_valor (PStr "abc") (com_linha_digitavel PNone dados_exemplo).

(** ** What the extractors return, and a digit that is changed *)

(** [n] decimal digits. *)
Definition digitos_n (n : nat) (w : string) : Prop :=
  String.length w = n /\ forall_str is_digit w = true.

(** The layout that [extrair_linha_digitavel] gives to the 47 digits. *)
Definition formatar_linha (digitos : string) : string :=
  slice digitos 0 5 ++ "." ++ slice digitos 5 10 ++ " "
  ++ slice digitos 10 15 ++ "." ++ slice digitos 15 21 ++ " "
  ++ slice digitos 21 26 ++ "." ++ slice digitos 26 32 ++ " "
  ++ slice digitos 32 33 ++ " " ++ slice digitos 33 47.

(** The layout of a CNPJ. *)
Definition formatar_cnpj (cnpj : string) : string :=
  slice cnpj 0 2 ++ "." ++ slice cnpj 2 5 ++ "." ++ slice cnpj 5 8 ++ "/"
  ++ slice cnpj 8 12 ++ "-" ++ slice cnpj 12 14.

(** [dados[chave] = v] under [if v:]. *)
Definition campo (v : pyval) : pyval := if truthy v then v else PNone.

(** An error about the form of a field (its count of digits, an amount
    that is not positive) or the message of a handler. *)
Definition erro_de_forma (e : string) : bool :=
  existsb (fun p => String.prefix p e)
    ["Linha digitável deve ter"; "Código de barras deve ter"; "CNPJ deve ter";
     "Valor deve ser maior que zero"; "Erro"].

(** No error of the list is one of those. *)
Definition sem_erro_de_forma (es : list string) : Prop :=
  Forall (fun e => erro_de_forma e = false) es.

(** A character of the text that [float] is given. *)
Definition digito_ou_ponto (c : ascii) : bool := is_digit c || um_de "." c.

(** [s] with the character [c] at index [i]. *)
Fixpoint trocar (i : nat) (c : ascii) (s : string) {struct s} : string :=
  match s with
  | EmptyString => EmptyString
  | String x s' =>
      match i with
      | O => String c s'
      | S i' => String x (trocar i' c s')
      end
  end.

(** The check digit at index [e] is the one computed over [s:e]. *)
Definition confere10 (d : string) (s e : nat) : bool :=
  match index d e, calcular_dv_modulo10 (slice d s e) with
  | Ok informado, Ok calculado => (informado =? calculado)%string
  | _, _ => false
  end.

(** [digitos[0:4] + digitos[5:44]]. *)
Definition codigo_sem_dv (d : string) : string := slice d 0 4 ++ slice d 5 44.

(** The check digit at index 4 is the one computed over the rest. *)
Definition confere11 (d : string) : bool :=
  match index d 4, calcular_dv_modulo11 (codigo_sem_dv d) with
  | Ok informado, Ok calculado => (informado =? calculado)%string
  | _, _ => false
  end.

(** One day, and the two messages of [validar_vencimento]. *)
Definition microssegundos_por_dia : Z := 86400000000.

Definition vencimento_antigo (s : string) : string :=
  "Boleto com vencimento muito antigo (" ++ s ++ ")".
Definition vencimento_distante (s : string) : string :=
  "Boleto com vencimento muito distante (" ++ s ++ ")".

(** The codes that [validar_codigo_banco] accepts and [identificar_banco]
    has no name for. *)
Definition bancos_sem_nome : list string := ["422"; "140"; "197"].

(** ** The explanation, the quota *)

(** The entry of the classifier for a score that is an integer. *)
Definition razao_do_classificador (score_fraude : Z) : Razao.t :=
  if 1 <=? score_fraude then razao_padrao_suspeito score_fraude
  else razao_padrao_normal score_fraude.

(** The two main reasons that a score that is an integer can give. *)
Definition motivo_suspeito : string :=
  "Modelo de ML identificou padrão suspeito com alta confiança".
Definition motivo_autentico : string :=
  "Todas as verificações sugerem autenticidade".

(** An error that [_identificar_principal_motivo] takes for critical. *)
Definition erro_critico (e : string) : bool :=
  contem "inválido" (lower e) || contem "incorreto" (lower e).

(** The document that an upsert starts from. *)
Definition acesso_novo (ip : string) : Acesso.t :=
  {| Acesso.ip_address := ip; Acesso.analises_hoje := None;
     Acesso.ultima_analise := None |}.

(** The count that the limit is checked against. *)
Definition contagem_do_dia (acessos_anonimos : list Acesso.t)
  (ip_address : string) (utcnow1 : Z) : Z :=
  match find_one acessos_anonimos ip_address with
  | Some a =>
      match Acesso.ultima_analise a with
      | Some u => if date u <? date utcnow1 then 0 else get_analises_hoje a
      | None => get_analises_hoje a
      end
  | None => 0
  end.

(** The count that is stored. *)
Definition contagem_guardada (acessos_anonimos : list Acesso.t)
  (ip_address : string) : Z :=
  match find_one acessos_anonimos ip_address with
  | Some a => get_analises_hoje a
  | None => 0
  end.

(** ** The scenario, further *)

(** The 47 digits of the linha digitável of the scenario, and a código de
    barras whose check digit is 1. *)
Definition linha_exemplo : string :=
  "00190000090123456700400000000000100000000015000".

Definition barras_exemplo : string :=
  "00001000000000000000000000000000000000000000".



(** An address with two analyses counted the day before. *)
Definition ip_exemplo : string := "203.0.113.7".

Definition acesso_de_ontem : Acesso.t :=
  {| Acesso.ip_address := ip_exemplo;
     Acesso.analises_hoje := Some 2;
     Acesso.ultima_analise := Some (agora_exemplo - 86400000000) |}.

(** A text with an amount and nothing else. *)
Definition texto_so_com_valor : string := "Valor: R$ 150,00".

(** * Properties *)

(** ** Strings *)

Lemma length_append (a b : string) :
  String.length (a ++ b) = (String.length a + String.length b)%nat.
Proof. induction a as [|c a IH]; simpl; [reflexivity | now rewrite IH]. Qed.

Lemma take_append (a b : string) : take (String.length a) (a ++ b) = a.
Proof. induction a as [|c a IH]; simpl; [now destruct b | now rewrite IH]. Qed.

Lemma drop_append (a b : string) : drop (String.length a) (a ++ b) = b.
Proof. induction a as [|c a IH]; simpl; [reflexivity | exact IH]. Qed.

Lemma take_take (n m : nat) (s : string) :
  (n <= m)%nat -> take n (take m s) = take n s.
Proof.
  revert m s; induction n as [|n IH]; intros m s H; [reflexivity|].
  destruct m as [|m]; [lia|].
  destruct s as [|c s]; simpl; [reflexivity|].
  now rewrite IH by lia.
Qed.

Lemma take_all (n : nat) (s : string) :
  (String.length s <= n)%nat -> take n s = s.
Proof.
  revert s; induction n as [|n IH]; intros [|c s] H; simpl in *;
    try reflexivity; try lia.
  now rewrite IH by lia.
Qed.

Lemma length_take (n : nat) (s : string) :
  String.length (take n s) = Nat.min n (String.length s).
Proof.
  revert s; induction n as [|n IH]; intros [|c s]; simpl; try reflexivity.
  now rewrite IH.
Qed.

Lemma length_drop (n : nat) (s : string) :
  String.length (drop n s) = (String.length s - n)%nat.
Proof.
  revert s; induction n as [|n IH]; intros [|c s]; simpl; try reflexivity.
  apply IH.
Qed.

Lemma get_take (i n : nat) (s : string) :
  (i < n)%nat -> String.get i (take n s) = String.get i s.
Proof.
  revert n s; induction i as [|i IH]; intros [|n] [|c s] H; simpl;
    try reflexivity; try lia.
  apply IH; lia.
Qed.

Lemma get_drop (i n : nat) (s : string) :
  String.get i (drop n s) = String.get (n + i) s.
Proof.
  revert s; induction n as [|n IH]; intros [|c s]; simpl; try reflexivity.
  apply IH.
Qed.

Lemma get_append_left (i : nat) (a b : string) :
  (i < String.length a)%nat -> String.get i (a ++ b) = String.get i a.
Proof.
  revert a; induction i as [|i IH]; intros [|c a] H; simpl in *;
    try reflexivity; try lia.
  apply IH; lia.
Qed.

Lemma get_append_right (i : nat) (a b : string) :
  String.get (String.length a + i) (a ++ b) = String.get i b.
Proof. induction a as [|c a IH]; simpl; [reflexivity | exact IH]. Qed.

Lemma get_some (i : nat) (s : string) :
  (i < String.length s)%nat -> exists c, String.get i s = Some c.
Proof.
  revert s; induction i as [|i IH]; intros [|c s] H; simpl in *; try lia.
  - now exists c.
  - apply IH; lia.
Qed.

Lemma forall_str_append (p : ascii -> bool) (a b : string) :
  forall_str p (a ++ b) = forall_str p a && forall_str p b.
Proof.
  induction a as [|c a IH]; simpl; [reflexivity|].
  now rewrite IH, andb_assoc.
Qed.

Lemma forall_str_take (p : ascii -> bool) (n : nat) (s : string) :
  forall_str p s = true -> forall_str p (take n s) = true.
Proof.
  revert s; induction n as [|n IH]; intros [|c s] H; simpl in *;
    try reflexivity.
  apply andb_true_iff in H as [Hc Hs]. now rewrite Hc, IH.
Qed.

Lemma forall_str_drop (p : ascii -> bool) (n : nat) (s : string) :
  forall_str p s = true -> forall_str p (drop n s) = true.
Proof.
  revert s; induction n as [|n IH]; intros [|c s] H; simpl in *;
    try reflexivity; try assumption.
  apply andb_true_iff in H as [_ Hs]. now apply IH.
Qed.

Lemma forall_str_slice (p : ascii -> bool) (i j : nat) (s : string) :
  forall_str p s = true -> forall_str p (slice s i j) = true.
Proof. intros H. unfold slice. now apply forall_str_take, forall_str_drop. Qed.

Lemma forall_str_filter (p : ascii -> bool) (s : string) :
  forall_str p (filter_str p s) = true.
Proof.
  induction s as [|c s IH]; simpl; [reflexivity|].
  destruct (p c) eqn:E; simpl; [now rewrite E|assumption].
Qed.

Lemma forall_str_get (p : ascii -> bool) (i : nat) (s : string) (c : ascii) :
  forall_str p s = true -> String.get i s = Some c -> p c = true.
Proof.
  revert s; induction i as [|i IH]; intros [|x s] H G; simpl in *;
    try discriminate; apply andb_true_iff in H as [Hx Hs].
  - now injection G as <-.
  - now apply (IH s).
Qed.

Lemma filter_str_id (p : ascii -> bool) (s : string) :
  forall_str p s = true -> filter_str p s = s.
Proof.
  induction s as [|c s IH]; simpl; [reflexivity|]. intros H.
  apply andb_true_iff in H as [Hc Hs]. now rewrite Hc, IH.
Qed.

(** ** Digits *)

(** A decimal digit is one of ten characters. *)
Lemma is_digit_cases (c : ascii) :
  is_digit c = true ->
  In c ["0"; "1"; "2"; "3"; "4"; "5"; "6"; "7"; "8"; "9"]%char.
Proof.
  destruct c as [[] [] [] [] [] [] [] []]; intros H;
    try discriminate H; simpl; tauto.
Qed.

Lemma int_char_digit (c : ascii) :
  is_digit c = true ->
  exists d, int_char c = Ok d /\ 0 <= d <= 9
            /\ str d = String c EmptyString.
Proof.
  intros H. apply is_digit_cases in H. simpl in H.
  repeat (destruct H as [<- | H];
          [eexists; split;
           [vm_compute; reflexivity | split; [lia | reflexivity]] |]).
  contradiction.
Qed.

(** [str] of a digit is one character, a digit. *)
Lemma str_digit (d : Z) :
  0 <= d <= 9 ->
  exists c, str d = String c EmptyString /\ is_digit c = true.
Proof.
  intros H.
  assert (C : d = 0 \/ d = 1 \/ d = 2 \/ d = 3 \/ d = 4 \/ d = 5 \/ d = 6
              \/ d = 7 \/ d = 8 \/ d = 9) by lia.
  repeat (destruct C as [-> | C]; [eexists; split; reflexivity |]).
  subst d. eexists; split; reflexivity.
Qed.

(** ** The check digits are total on digits *)

Lemma forall_str_Forall (p : ascii -> bool) (s : string) :
  forall_str p s = true ->
  Forall (fun c => p c = true) (list_ascii_of_string s).
Proof.
  induction s as [|c s IH]; simpl; intros H; constructor;
    apply andb_true_iff in H as [Hc Hs]; auto.
Qed.

Lemma for_each_digitos (f : Z * Z -> ascii -> result (Z * Z)) (cs : list ascii) :
  (forall st c, is_digit c = true -> exists st', f st c = Ok st') ->
  Forall (fun c => is_digit c = true) cs ->
  forall st, exists st', for_each f cs st = Ok st'.
Proof.
  intros Hf H. induction H as [|c cs Hc _ IH]; intros st; simpl.
  - now exists st.
  - destruct (Hf st c Hc) as [st1 ->]. simpl. apply IH.
Qed.

Lemma passo_modulo10_digito (st : Z * Z) (c : ascii) :
  is_digit c = true -> exists st', passo_modulo10 st c = Ok st'.
Proof.
  intros H. destruct st as [soma m]. unfold passo_modulo10.
  destruct (int_char_digit c H) as (d & -> & _). simpl. eauto.
Qed.

Lemma passo_modulo11_digito (st : Z * Z) (c : ascii) :
  is_digit c = true -> exists st', passo_modulo11 st c = Ok st'.
Proof.
  intros H. destruct st as [soma m]. unfold passo_modulo11.
  destruct (int_char_digit c H) as (d & -> & _). simpl. eauto.
Qed.

(** On a string of digits [calcular_dv_modulo10] returns, and what it
    returns is one digit. *)
Lemma calcular_dv_modulo10_digito (s : string) :
  forall_str is_digit s = true ->
  exists c, calcular_dv_modulo10 s = Ok (String c EmptyString)
            /\ is_digit c = true.
Proof.
  intros H. unfold calcular_dv_modulo10.
  destruct (for_each_digitos passo_modulo10 (rev (list_ascii_of_string s))
              passo_modulo10_digito
              (Forall_rev (forall_str_Forall _ _ H)) (0, 2))
    as [[soma m] ->].
  cbv beta iota zeta delta [bind].
  assert (R : 0 <= soma mod 10 < 10) by (apply Z.mod_pos_bound; lia).
  destruct (str_digit (if soma mod 10 =? 0 then 0 else 10 - soma mod 10))
    as (c & E & D).
  - destruct (Z.eqb_spec (soma mod 10) 0); lia.
  - exists c. now rewrite E.
Qed.

(** On a string of digits [calcular_dv_modulo11] returns, and what it
    returns is one digit, never ["0"]. *)
Lemma calcular_dv_modulo11_digito (s : string) :
  forall_str is_digit s = true ->
  exists c, calcular_dv_modulo11 s = Ok (String c EmptyString)
            /\ is_digit c = true /\ c <> "0"%char.
Proof.
  intros H. unfold calcular_dv_modulo11.
  destruct (for_each_digitos passo_modulo11 (rev (list_ascii_of_string s))
              passo_modulo11_digito
              (Forall_rev (forall_str_Forall _ _ H)) (0, 2))
    as [[soma m] ->].
  cbv beta iota zeta delta [bind].
  assert (R : 0 <= soma mod 11 < 11) by (apply Z.mod_pos_bound; lia).
  set (dv := 11 - soma mod 11).
  assert (C : dv = 1 \/ dv = 2 \/ dv = 3 \/ dv = 4 \/ dv = 5 \/ dv = 6
              \/ dv = 7 \/ dv = 8 \/ dv = 9 \/ dv = 10 \/ dv = 11)
    by (unfold dv; lia).
  repeat (destruct C as [-> | C];
          [eexists; split; [reflexivity | split; [reflexivity | discriminate]] |]).
  rewrite C. eexists; split; [reflexivity | split; [reflexivity | discriminate]].
Qed.

(** ** The check digits refine their specification *)

Lemma int_char_valor (c : ascii) :
  is_digit c = true -> int_char c = Ok (Z.of_nat (nat_of_ascii c) - 48).
Proof. intros H. unfold int_char. now rewrite H. Qed.

(** The loop of [calcular_dv_modulo10] from position [i] on. *)
Lemma laco_modulo10 (cs : list ascii) :
  Forall (fun c => is_digit c = true) cs ->
  forall (i : nat) (soma : Z),
    for_each passo_modulo10 cs (soma, multiplicador10 i)
    = Ok (soma + soma_posicional termo10 i
                   (map (fun c => Z.of_nat (nat_of_ascii c) - 48) cs),
          multiplicador10 (i + List.length cs)).
Proof.
  intros H. induction H as [|c cs Hc _ IH]; intros i soma; simpl.
  - now rewrite Z.add_0_r, Nat.add_0_r.
  - unfold passo_modulo10 at 1. rewrite (int_char_valor c Hc). cbn [bind].
    replace (if multiplicador10 i =? 2 then 1 else 2)
      with (multiplicador10 (S i)).
    + rewrite IH. unfold termo10 at 2. cbv zeta.
      now rewrite Z.add_assoc, Nat.add_succ_r.
    + unfold multiplicador10. rewrite Nat.even_succ, <- Nat.negb_even.
      now destruct (Nat.even i).
Qed.

(** The loop of [calcular_dv_modulo11] from position [i] on. *)
Lemma laco_modulo11 (cs : list ascii) :
  Forall (fun c => is_digit c = true) cs ->
  forall (i : nat) (soma : Z),
    for_each passo_modulo11 cs (soma, multiplicador11 i)
    = Ok (soma + soma_posicional termo11 i
                   (map (fun c => Z.of_nat (nat_of_ascii c) - 48) cs),
          multiplicador11 (i + List.length cs)).
Proof.
  intros H. induction H as [|c cs Hc _ IH]; intros i soma; simpl.
  - now rewrite Z.add_0_r, Nat.add_0_r.
  - unfold passo_modulo11 at 1. rewrite (int_char_valor c Hc). cbn [bind].
    replace (if multiplicador11 i + 1 >? 9 then 2 else multiplicador11 i + 1)
      with (multiplicador11 (S i)).
    + rewrite IH. unfold termo11 at 2.
      now rewrite Z.add_assoc, Nat.add_succ_r.
    + unfold multiplicador11.
      assert (B : (i mod 8 < 8)%nat) by (apply Nat.mod_upper_bound; lia).
      assert (E : (S i mod 8 = if (i mod 8 =? 7)%nat then 0 else S (i mod 8))%nat).
      { destruct (Nat.eqb_spec (i mod 8) 7) as [E|E].
        - rewrite (Nat.div_mod_eq i 8), E.
          replace (S (8 * (i / 8) + 7)) with (0 + (i / 8 + 1) * 8)%nat by lia.
          now rewrite Nat.Div0.mod_add.
        - rewrite (Nat.div_mod_eq i 8) at 1.
          replace (S (8 * (i / 8) + i mod 8))
            with (S (i mod 8) + (i / 8) * 8)%nat by lia.
          rewrite Nat.Div0.mod_add. apply Nat.mod_small. lia. }
      rewrite E. destruct (Nat.eqb_spec (i mod 8) 7) as [E7|E7].
      * rewrite E7. reflexivity.
      * destruct (Z.gtb_spec (2 + Z.of_nat (i mod 8) + 1) 9); lia.
Qed.

(** On digits, [calcular_dv_modulo10] returns the check digit of the
    specification. *)
Lemma calcular_dv_modulo10_spec (sequencia : string) :
  forall_str is_digit sequencia = true ->
  calcular_dv_modulo10 sequencia = Ok (str (dv_modulo10_spec sequencia)).
Proof.
  intros H. unfold calcular_dv_modulo10.
  change (0, 2) with (0, multiplicador10 0).
  rewrite laco_modulo10 by (apply Forall_rev; now apply forall_str_Forall).
  reflexivity.
Qed.

(** On digits, [calcular_dv_modulo11] returns the check digit of the
    specification. *)
Lemma calcular_dv_modulo11_spec (sequencia : string) :
  forall_str is_digit sequencia = true ->
  calcular_dv_modulo11 sequencia = Ok (str (dv_modulo11_spec sequencia)).
Proof.
  intros H. unfold calcular_dv_modulo11.
  change (0, 2) with (0, multiplicador11 0).
  rewrite laco_modulo11 by (apply Forall_rev; now apply forall_str_Forall).
  reflexivity.
Qed.

(** ** The linha digitável *)

Lemma index_slice (s : string) (a b n : nat) :
  (n < b - a)%nat -> index (slice s a b) n = index s (a + n).
Proof.
  intros H. unfold index, slice. now rewrite get_take, get_drop by assumption.
Qed.

Lemma slice_slice (s : string) (a b n : nat) :
  (n <= b - a)%nat -> slice (slice s a b) 0 n = slice s a (a + n).
Proof.
  intros H. unfold slice. simpl. rewrite Nat.sub_0_r.
  replace (a + n - a)%nat with n by lia. now apply take_take.
Qed.

Lemma index_some (s : string) (i : nat) :
  (i < String.length s)%nat ->
  exists c, index s i = Ok (String c EmptyString).
Proof.
  intros H. unfold index. destruct (get_some i s H) as [c ->]. now exists c.
Qed.

(** What [conferir_dv] can add to the list. *)
Lemma In_conferir_dv (es : list string) (k informado calculado e : string) :
  In e (conferir_dv es k informado calculado) ->
  In e es \/ (e = erro_dv k calculado informado /\ informado <> calculado).
Proof.
  unfold conferir_dv, append. destruct (String.eqb_spec informado calculado);
    simpl; intros H; [now left|].
  apply in_app_or in H as [H | [<- | []]]; [now left | now right].
Qed.

(** The three checks of a line of 47 digits: each one returns, and the
    errors are what the three comparisons add, in their order. *)
Lemma validar_linha_digitavel_47 (linha : string) :
  String.length (filter_str is_digit linha) = 47%nat ->
  let d := filter_str is_digit linha in
  exists i1 c1 i2 c2 i3 c3,
    index d 9 = Ok i1 /\ calcular_dv_modulo10 (slice d 0 9) = Ok c1 /\
    index d 20 = Ok i2 /\ calcular_dv_modulo10 (slice d 10 20) = Ok c2 /\
    index d 31 = Ok i3 /\ calcular_dv_modulo10 (slice d 21 31) = Ok c3 /\
    let es := conferir_dv (conferir_dv (conferir_dv [] "1" i1 c1) "2" i2 c2)
                          "3" i3 c3 in
    validar_linha_digitavel_try (PStr linha) = Ok (resultado (vazia es) es).
Proof.
  intros L d. fold d in L.
  assert (D : forall_str is_digit d = true) by apply forall_str_filter.
  destruct (index_some d 9) as [x1 I1]; [lia|].
  destruct (index_some d 20) as [x2 I2]; [lia|].
  destruct (index_some d 31) as [x3 I3]; [lia|].
  destruct (calcular_dv_modulo10_digito (slice d 0 9)) as (y1 & C1 & _);
    [now apply forall_str_slice|].
  destruct (calcular_dv_modulo10_digito (slice d 10 20)) as (y2 & C2 & _);
    [now apply forall_str_slice|].
  destruct (calcular_dv_modulo10_digito (slice d 21 31)) as (y3 & C3 & _);
    [now apply forall_str_slice|].
  do 6 eexists. repeat (split; [eassumption|]).
  cbv beta iota zeta delta [validar_linha_digitavel_try re_sub_nao_digitos bind].
  change (filter_str is_digit linha) with d. rewrite L.
  cbv beta iota delta [Nat.eqb negb].
  rewrite (index_slice d 0 10 9), (slice_slice d 0 10 9) by lia.
  rewrite (index_slice d 10 21 10), (slice_slice d 10 21 10) by lia.
  rewrite (index_slice d 21 32 10), (slice_slice d 21 32 10) by lia.
  simpl Nat.add. rewrite I1, C1, I2, C2, I3, C3. reflexivity.
Qed.

(** A block and its check digit, found where they were put. *)
Lemma bloco_no_lugar (antes prefixo depois : string) (c : ascii) :
  let d := antes ++ prefixo ++ String c EmptyString ++ depois in
  index d (String.length antes + String.length prefixo)
  = Ok (String c EmptyString)
  /\ slice d (String.length antes)
           (String.length antes + String.length prefixo) = prefixo.
Proof.
  intros d. unfold d, index, slice. split.
  - rewrite get_append_right.
    replace (String.length prefixo) with (String.length prefixo + 0)%nat by lia.
    now rewrite get_append_right.
  - rewrite drop_append.
    replace (String.length antes + String.length prefixo - String.length antes)%nat
      with (String.length prefixo) by lia.
    apply take_append.
Qed.

Lemma conferir_dv_igual (es : list string) (k dv : string) :
  conferir_dv es k dv dv = es.
Proof. unfold conferir_dv. now rewrite String.eqb_refl. Qed.

Lemma erro_de_outro_bloco (b : Bloco) (k calculado informado : string) :
  k <> numero b -> In k ["1"; "2"; "3"] ->
  erro_do_bloco b (erro_dv k calculado informado) = false.
Proof.
  intros N H. simpl in H.
  destruct H as [<- | [<- | [<- | []]]]; destruct b; try reflexivity;
    now contradiction N.
Qed.

(** C2. Round trip of the modulo-10 check digit: for a block prefix of 9
    (block 1) or 10 (blocks 2 and 3) digits, [calcular_dv_modulo10] returns
    a check digit, and a linha digitável whose 47 digits carry that prefix
    followed by that check digit at the place of the block is validated
    with no check-digit error for the block. *)
Theorem dv_modulo10_roundtrip (rt : Runtime) (b : Bloco) (prefixo : string) :
  forall_str is_digit prefixo = true ->
  String.length prefixo = tamanho b ->
  exists dv,
    calcular_dv_modulo10 prefixo = Ok dv /\
    forall linha antes depois,
      filter_str is_digit linha = antes ++ prefixo ++ dv ++ depois ->
      String.length antes = inicio b ->
      String.length (filter_str is_digit linha) = 47%nat ->
      forall e,
        In e (erros (validar_linha_digitavel rt (PStr linha))) ->
        erro_do_bloco b e = false.
Proof.
  intros D T. destruct (calcular_dv_modulo10_digito prefixo D) as (c & C & _).
  exists (String c EmptyString). split; [exact C|].
  intros linha antes depois E A L e.
  destruct (validar_linha_digitavel_47 linha L)
    as (i1 & c1 & i2 & c2 & i3 & c3 & I1 & C1 & I2 & C2 & I3 & C3 & R).
  cbv zeta in R. unfold validar_linha_digitavel. rewrite R. clear R.
  cbn [erros resultado].
  destruct (bloco_no_lugar antes prefixo depois c) as [P1 P2].
  cbv zeta in P1, P2. rewrite <- E, A, T in P1, P2.
  destruct b; cbn [inicio tamanho Nat.add] in P1, P2.
  - rewrite P1 in I1. rewrite P2, C in C1.
    injection I1 as <-. injection C1 as <-. rewrite conferir_dv_igual.
    intros H. apply In_conferir_dv in H as [H | [-> _]];
      [apply In_conferir_dv in H as [[] | [-> _]] |];
      apply erro_de_outro_bloco; simpl; (discriminate || tauto).
  - rewrite P1 in I2. rewrite P2, C in C2.
    injection I2 as <-. injection C2 as <-. rewrite conferir_dv_igual.
    intros H. apply In_conferir_dv in H as [H | [-> _]];
      [apply In_conferir_dv in H as [[] | [-> _]] |];
      apply erro_de_outro_bloco; simpl; (discriminate || tauto).
  - rewrite P1 in I3. rewrite P2, C in C3.
    injection I3 as <-. injection C3 as <-. rewrite conferir_dv_igual.
    intros H. apply In_conferir_dv in H as [H | [-> _]];
      [apply In_conferir_dv in H as [[] | [-> _]] |];
      apply erro_de_outro_bloco; simpl; (discriminate || tauto).
Qed.

(** With the three check digits in place the line is valid. *)
Lemma linha_digitavel_valida (rt : Runtime) (linha : string) :
  let d := filter_str is_digit linha in
  String.length d = 47%nat ->
  index d 9 = calcular_dv_modulo10 (slice d 0 9) ->
  index d 20 = calcular_dv_modulo10 (slice d 10 20) ->
  index d 31 = calcular_dv_modulo10 (slice d 21 31) ->
  validar_linha_digitavel rt (PStr linha) = resultado true [].
Proof.
  intros d L E1 E2 E3.
  destruct (validar_linha_digitavel_47 linha L)
    as (i1 & c1 & i2 & c2 & i3 & c3 & I1 & C1 & I2 & C2 & I3 & C3 & R).
  cbv zeta in R. fold d in I1, C1, I2, C2, I3, C3.
  unfold validar_linha_digitavel. rewrite R.
  rewrite I1, C1 in E1. rewrite I2, C2 in E2. rewrite I3, C3 in E3.
  injection E1 as ->. injection E2 as ->. injection E3 as ->.
  now rewrite !conferir_dv_igual.
Qed.

(** ** The código de barras *)

Lemma length_slice (s : string) (i j : nat) :
  (j <= String.length s)%nat -> String.length (slice s i j) = (j - i)%nat.
Proof. intros H. unfold slice. rewrite length_take, length_drop. lia. Qed.

Lemma drop_append_S (a r : string) (c : ascii) :
  drop (S (String.length a)) (a ++ String c r) = r.
Proof. induction a as [|x a IH]; simpl; [reflexivity | exact IH]. Qed.

(** C3. Round trip of the modulo-11 check digit: for a string of 44
    digits, [calcular_dv_modulo11] over the positions [0:4] and [5:44]
    returns a check digit, and the code with that digit at index 4 is
    validated with no error. *)
Theorem dv_modulo11_roundtrip (rt : Runtime) (codigo : string) :
  forall_str is_digit codigo = true ->
  String.length codigo = 44%nat ->
  exists dv,
    calcular_dv_modulo11 (slice codigo 0 4 ++ slice codigo 5 44) = Ok dv /\
    validar_codigo_barras rt
      (PStr (slice codigo 0 4 ++ dv ++ slice codigo 5 44))
    = resultado true [].
Proof.
  intros D L.
  set (a := slice codigo 0 4). set (r := slice codigo 5 44).
  assert (Da : forall_str is_digit a = true) by now apply forall_str_slice.
  assert (Dr : forall_str is_digit r = true) by now apply forall_str_slice.
  assert (La : String.length a = 4%nat) by (unfold a; rewrite length_slice; lia).
  assert (Lr : String.length r = 39%nat) by (unfold r; rewrite length_slice; lia).
  destruct (calcular_dv_modulo11_digito (a ++ r)) as (c & C & Dc & _).
  { rewrite forall_str_append. now rewrite Da, Dr. }
  exists (String c EmptyString). split; [exact C|].
  set (d := a ++ String c EmptyString ++ r).
  assert (Dd : forall_str is_digit d = true).
  { unfold d. rewrite !forall_str_append. simpl. now rewrite Da, Dc, Dr. }
  assert (Ld : String.length d = 44%nat).
  { unfold d. rewrite !length_append. simpl. lia. }
  assert (P1 : index d 4 = Ok (String c EmptyString))
    by (rewrite <- La; exact (proj1 (bloco_no_lugar EmptyString a r c))).
  assert (P2 : slice d 0 4 = a)
    by (rewrite <- La; exact (proj2 (bloco_no_lugar EmptyString a r c))).
  assert (P3 : slice d 5 44 = r).
  { unfold slice, d.
    change (String c EmptyString ++ r) with (String c r).
    replace (drop 5 (a ++ String c r))
      with (drop (S (String.length a)) (a ++ String c r)) by now rewrite La.
    rewrite drop_append_S. apply take_all. lia. }
  unfold validar_codigo_barras, validar_codigo_barras_try.
  cbv beta iota zeta delta [re_sub_nao_digitos bind].
  rewrite (filter_str_id _ d Dd), Ld. cbv beta iota delta [Nat.eqb negb].
  rewrite P1, P2, P3, C. now rewrite String.eqb_refl.
Qed.

(** ** The CNPJ *)

Lemma int_at_digito (d : string) (i : nat) :
  forall_str is_digit d = true -> (i < String.length d)%nat ->
  exists x, int_at d i = Ok x /\ 0 <= x <= 9.
Proof.
  intros D L. unfold int_at. destruct (get_some i d L) as [c G]. rewrite G.
  destruct (int_char_digit c (forall_str_get _ _ _ _ D G)) as (x & E & B & _).
  now exists x.
Qed.

Lemma for_each_soma (d : string) (peso : list Z) (l : list nat) :
  forall_str is_digit d = true ->
  Forall (fun i => (i < String.length d)%nat /\ (i < List.length peso)%nat) l ->
  forall acc, exists s,
    for_each (fun soma i =>
                x <- int_at d i ;; p <- item peso i ;; Ok (soma + x * p))
             l acc = Ok s.
Proof.
  intros D H. induction H as [|i l [Hd Hp] _ IH]; intros acc; simpl.
  - now exists acc.
  - destruct (int_at_digito d i D Hd) as (x & -> & _). simpl.
    unfold item. destruct (nth_error peso i) eqn:E.
    + simpl. apply IH.
    + apply nth_error_None in E. lia.
Qed.

Lemma soma_ponderada_total (d : string) (peso : list Z) (n : nat) :
  forall_str is_digit d = true ->
  (n <= String.length d)%nat -> (n <= List.length peso)%nat ->
  exists s, soma_ponderada d peso n = Ok s.
Proof.
  intros D Hd Hp. unfold soma_ponderada. apply for_each_soma; [assumption|].
  apply Forall_forall. intros i Hi. apply in_seq in Hi. lia.
Qed.

(** The weighted sum reads the first [n] digits only. *)
Lemma for_each_soma_ext (d d' : string) (peso : list Z) (l : list nat) :
  Forall (fun i => String.get i d = String.get i d') l ->
  forall acc,
    for_each (fun soma i =>
                x <- int_at d i ;; p <- item peso i ;; Ok (soma + x * p))
             l acc
    = for_each (fun soma i =>
                  x <- int_at d' i ;; p <- item peso i ;; Ok (soma + x * p))
               l acc.
Proof.
  intros H. induction H as [|i l Hi _ IH]; intros acc; simpl; [reflexivity|].
  unfold int_at at 1 3. rewrite Hi.
  destruct (String.get i d') as [c|]; simpl; [|reflexivity].
  destruct (int_char c); simpl; [|reflexivity].
  destruct (item peso i); simpl; [apply IH | reflexivity].
Qed.

Lemma soma_ponderada_prefixo (a r r' : string) (peso : list Z) (n : nat) :
  (n <= String.length a)%nat ->
  soma_ponderada (a ++ r) peso n = soma_ponderada (a ++ r') peso n.
Proof.
  intros H. unfold soma_ponderada. apply for_each_soma_ext.
  apply Forall_forall. intros i Hi. apply in_seq in Hi.
  now rewrite !get_append_left by lia.
Qed.

Lemma int_at_final (a r : string) (c : ascii) :
  int_at (a ++ String c r) (String.length a) = int_char c.
Proof.
  unfold int_at.
  replace (String.length a) with (String.length a + 0)%nat at 1 by lia.
  now rewrite get_append_right.
Qed.

Lemma int_char_inj (c c' : ascii) (x : Z) :
  int_char c = Ok x -> int_char c' = Ok x -> c = c'.
Proof.
  unfold int_char. destruct (is_digit c); [|discriminate].
  destruct (is_digit c'); [|discriminate].
  intros [= <-] [= E].
  rewrite <- (ascii_nat_embedding c), <- (ascii_nat_embedding c').
  f_equal. lia.
Qed.

(** A CNPJ of 14 digits that is not one digit repeated: both sums return,
    and the errors are those of the two comparisons. *)
Lemma validar_cnpj_14 (d : string) :
  forall_str is_digit d = true ->
  String.length d = 14%nat ->
  (forall c, d <> repeat_str (String c EmptyString) 14) ->
  validar_cnpj_try (PStr d)
  = Ok (resultado (vazia (erros_dos_dvs d)) (erros_dos_dvs d)).
Proof.
  intros D L N.
  destruct (index_some d 0) as [c0 I0]; [lia|].
  destruct (soma_ponderada_total d peso1 12 D) as [s1 S1]; [lia | simpl; lia |].
  destruct (soma_ponderada_total d peso2 13 D) as [s2 S2]; [lia | simpl; lia |].
  destruct (int_at_digito d 12 D) as (x12 & X12 & _); [lia|].
  destruct (int_at_digito d 13 D) as (x13 & X13 & _); [lia|].
  unfold validar_cnpj_try.
  cbv beta iota zeta delta [re_sub_nao_digitos bind].
  rewrite (filter_str_id _ d D), L. cbv beta iota delta [Nat.eqb negb].
  rewrite I0.
  destruct (String.eqb_spec d (repeat_str (String c0 EmptyString) 14)) as [E|_];
    [now destruct (N c0)|].
  rewrite S1, X12, S2, X13.
  unfold erros_dos_dvs, confere. rewrite S1, X12, S2, X13.
  destruct (x12 =? dv_do_resto (s1 mod 11));
    destruct (x13 =? dv_do_resto (s2 mod 11)); reflexivity.
Qed.

(** Only the digits of the text count. *)
Lemma validar_cnpj_formatacao (rt : Runtime) (cnpj : string) :
  validar_cnpj rt (PStr cnpj)
  = validar_cnpj rt (PStr (filter_str is_digit cnpj)).
Proof.
  unfold validar_cnpj, validar_cnpj_try.
  cbv beta iota zeta delta [re_sub_nao_digitos bind].
  now rewrite (filter_str_id _ _ (forall_str_filter is_digit cnpj)).
Qed.

Lemma append_inj (a b r r' : string) :
  String.length a = String.length b -> a ++ r = b ++ r' -> a = b /\ r = r'.
Proof.
  revert b; induction a as [|x a IH]; intros [|y b] L E; simpl in *;
    try discriminate; [now split|].
  injection E as -> E. destruct (IH b) as [-> ->]; [lia | assumption | now split].
Qed.

Lemma is_digit_repetido (c : ascii) (n : nat) (r : string) :
  forall_str is_digit (repeat_str (String c EmptyString) (S n) ++ r) = true ->
  is_digit c = true.
Proof. simpl. intros H. now apply andb_true_iff in H as [H _]. Qed.

(** A CNPJ whose first 13 digits are one digit repeated has a right first
    check digit only if that digit is 0, and then its second check digit
    is 0 as well. *)
Lemma treze_repetidos (c c13 : ascii) :
  is_digit c = true ->
  let d := repeat_str (String c EmptyString) 13 ++ String c13 EmptyString in
  confere d peso1 12 = true -> confere d peso2 13 = true ->
  c = "0"%char /\ c13 = "0"%char.
Proof.
  intros Dc d H1 H2. apply is_digit_cases in Dc. simpl in Dc.
  destruct Dc as [<- | Dc].
  - split; [reflexivity|]. clear H1. unfold confere, d in H2.
    assert (A : int_at (repeat_str "0" 13 ++ String c13 EmptyString) 13
                = int_char c13)
      by exact (int_at_final (repeat_str "0" 13) EmptyString c13).
    assert (B : soma_ponderada (repeat_str "0" 13 ++ String c13 EmptyString)
                  peso2 13 = Ok 0).
    { transitivity (soma_ponderada (repeat_str "0" 13 ++ EmptyString) peso2 13);
        [apply soma_ponderada_prefixo; simpl; lia | reflexivity]. }
    rewrite A, B in H2.
    destruct (int_char c13) as [x|] eqn:E; [|discriminate].
    cbv beta iota in H2. apply Z.eqb_eq in H2. symmetry.
    apply (int_char_inj "0" c13 x); [now subst x | assumption].
  - exfalso. clear H2.
    repeat (destruct Dc as [<- | Dc]; [vm_compute in H1; discriminate |]).
    contradiction.
Qed.

(** A CNPJ whose first 12 digits and last digit are one digit repeated
    has two right check digits only if they are all 0. *)
Lemma doze_repetidos (c c12 : ascii) :
  is_digit c = true -> is_digit c12 = true ->
  let d := repeat_str (String c EmptyString) 12
           ++ String c12 (String c EmptyString) in
  confere d peso1 12 = true -> confere d peso2 13 = true ->
  c12 = c.
Proof.
  intros Dc D12 d H1 H2. apply is_digit_cases in Dc, D12. simpl in Dc, D12.
  unfold d in *. clear d.
  repeat (destruct Dc as [<- | Dc];
          [repeat (destruct D12 as [<- | D12];
                   [first [reflexivity
                          | vm_compute in H1; discriminate
                          | vm_compute in H2; discriminate] |]);
           contradiction |]).
  contradiction.
Qed.

Lemma append_cons (a r : string) (c : ascii) :
  a ++ String c r = (a ++ String c EmptyString) ++ r.
Proof. induction a as [|x a IH]; simpl; [reflexivity | now rewrite IH]. Qed.

(** Whether the digit after [a] is the check digit of [a] does not depend
    on what follows it, and one digit at most is. *)
Lemma confere_ext (a r r' : string) (c : ascii) (peso : list Z) :
  confere (a ++ String c r) peso (String.length a)
  = confere (a ++ String c r') peso (String.length a).
Proof.
  unfold confere. rewrite !int_at_final.
  now rewrite (soma_ponderada_prefixo a (String c r) (String c r')) by lia.
Qed.

Lemma confere_troca (a r r' : string) (c y : ascii) (peso : list Z) :
  confere (a ++ String c r) peso (String.length a) = true ->
  y <> c ->
  confere (a ++ String y r') peso (String.length a) = false.
Proof.
  unfold confere. rewrite !int_at_final.
  rewrite (soma_ponderada_prefixo a (String y r') (String c r)) by lia.
  destruct (soma_ponderada (a ++ String c r) peso (String.length a));
    [|discriminate].
  destruct (int_char c) as [x|] eqn:Ec; [|discriminate].
  destruct (int_char y) as [x'|] eqn:Ey; [|reflexivity].
  intros H N. apply Z.eqb_eq in H.
  destruct (Z.eqb_spec x' (dv_do_resto (a0 mod 11))) as [E|]; [|reflexivity].
  destruct N. apply (int_char_inj y c x); congruence.
Qed.

(** C4, as the code has it.  For a CNPJ of 14 digits that is not one digit
    repeated and whose two check digits are the computed ones: it is
    validated with no error; with another digit in place of the second
    check digit the only error is that of the second digit; with another
    digit in place of the first check digit the first error is that of the
    first digit, and the error of the second digit follows it unless the
    second check digit, which is computed over the first, still agrees.
    And 14 times the same digit is rejected. *)
Theorem cnpj_digitos_verificadores (rt : Runtime) (corpo : string)
  (c12 c13 y : ascii) :
  forall_str is_digit corpo = true ->
  String.length corpo = 12%nat ->
  is_digit c12 = true -> is_digit c13 = true -> is_digit y = true ->
  let cnpj := corpo ++ String c12 (String c13 EmptyString) in
  (forall c, cnpj <> repeat_str (String c EmptyString) 14) ->
  confere cnpj peso1 12 = true ->
  confere cnpj peso2 13 = true ->
  validar_cnpj rt (PStr cnpj) = resultado true []
  /\ (y <> c13 ->
      validar_cnpj rt (PStr (corpo ++ String c12 (String y EmptyString)))
      = resultado false [erro_segundo_dv])
  /\ (y <> c12 ->
      let alterado := corpo ++ String y (String c13 EmptyString) in
      validar_cnpj rt (PStr alterado)
      = resultado false
          (erro_primeiro_dv
           :: (if confere alterado peso2 13 then [] else [erro_segundo_dv])))
  /\ (forall c, is_digit c = true ->
      validar_cnpj rt (PStr (repeat_str (String c EmptyString) 14))
      = resultado false ["CNPJ inválido (sequência repetida)"]).
Proof.
  intros D L D12 D13 Dy cnpj N H1 H2.
  assert (Dig : forall u v, is_digit u = true -> is_digit v = true ->
                forall_str is_digit (corpo ++ String u (String v EmptyString))
                = true).
  { intros u v Du Dv. rewrite forall_str_append. simpl. now rewrite D, Du, Dv. }
  assert (Len : forall u v,
                String.length (corpo ++ String u (String v EmptyString)) = 14%nat).
  { intros u v. rewrite length_append. simpl. lia. }
  assert (Rep : forall c, repeat_str (String c EmptyString) 14
                          = repeat_str (String c EmptyString) 12
                            ++ String c (String c EmptyString))
    by reflexivity.
  repeat split.
  - unfold validar_cnpj.
    rewrite (validar_cnpj_14 cnpj (Dig _ _ D12 D13) (Len _ _) N).
    unfold erros_dos_dvs. now rewrite H1, H2.
  - intros Ny.
    set (alterado := corpo ++ String c12 (String y EmptyString)).
    assert (N' : forall c, alterado <> repeat_str (String c EmptyString) 14).
    { intros c E. unfold alterado in E. rewrite Rep in E.
      apply append_inj in E as [Ec E]; [|now rewrite L].
      injection E as -> ->.
      destruct (treze_repetidos c c13 D12) as [-> ->]; [| |now destruct Ny].
      - subst corpo. exact H1.
      - subst corpo. exact H2. }
    unfold validar_cnpj.
    rewrite (validar_cnpj_14 alterado (Dig _ _ D12 Dy) (Len _ _) N').
    unfold erros_dos_dvs.
    assert (E1 : confere alterado peso1 12 = true).
    { rewrite <- H1, <- L. apply confere_ext. }
    assert (E2 : confere alterado peso2 13 = false).
    { unfold alterado. rewrite append_cons.
      replace 13%nat with (String.length (corpo ++ String c12 EmptyString))
        by (rewrite length_append; simpl; lia).
      apply (confere_troca _ EmptyString EmptyString c13); [|assumption].
      rewrite <- append_cons. rewrite length_append, L. exact H2. }
    now rewrite E1, E2.
  - intros Ny alterado.
    assert (N' : forall c, alterado <> repeat_str (String c EmptyString) 14).
    { intros c E. unfold alterado in E. rewrite Rep in E.
      apply append_inj in E as [Ec E]; [|now rewrite L].
      injection E as -> ->.
      destruct Ny. symmetry. apply (doze_repetidos c c12 D13 D12).
      - subst corpo. exact H1.
      - subst corpo. exact H2. }
    unfold validar_cnpj.
    rewrite (validar_cnpj_14 alterado (Dig _ _ Dy D13) (Len _ _) N').
    unfold erros_dos_dvs.
    assert (E1 : confere alterado peso1 12 = false).
    { rewrite <- L. apply (confere_troca _ (String c13 EmptyString) _ c12);
        [now rewrite L | assumption]. }
    rewrite E1. now destruct (confere alterado peso2 13).
  - intros c Dc. unfold validar_cnpj, validar_cnpj_try.
    cbv beta iota zeta delta [re_sub_nao_digitos bind].
    rewrite filter_str_id by (simpl; now rewrite Dc).
    simpl. now rewrite !Ascii.eqb_refl.
Qed.

(** ** The invariant [valido = erros.isEmpty()] *)

Lemma sempre_bind {A B : Type} (P : B -> Prop) (r : result A)
  (k : A -> result B) :
  (forall a, r = Ok a -> sempre P (k a)) -> sempre P (bind r k).
Proof. intros H b. destruct r as [a|e]; simpl; [now apply H | discriminate]. Qed.

Lemma sempre_Ok {A : Type} (P : A -> Prop) (a : A) : P a -> sempre P (Ok a).
Proof. intros H b [= <-]. exact H. Qed.

Lemma sempre_Raise {A : Type} (P : A -> Prop) (e : exn) : sempre P (Raise e).
Proof. intros b. discriminate. Qed.

Lemma coerente_vazia (es : list string) : coerente (resultado (vazia es) es).
Proof. unfold coerente; simpl. destruct es; simpl; split; congruence. Qed.

Lemma coerente_falso (e : string) (es : list string) :
  coerente (resultado false (e :: es)).
Proof. unfold coerente; simpl. split; discriminate. Qed.

Lemma coerente_append (es : list string) (e : string) :
  coerente (resultado false (append es e)).
Proof.
  unfold coerente, append; simpl. split; [discriminate|].
  intros H. now apply app_eq_nil in H as [_ H].
Qed.

Create HintDb coerencia.

#[local] Hint Resolve coerente_vazia coerente_falso coerente_append
  sempre_Ok sempre_Raise : coerencia.

Ltac passo_a_passo :=
  repeat (first [ apply sempre_bind; intros ? _
                | apply sempre_Ok
                | apply sempre_Raise
                | match goal with
                  | |- sempre _ (if ?c then _ else _) => destruct c
                  | |- sempre _ (match ?v with _ => _ end) => destruct v
                  end ]).

Lemma coerente_linha_try (v : pyval) :
  sempre coerente (validar_linha_digitavel_try v).
Proof.
  unfold validar_linha_digitavel_try. cbv zeta.
  passo_a_passo; auto with coerencia.
Qed.

Lemma coerente_barras_try (v : pyval) :
  sempre coerente (validar_codigo_barras_try v).
Proof.
  unfold validar_codigo_barras_try. cbv zeta.
  passo_a_passo; auto with coerencia.
Qed.

Lemma coerente_valor (v : pyval) : sempre coerente (validar_valor v).
Proof.
  unfold validar_valor. cbv zeta. passo_a_passo; auto with coerencia.
Qed.

Lemma coerente_vencimento_try (rt : Runtime) (v : pyval) :
  sempre coerente (validar_vencimento_try rt v).
Proof.
  unfold validar_vencimento_try. cbv zeta. passo_a_passo; auto with coerencia.
Qed.

Lemma coerente_cnpj_try (v : pyval) : sempre coerente (validar_cnpj_try v).
Proof.
  unfold validar_cnpj_try. cbv zeta. passo_a_passo; auto with coerencia.
Qed.

Lemma coerente_banco (rt : Runtime) (v : pyval) :
  sempre coerente (validar_codigo_banco rt v).
Proof.
  unfold validar_codigo_banco. cbv zeta. passo_a_passo; auto with coerencia.
Qed.

(** A handler turns an exception into a result with one error. *)
Lemma coerente_com_handler (r : result Resultado) (msg : exn -> string) :
  sempre coerente r ->
  coerente match r with
           | Ok x => x
           | Raise e => resultado false [msg e]
           end.
Proof. intros H. destruct r as [x|e]; [now apply H | apply coerente_falso]. Qed.

Lemma coerente_linha (rt : Runtime) (v : pyval) :
  coerente (validar_linha_digitavel rt v).
Proof.
  apply (coerente_com_handler _
           (fun e => "Erro ao validar linha digitável: " ++ str_exn rt e)),
        coerente_linha_try.
Qed.

Lemma coerente_barras (rt : Runtime) (v : pyval) :
  coerente (validar_codigo_barras rt v).
Proof.
  apply (coerente_com_handler _
           (fun e => "Erro ao validar código de barras: " ++ str_exn rt e)),
        coerente_barras_try.
Qed.

Lemma coerente_vencimento (rt : Runtime) (v : pyval) :
  coerente (validar_vencimento rt v).
Proof.
  apply (coerente_com_handler _
           (fun e => "Data de vencimento inválida: " ++ str_exn rt e)),
        coerente_vencimento_try.
Qed.

Lemma coerente_cnpj (rt : Runtime) (v : pyval) : coerente (validar_cnpj rt v).
Proof.
  apply (coerente_com_handler _
           (fun e => "Erro ao validar CNPJ: " ++ str_exn rt e)),
        coerente_cnpj_try.
Qed.

Lemma detalhes_registrar (ac : Acumulado) (chave : string) (r : Resultado) :
  detalhes_coerentes (snd ac) -> coerente r ->
  detalhes_coerentes (snd (registrar ac chave r)).
Proof.
  destruct ac as [es ds]. unfold registrar, detalhes_coerentes, append; simpl.
  intros H C. apply Forall_app. split; [assumption | now constructor].
Qed.

Lemma detalhes_faltante (ac : Acumulado) (mensagem : string) :
  detalhes_coerentes (snd ac) ->
  detalhes_coerentes (snd (faltante ac mensagem)).
Proof. now destruct ac. Qed.

(** A step whose validator has no handler of its own. *)
Lemma detalhes_etapa (ac ac' : Acumulado) (campo : pyval)
  (validador : pyval -> result Resultado) (chave mensagem : string) :
  sempre coerente (validador campo) ->
  detalhes_coerentes (snd ac) ->
  (if truthy campo
   then r <- validador campo ;; Ok (registrar ac chave r)
   else Ok (faltante ac mensagem)) = Ok ac' ->
  detalhes_coerentes (snd ac').
Proof.
  intros V H. destruct (truthy campo).
  - destruct (validador campo) as [r|e] eqn:E; simpl; [|discriminate].
    intros [= <-]. apply detalhes_registrar; [assumption | now apply V].
  - intros [= <-]. now apply detalhes_faltante.
Qed.

Lemma coerente_boleto_try (rt : Runtime) (dados : Dados) :
  sempre (fun r => coerente r /\ detalhes_coerentes (detalhes r))
         (validar_boleto_febraban_try rt dados).
Proof.
  intros r Hr. unfold validar_boleto_febraban_try in Hr. cbv zeta in Hr.
  match type of Hr with
  | bind ?x _ = _ => destruct x as [ac3|] eqn:E3; [|discriminate]
  end.
  apply detalhes_etapa in E3; [|apply coerente_valor|].
  2:{ destruct (truthy (codigo_barras dados));
      [apply detalhes_registrar; [|apply coerente_barras]|];
      (destruct (truthy (linha_digitavel dados));
       [apply detalhes_registrar; [constructor | apply coerente_linha]
       |apply detalhes_faltante; constructor]). }
  simpl in Hr.
  match type of Hr with
  | bind ?x _ = _ => destruct x as [ac6|] eqn:E6; [|discriminate]
  end.
  apply detalhes_etapa in E6; [|apply coerente_banco|].
  2:{ destruct (truthy (beneficiario_cnpj dados));
      [apply detalhes_registrar; [|apply coerente_cnpj]|];
      (destruct (truthy (vencimento dados));
       [apply detalhes_registrar; [assumption | apply coerente_vencimento]
       |now apply detalhes_faltante]). }
  simpl in Hr. destruct ac6 as [es ds]. injection Hr as <-.
  split; [|exact E6].
  unfold coerente; simpl. destruct es; simpl; split; congruence.
Qed.

(** C8. The result of [validar_boleto_febraban] has [valido] true exactly
    when [erros] is empty, whatever the fields are and also when a field
    validator raises; so has every per-field result it records in
    [detalhes]; and so has the result of every field validator, on any
    value, whenever it returns one. *)
Theorem valido_sse_sem_erros (rt : Runtime) (dados : Dados) (v : pyval) :
  let r := validar_boleto_febraban rt dados in
  coerente r
  /\ detalhes_coerentes (detalhes r)
  /\ coerente (validar_linha_digitavel rt v)
  /\ coerente (validar_codigo_barras rt v)
  /\ sempre coerente (validar_valor v)
  /\ coerente (validar_vencimento rt v)
  /\ coerente (validar_cnpj rt v)
  /\ sempre coerente (validar_codigo_banco rt v).
Proof.
  intros r.
  refine (conj _ (conj _ (conj (coerente_linha rt v)
           (conj (coerente_barras rt v) (conj (coerente_valor v)
             (conj (coerente_vencimento rt v)
               (conj (coerente_cnpj rt v) (coerente_banco rt v)))))))).
  - unfold r, validar_boleto_febraban.
    destruct (validar_boleto_febraban_try rt dados) as [x|e] eqn:E.
    + now apply (coerente_boleto_try rt dados x E).
    + unfold coerente; simpl. split; discriminate.
  - unfold r, validar_boleto_febraban.
    destruct (validar_boleto_febraban_try rt dados) as [x|e] eqn:E.
    + now apply (coerente_boleto_try rt dados x E).
    + constructor.
Qed.

(** ** The fields that are not found *)

Lemma registrar_eq (es : list string) (ds : list (string * Resultado))
  (chave : string) (r : Resultado) :
  registrar (es, ds) chave r = ((es ++ achados r)%list, (ds ++ [(chave, r)])%list).
Proof.
  unfold registrar, achados, extend, append.
  destruct (valido r); simpl; [now rewrite app_nil_r | reflexivity].
Qed.

Lemma faltante_eq (es : list string) (ds : list (string * Resultado))
  (mensagem : string) :
  faltante (es, ds) mensagem = ((es ++ [mensagem])%list, ds).
Proof. reflexivity. Qed.

(** The errors and the details of the boleto, field by field, when no
    field validator raises. *)
Lemma boleto_decomposto (rt : Runtime) (dados : Dados) (r : Resultado) :
  validar_boleto_febraban_try rt dados = Ok r ->
  exists rv rb,
    (truthy (valor dados) = true -> validar_valor (valor dados) = Ok rv)
    /\ (truthy (codigo_banco dados) = true ->
        validar_codigo_banco rt (codigo_banco dados) = Ok rb)
    /\ erros r
       = (contribuicao (linha_digitavel dados)
            (validar_linha_digitavel rt (linha_digitavel dados))
            [linha_nao_encontrada]
          ++ contribuicao (codigo_barras dados)
               (validar_codigo_barras rt (codigo_barras dados)) []
          ++ contribuicao (valor dados) rv [valor_nao_encontrado]
          ++ contribuicao (vencimento dados)
               (validar_vencimento rt (vencimento dados))
               [vencimento_nao_encontrado]
          ++ contribuicao (beneficiario_cnpj dados)
               (validar_cnpj rt (beneficiario_cnpj dados)) []
          ++ contribuicao (codigo_banco dados) rb [banco_nao_encontrado])%list
    /\ detalhes r
       = (registro (linha_digitavel dados) "linha_digitavel"
            (validar_linha_digitavel rt (linha_digitavel dados))
          ++ registro (codigo_barras dados) "codigo_barras"
               (validar_codigo_barras rt (codigo_barras dados))
          ++ registro (valor dados) "valor" rv
          ++ registro (vencimento dados) "vencimento"
               (validar_vencimento rt (vencimento dados))
          ++ registro (beneficiario_cnpj dados) "cnpj"
               (validar_cnpj rt (beneficiario_cnpj dados))
          ++ registro (codigo_banco dados) "banco" rb)%list.
Proof.
  intros H. unfold validar_boleto_febraban_try in H. cbv zeta in H.
  unfold contribuicao, registro.
  assert (V : exists rv,
             truthy (valor dados) = true -> validar_valor (valor dados) = Ok rv).
  { destruct (truthy (valor dados)); [|now exists (resultado true [])].
    destruct (validar_valor (valor dados)) as [rv|e]; [now exists rv|].
    discriminate H. }
  assert (B : exists rb,
             truthy (codigo_banco dados) = true ->
             validar_codigo_banco rt (codigo_banco dados) = Ok rb).
  { destruct (truthy (codigo_banco dados)); [|now exists (resultado true [])].
    destruct (validar_codigo_banco rt (codigo_banco dados)) as [rb|e];
      [now exists rb|].
    destruct (truthy (valor dados));
      [destruct (validar_valor (valor dados))|]; discriminate H. }
  destruct V as [rv V], B as [rb B]. exists rv, rb.
  split; [exact V|]. split; [exact B|].
  destruct (truthy (valor dados)); [rewrite (V eq_refl) in H|];
    (destruct (truthy (codigo_banco dados)); [rewrite (B eq_refl) in H|]);
    destruct (truthy (linha_digitavel dados)), (truthy (codigo_barras dados)),
      (truthy (vencimento dados)), (truthy (beneficiario_cnpj dados));
    cbn [bind] in H;
    repeat first [rewrite registrar_eq in H | rewrite faltante_eq in H];
    injection H as <-; cbn [erros detalhes];
    rewrite <- ?app_assoc; split; reflexivity.
Qed.

Ltac sem_falta_por_calculo :=
  cbv beta iota delta [sem_falta conferir_dv append extend erro_dv resultado erros];
  repeat match goal with
         | |- context [if ?c then _ else _] => destruct c
         end;
  cbn [app]; repeat constructor.

Lemma sem_falta_linha_try (v : pyval) :
  sempre (fun r => sem_falta (erros r)) (validar_linha_digitavel_try v).
Proof.
  unfold validar_linha_digitavel_try. cbv zeta.
  passo_a_passo; sem_falta_por_calculo.
Qed.

Lemma sem_falta_barras_try (v : pyval) :
  sempre (fun r => sem_falta (erros r)) (validar_codigo_barras_try v).
Proof.
  unfold validar_codigo_barras_try. cbv zeta.
  passo_a_passo; sem_falta_por_calculo.
Qed.

Lemma sem_falta_valor (v : pyval) :
  sempre (fun r => sem_falta (erros r)) (validar_valor v).
Proof.
  unfold validar_valor. cbv zeta. passo_a_passo; sem_falta_por_calculo.
Qed.

Lemma sem_falta_vencimento_try (rt : Runtime) (v : pyval) :
  sempre (fun r => sem_falta (erros r)) (validar_vencimento_try rt v).
Proof.
  unfold validar_vencimento_try. cbv zeta.
  passo_a_passo; sem_falta_por_calculo.
Qed.

Lemma sem_falta_cnpj_try (v : pyval) :
  sempre (fun r => sem_falta (erros r)) (validar_cnpj_try v).
Proof.
  unfold validar_cnpj_try. cbv zeta. passo_a_passo; sem_falta_por_calculo.
Qed.

Lemma sem_falta_banco (rt : Runtime) (v : pyval) :
  sempre (fun r => sem_falta (erros r)) (validar_codigo_banco rt v).
Proof.
  unfold validar_codigo_banco. cbv zeta. passo_a_passo; sem_falta_por_calculo.
Qed.

Lemma sem_falta_linha (rt : Runtime) (v : pyval) :
  sem_falta (erros (validar_linha_digitavel rt v)).
Proof.
  unfold validar_linha_digitavel.
  destruct (validar_linha_digitavel_try v) eqn:E;
    [now apply (sem_falta_linha_try v) | repeat constructor].
Qed.

Lemma sem_falta_barras (rt : Runtime) (v : pyval) :
  sem_falta (erros (validar_codigo_barras rt v)).
Proof.
  unfold validar_codigo_barras.
  destruct (validar_codigo_barras_try v) eqn:E;
    [now apply (sem_falta_barras_try v) | repeat constructor].
Qed.

Lemma sem_falta_vencimento (rt : Runtime) (v : pyval) :
  sem_falta (erros (validar_vencimento rt v)).
Proof.
  unfold validar_vencimento.
  destruct (validar_vencimento_try rt v) eqn:E;
    [now apply (sem_falta_vencimento_try rt v) | repeat constructor].
Qed.

Lemma sem_falta_cnpj (rt : Runtime) (v : pyval) :
  sem_falta (erros (validar_cnpj rt v)).
Proof.
  unfold validar_cnpj.
  destruct (validar_cnpj_try v) eqn:E;
    [now apply (sem_falta_cnpj_try v) | repeat constructor].
Qed.

Lemma In_achados (e : string) (r : Resultado) :
  In e (achados r) -> In e (erros r).
Proof. unfold achados. now destruct (valido r). Qed.

(** Where an error of a field comes from. *)
Lemma contribuicao_origem (campo : pyval) (r : Resultado) (falta : list string)
  (e : string) :
  In e (contribuicao campo r falta) ->
  (truthy campo = true /\ In e (erros r))
  \/ (truthy campo = false /\ In e falta).
Proof.
  unfold contribuicao. destruct (truthy campo); intros H;
    [left; split; [reflexivity | now apply In_achados] | now right].
Qed.

(** One of the four messages among the errors of a field is the message
    of that field, and the field is not there. *)
Lemma contribuicao_falta (campo : pyval) (r : Resultado) (falta : list string)
  (m : string) :
  (truthy campo = true -> sem_falta (erros r)) ->
  e_falta m = true ->
  In m (contribuicao campo r falta) ->
  truthy campo = false /\ In m falta.
Proof.
  intros S M H. apply contribuicao_origem in H as [[T H] | H]; [|assumption].
  specialize (S T). unfold sem_falta in S. rewrite Forall_forall in S.
  rewrite (S m H) in M. discriminate.
Qed.

Lemma tem_chave_app (chave : string) (a b : list (string * Resultado)) :
  tem_chave chave (a ++ b) = tem_chave chave a || tem_chave chave b.
Proof. apply existsb_app. Qed.

(** C9, as the code has it.  When no field validator raises, the message
    of a mandatory field (linha digitável, valor, vencimento, código do
    banco) is among the errors exactly when the field is not truthy, that
    is [None], empty or zero; the código de barras and the CNPJ are
    recorded in [detalhes] exactly when they are truthy; and every error
    is one of the four messages or an error of a result recorded in
    [detalhes], so that these two fields add no message of their own. *)
Theorem campos_nao_encontrados (rt : Runtime) (dados : Dados) (r : Resultado) :
  validar_boleto_febraban_try rt dados = Ok r ->
  validar_boleto_febraban rt dados = r
  /\ (In linha_nao_encontrada (erros r)
      <-> truthy (linha_digitavel dados) = false)
  /\ (In valor_nao_encontrado (erros r) <-> truthy (valor dados) = false)
  /\ (In vencimento_nao_encontrado (erros r)
      <-> truthy (vencimento dados) = false)
  /\ (In banco_nao_encontrado (erros r)
      <-> truthy (codigo_banco dados) = false)
  /\ tem_chave "codigo_barras" (detalhes r) = truthy (codigo_barras dados)
  /\ tem_chave "cnpj" (detalhes r) = truthy (beneficiario_cnpj dados)
  /\ (forall e, In e (erros r) ->
        In e mensagens_de_falta
        \/ exists chave sub, In (chave, sub) (detalhes r) /\ In e (erros sub)).
Proof.
  intros H. split; [unfold validar_boleto_febraban; now rewrite H|].
  destruct (boleto_decomposto rt dados r H) as (rv & rb & V & B & E & D).
  assert (Sv : truthy (valor dados) = true -> sem_falta (erros rv))
    by (intros T; exact (sem_falta_valor _ _ (V T))).
  assert (Sb : truthy (codigo_banco dados) = true -> sem_falta (erros rb))
    by (intros T; exact (sem_falta_banco _ _ _ (B T))).
  assert (F : forall m, e_falta m = true -> In m (erros r) ->
              (truthy (linha_digitavel dados) = false /\ m = linha_nao_encontrada)
              \/ (truthy (valor dados) = false /\ m = valor_nao_encontrado)
              \/ (truthy (vencimento dados) = false
                  /\ m = vencimento_nao_encontrado)
              \/ (truthy (codigo_banco dados) = false
                  /\ m = banco_nao_encontrado)).
  { intros m M I. rewrite E in I. rewrite !in_app_iff in I.
    destruct I as [I | [I | [I | [I | [I | I]]]]];
      apply contribuicao_falta in I;
      try assumption;
      try (intros _; first [ apply sem_falta_linha | apply sem_falta_barras
                           | apply sem_falta_vencimento | apply sem_falta_cnpj ]);
      destruct I as [T I]; simpl in I;
      first [contradiction | destruct I as [<- | []]; tauto]. }
  assert (G : forall (campo : pyval) (x : Resultado) (m : string),
              truthy campo = false -> In m (contribuicao campo x [m])).
  { intros campo x m T. unfold contribuicao. rewrite T. now left. }
  repeat match goal with |- _ /\ _ => split end.
  - split.
    + intros I. apply F in I; [|reflexivity].
      destruct I as [[T _] | [[_ X] | [[_ X] | [_ X]]]];
        [exact T | discriminate X ..].
    + intros T. rewrite E, !in_app_iff. left. now apply G.
  - split.
    + intros I. apply F in I; [|reflexivity].
      destruct I as [[_ X] | [[T _] | [[_ X] | [_ X]]]];
        [discriminate X | exact T | discriminate X ..].
    + intros T. rewrite E, !in_app_iff. do 2 right. left. now apply G.
  - split.
    + intros I. apply F in I; [|reflexivity].
      destruct I as [[_ X] | [[_ X] | [[T _] | [_ X]]]];
        [discriminate X .. | exact T | discriminate X].
    + intros T. rewrite E, !in_app_iff. do 3 right. left. now apply G.
  - split.
    + intros I. apply F in I; [|reflexivity].
      destruct I as [[_ X] | [[_ X] | [[_ X] | [T _]]]];
        [discriminate X .. | exact T].
    + intros T. rewrite E, !in_app_iff. do 5 right. now apply G.
  - rewrite D, !tem_chave_app. unfold registro.
    destruct (truthy (linha_digitavel dados)), (truthy (codigo_barras dados)),
      (truthy (valor dados)), (truthy (vencimento dados)),
      (truthy (beneficiario_cnpj dados)), (truthy (codigo_banco dados));
      reflexivity.
  - rewrite D, !tem_chave_app. unfold registro.
    destruct (truthy (linha_digitavel dados)), (truthy (codigo_barras dados)),
      (truthy (valor dados)), (truthy (vencimento dados)),
      (truthy (beneficiario_cnpj dados)), (truthy (codigo_banco dados));
      reflexivity.
  - intros e I. rewrite E in I. rewrite !in_app_iff in I. rewrite D.
    unfold registro.
    destruct I as [I | [I | [I | [I | [I | I]]]]];
      apply contribuicao_origem in I as [[T I] | [T I]];
      try (left; destruct I as [<- | []]; simpl; tauto);
      try contradiction;
      right; rewrite T; eexists _, _; (split; [|exact I]);
      rewrite !in_app_iff; simpl; tauto.
Qed.

(** On fields of the parser's types no field validator raises. *)
Lemma boleto_bem_tipado (rt : Runtime) (dados : Dados) :
  bem_tipado dados = true ->
  exists r, validar_boleto_febraban_try rt dados = Ok r.
Proof.
  unfold bem_tipado, validar_boleto_febraban_try. cbv zeta. intros H.
  apply andb_true_iff in H as [Hv Hb].
  assert (V : exists rv, validar_valor (valor dados) = Ok rv
                         \/ truthy (valor dados) = false).
  { destruct (valor dados); try discriminate;
      [exists (resultado true []); now right | eexists; left; reflexivity]. }
  assert (B : exists rb, validar_codigo_banco rt (codigo_banco dados) = Ok rb).
  { destruct (codigo_banco dados); try discriminate; eexists; reflexivity. }
  destruct V as [rv V], B as [rb B].
  destruct (truthy (valor dados)) eqn:Tv.
  - destruct V as [V|]; [|discriminate]. rewrite V. cbn [bind].
    destruct (truthy (codigo_banco dados)); [rewrite B|]; cbn [bind];
      match goal with |- context [let '(_, _) := ?x in _] => destruct x end;
      eauto.
  - cbn [bind].
    destruct (truthy (codigo_banco dados)); [rewrite B|]; cbn [bind];
      match goal with |- context [let '(_, _) := ?x in _] => destruct x end;
      eauto.
Qed.

(** ** The fused verdict *)

(** C1. The fused verdict is fraudulent exactly when the validation is
    invalid or the classifier says fraud; [metodos] has
    ['validacao_febraban'] exactly when the validation is invalid and
    ['modelo_ml'] exactly when the classifier says fraud; [motivos] is the
    errors of an invalid validation and empty otherwise.  An invalid
    validation with a classifier that says authentic gives a fraudulent
    verdict whose [metodos] is ['validacao_febraban'] alone. *)
Theorem veredito_fundido {F : Type} (validacao : Resultado)
  (predicao_ml : Predicao.t F) (explicacao : Explicacao.t) :
  let f := fraude_analise validacao predicao_ml explicacao in
  FraudeAnalise.isFraudulento f
  = negb (valido validacao) || Predicao.is_fraudulento predicao_ml
  /\ (In "validacao_febraban" (FraudeAnalise.metodos f)
      <-> valido validacao = false)
  /\ (In "modelo_ml" (FraudeAnalise.metodos f)
      <-> Predicao.is_fraudulento predicao_ml = true)
  /\ FraudeAnalise.motivos f
     = (if valido validacao then [] else erros validacao)
  /\ (valido validacao = false ->
      Predicao.is_fraudulento predicao_ml = false ->
      FraudeAnalise.isFraudulento f = true
      /\ FraudeAnalise.metodos f = ["validacao_febraban"]).
Proof.
  unfold fraude_analise, append. cbn.
  destruct (valido validacao), (Predicao.is_fraudulento predicao_ml); cbn;
    repeat split; try discriminate; try tauto;
    intros H; repeat (destruct H as [H | H]; try discriminate H);
    solve [contradiction | reflexivity].
Qed.

(** The job stores that verdict whenever it completes. *)
Lemma processar_boleto_veredito (rt : Runtime) (modelo : Modelo Features.t)
  (texto : string) (f : FraudeAnalise.t) :
  processar_boleto rt modelo texto = Ok f ->
  exists (predicao_ml : Predicao.t Features.t) explicacao,
    f = fraude_analise
          (validar_boleto_febraban rt (parse_dados_boleto rt texto))
          predicao_ml explicacao.
Proof.
  unfold processar_boleto. cbv zeta.
  destruct (preparar_features _) as [features|]; [|discriminate]. cbn [bind].
  destruct (predizer_fraude modelo features) as [p|]; [|discriminate].
  cbn [bind].
  destruct (gerar_explicacao_humanizada _ _ _ p) as [x|]; [|discriminate].
  cbn [bind]. intros [= <-]. now exists p, x.
Qed.

(** ** The score and the confidence *)

Lemma max2_maior (a b : Q) : (a <= max2 a b)%Q /\ (b <= max2 a b)%Q.
Proof.
  unfold max2, Qgt_bool. destruct (Qle_bool b a) eqn:E; simpl.
  - apply Qle_bool_iff in E. split; [apply Qle_refl | exact E].
  - split; [|apply Qle_refl].
    destruct (Qlt_le_dec a b) as [L|L]; [now apply Qlt_le_weak|].
    apply Qle_bool_iff in L. congruence.
Qed.

(** *** The float nearest to a number *)

Lemma arredondar_par_piso (t : Q) :
  Qfloor t <= arredondar_par t <= Qfloor t + 1.
Proof.
  unfold arredondar_par. cbv zeta.
  destruct (Qgt_bool _ _); [lia|].
  destruct (Qgt_bool _ _); [lia|].
  destruct (Z.even _); lia.
Qed.

Lemma arredondar_par_acima (t : Q) (k : Z) :
  (inject_Z k <= t)%Q -> k <= arredondar_par t.
Proof.
  intros H. apply Qfloor_resp_le in H. rewrite Qfloor_Z in H.
  pose proof (arredondar_par_piso t). lia.
Qed.

Lemma Qle_bool_false (a b : Q) : Qle_bool a b = false -> (b < a)%Q.
Proof.
  intros H. apply Qnot_le_lt. intros X. apply Qle_bool_iff in X. congruence.
Qed.

Lemma arredondar_par_erro (t : Q) :
  (t - (1 # 2) <= inject_Z (arredondar_par t) <= t + (1 # 2))%Q.
Proof.
  unfold arredondar_par. cbv zeta. unfold Qgt_bool.
  pose proof (Qfloor_le t) as F. pose proof (Qlt_floor t) as G.
  rewrite inject_Z_plus in G. change (inject_Z 1) with 1%Q in G.
  destruct (Qle_bool (t - inject_Z (Qfloor t)) (1 # 2)) eqn:A; cbn [negb].
  - apply Qle_bool_iff in A.
    destruct (Qle_bool (1 # 2) (t - inject_Z (Qfloor t))) eqn:C; cbn [negb].
    + apply Qle_bool_iff in C.
      destruct (Z.even (Qfloor t)); [lra|].
      rewrite inject_Z_plus. change (inject_Z 1) with 1%Q. lra.
    + apply Qle_bool_false in C. lra.
  - apply Qle_bool_false in A.
    rewrite inject_Z_plus. change (inject_Z 1) with 1%Q. lra.
Qed.

Lemma arredondar_par_abaixo (t : Q) (k : Z) :
  (t <= inject_Z k)%Q -> arredondar_par t <= k.
Proof.
  intros H.
  destruct (Z_le_gt_dec (arredondar_par t) k) as [L|G]; [exact L|].
  exfalso.
  pose proof (arredondar_par_erro t) as [_ E].
  assert (K : (inject_Z (k + 1) <= inject_Z (arredondar_par t))%Q)
    by (rewrite <- Zle_Qle; lia).
  rewrite inject_Z_plus in K. change (inject_Z 1) with 1%Q in K.
  assert (X : (inject_Z (arredondar_par t) == t + (1 # 2))%Q
              /\ (t == inject_Z k)%Q) by (split; lra).
  destruct X as [_ T].
  pose proof (Qfloor_comp _ _ T) as Fk. rewrite Qfloor_Z in Fk.
  pose proof (arredondar_par_piso t) as [P1 P2].
  revert G. unfold arredondar_par. cbv zeta. rewrite Fk. unfold Qgt_bool.
  assert (L1 : Qle_bool (t - inject_Z k) (1 # 2) = true)
    by (apply Qle_bool_iff; lra).
  rewrite L1. cbn [negb].
  destruct (Qle_bool (1 # 2) (t - inject_Z k)) eqn:L2.
  - apply Qle_bool_iff in L2. lra.
  - cbn [negb]. lia.
Qed.

Lemma expoente_pequeno (x : Q) :
  (0 < x)%Q -> (x < 128)%Q -> expoente x <= 6.
Proof.
  intros P L. unfold expoente. cbv zeta.
  assert (A : Qabs x = x).
  { destruct x as [n d]. unfold Qlt in P. simpl in P. unfold Qabs.
    now rewrite Z.abs_eq by lia. }
  rewrite A.
  destruct (Qle_bool 1 x) eqn:U.
  - apply Qle_bool_iff in U.
    assert (F : Qfloor x <= 127).
    { assert (Qfloor x < 128); [|lia].
      rewrite Zlt_Qlt. apply Qle_lt_trans with x; [apply Qfloor_le | exact L]. }
    apply Z.log2_le_mono in F. exact F.
  - pose proof (Z.log2_up_nonneg (Qceiling (/ x))). lia.
Qed.

Lemma escala_negativa (m : Z) (p : positive) :
  (escala m (Zneg p) * inject_Z (Zpos (2 ^ p)) == inject_Z m)%Q.
Proof.
  unfold escala, Qeq, Qmult, inject_Z. simpl. lia.
Qed.

(** The score of a product that is within 0 and 100: the integer part of
    the float nearest to it. *)
Lemma score_do_produto (x : Q) :
  (0 <= x)%Q -> (x <= 100)%Q ->
  let s := int_de_float (binary64 x) in
  s = Qfloor (binary64 x)
  /\ 0 <= s <= 100
  /\ (inject_Z s - (1 # 2 ^ 47) <= x)%Q
  /\ (x < inject_Z (s + 1))%Q.
Proof.
  intros P L. cbv zeta. unfold binary64.
  change (2 ^ 47)%positive with 140737488355328%positive.
  destruct (Qeq_bool x 0) eqn:Z0.
  - apply Qeq_bool_iff in Z0.
    change (int_de_float 0) with 0. change (Qfloor 0) with 0.
    change (inject_Z (0 + 1)) with 1%Q. change (inject_Z 0) with 0%Q.
    repeat split; try lia; lra.
  - assert (P' : (0 < x)%Q).
    { apply Qle_lt_or_eq in P as [P | P]; [exact P|].
      symmetry in P. apply Qeq_bool_iff in P. congruence. }
    cbv zeta.
    pose proof (expoente_pequeno x P' ltac:(lra)) as E.
    destruct (Z.max (expoente x - 52) (-1074)) as [|p|p] eqn:M; try lia.
    assert (Hp : 46 <= Zpos p <= 1074) by lia.
    assert (Es : escala 1 (- Z.neg p) = inject_Z (2 ^ Zpos p))
      by (cbn [Z.opp escala]; now rewrite Z.mul_1_l).
    rewrite Es.
    set (t := (x * inject_Z (2 ^ Zpos p))%Q).
    set (m := arredondar_par t).
    assert (T2 : 0 < 2 ^ Zpos p) by (apply Z.pow_pos_nonneg; lia).
    assert (Q2 : (0 < inject_Z (2 ^ Zpos p))%Q)
      by (rewrite <- (Zlt_Qlt 0); exact T2).
    assert (M0 : 0 <= m).
    { apply arredondar_par_acima. unfold t.
      apply Qmult_le_0_compat; lra. }
    assert (M100 : m <= 100 * 2 ^ Zpos p).
    { apply arredondar_par_abaixo. unfold t. rewrite inject_Z_mult.
      apply Qmult_le_compat_r; [exact L | lra]. }
    assert (PP : Zpos (2 ^ p) = 2 ^ Zpos p) by (now rewrite Pos2Z.inj_pow).
    assert (S : int_de_float (escala m (Zneg p)) = m / 2 ^ Zpos p).
    { unfold int_de_float, escala. cbn [Qnum Qden]. rewrite PP.
      apply Z.quot_div_nonneg; lia. }
    assert (Fl : Qfloor (escala m (Zneg p)) = m / 2 ^ Zpos p).
    { unfold Qfloor, escala. now rewrite PP. }
    rewrite S, Fl.
    set (s := m / 2 ^ Zpos p).
    assert (S1 : s * 2 ^ Zpos p <= m < (s + 1) * 2 ^ Zpos p).
    { unfold s. pose proof (Z.div_mod m (2 ^ Zpos p) ltac:(lia)).
      pose proof (Z.mod_pos_bound m (2 ^ Zpos p) T2). nia. }
    split; [reflexivity|]. split.
    + split; [apply Z.div_pos; lia|].
      unfold s. apply Z.div_le_upper_bound; lia.
    + split.
      * (* s * 2^p <= m <= t + 1/2 *)
        pose proof (arredondar_par_erro t) as [_ Er]. fold m in Er.
        assert (A : (inject_Z s * inject_Z (2 ^ Zpos p) <= inject_Z m)%Q)
          by (rewrite <- inject_Z_mult, <- Zle_Qle; lia).
        assert (B : (inject_Z (2 ^ 46) <= inject_Z (2 ^ Zpos p))%Q).
        { rewrite <- Zle_Qle. apply Z.pow_le_mono_r; lia. }
        unfold t in Er.
        set (w := inject_Z (2 ^ Zpos p)) in *.
        assert (W : (70368744177664 <= w)%Q) by exact B.
        assert (C : ((inject_Z s - x) * w <= 1 # 2)%Q) by lra.
        apply Qnot_lt_le. intros D.
        assert (D' : ((1 # 140737488355328) < inject_Z s - x)%Q) by lra.
        assert (X : ((1 # 140737488355328) * w < (inject_Z s - x) * w)%Q)
          by (apply Qmult_lt_compat_r; lra).
        lra.
      * apply Qnot_le_lt. intros D.
        assert (K : (s + 1) * 2 ^ Zpos p <= m).
        { apply arredondar_par_acima. unfold t. rewrite inject_Z_mult.
          apply Qmult_le_compat_r; [exact D | lra]. }
        lia.
Qed.

(** C5, as the code has it.  For a classifier output with probabilities
    [P0] and [P1], [P0] within 0 and 1, the prediction is returned.  Its
    score is the integer part of the float nearest to [P0 * 100]: an
    integer [s] within 0 and 100 with [s - 2^-47 <= P0 * 100 < s + 1], so
    the integer part of [P0 * 100] or one more than it, and the integer
    part itself when [P0 * 100] is a float; the product is cut, not
    rounded to the nearest integer.  Its confidence is the greater of [P0]
    and [P1]. *)
Theorem score_e_confianca {F : Type} (modelo : Modelo F) (features : F)
  (P0 P1 : Q) :
  predict_proba modelo features = [P0; P1] ->
  (0 <= P0)%Q -> (P0 <= 1)%Q ->
  exists p,
    predizer_fraude modelo features = Ok p
    /\ Predicao.score_fraude p = Qfloor (mul_float P0 100)
    /\ 0 <= Predicao.score_fraude p <= 100
    /\ (inject_Z (Predicao.score_fraude p) - (1 # 2 ^ 47) <= P0 * 100)%Q
    /\ (P0 * 100 < inject_Z (Predicao.score_fraude p + 1))%Q
    /\ Qfloor (P0 * 100) <= Predicao.score_fraude p <= Qfloor (P0 * 100) + 1
    /\ ((mul_float P0 100 == P0 * 100)%Q ->
        Predicao.score_fraude p = Qfloor (P0 * 100))
    /\ Predicao.confianca p = (if Qle_bool P1 P0 then P0 else P1)
    /\ (P0 <= Predicao.confianca p)%Q
    /\ (P1 <= Predicao.confianca p)%Q.
Proof.
  intros E H0 H1. unfold predizer_fraude. rewrite E.
  cbn [item_de nth_error bind].
  eexists. split; [reflexivity|].
  cbn [Predicao.score_fraude Predicao.confianca].
  destruct (score_do_produto (P0 * 100)) as (S & B & Lo & Up); [lra | lra |].
  fold (mul_float P0 100) in S, B, Lo, Up.
  set (s := int_de_float (mul_float P0 100)) in *.
  split; [exact S|]. split; [exact B|]. split; [exact Lo|].
  split; [exact Up|]. split.
  - split.
    + assert (X : Qfloor (P0 * 100) < s + 1); [|lia].
      rewrite Zlt_Qlt.
      apply Qle_lt_trans with (P0 * 100)%Q; [apply Qfloor_le | exact Up].
    + assert (X : (inject_Z (s + -1) <= P0 * 100)%Q).
      { rewrite inject_Z_plus. change (inject_Z (-1)) with (-1 # 1)%Q.
        change (2 ^ 47)%positive with 140737488355328%positive in Lo. lra. }
      apply Qfloor_resp_le in X. rewrite Qfloor_Z in X. lia.
  - split; [intros Ex; rewrite S; now apply Qfloor_comp|].
    split; [|apply max2_maior].
    unfold max2, Qgt_bool. now destruct (Qle_bool P1 P0).
Qed.

(** [mul_float] against the floats of Rocq: on the floats [k / 100] and
    [k / 1000] the product by 100 is the float that the machine gives, and
    its integer part the score. *)
Lemma mul_float_confere :
  forallb Binary64.confere_produto (Binary64.fracoes 100) = true
  /\ forallb Binary64.confere_produto (Binary64.fracoes 1000) = true.
Proof. split; vm_compute; reflexivity. Qed.

(** The scores of the examples: 0.05 (the float nearest to it), 0.75 and
    0.6875 give 5, 75 and 68.  The float nearest to 0.35 is below 0.35 and
    its product by 100 below 35, but the float nearest to that product is
    35: the score is 35, where the integer part of the product is 34. *)
Lemma score_binary64_nos_exemplos :
  Binary64.score_binary64 Binary64.p_0_05 = Some 5
  /\ Binary64.score_binary64 Binary64.p_0_75 = Some 75
  /\ Binary64.score_binary64 Binary64.p_0_6875 = Some 68
  /\ Binary64.score_binary64 Binary64.p_0_35 = Some 35
  /\ Binary64.racional Binary64.p_0_35 = Some p_0_35
  /\ int_de_float (mul_float p_0_35 100) = 35
  /\ Qfloor (p_0_35 * 100) = 34.
Proof. repeat split; vm_compute; reflexivity. Qed.

(** The prediction of fraud of the examples is what [predizer_fraude]
    returns on the probabilities 0.75 and 0.25. *)
Lemma predicao_fraude_predita :
  predizer_fraude (modelo_constante unit 0 [3 # 4; 1 # 4]) tt
  = Ok predicao_fraude.
Proof. reflexivity. Qed.

(** ** The reasons *)

Lemma _determinar_gravidade_casos (erro : string) :
  In (_determinar_gravidade erro) ["critica"; "alta"; "media"; "baixa"].
Proof.
  unfold _determinar_gravidade. cbv zeta.
  repeat match goal with
         | |- context [if ?c then _ else _] => destruct c
         end; simpl; tauto.
Qed.

Lemma razao_validacao_no_mapa (erro : string) : no_mapa (razao_validacao erro).
Proof.
  unfold no_mapa, razao_validacao. cbv zeta.
  cbn [Razao.gravidade Razao.impacto Razao.cor].
  destruct (_determinar_gravidade_casos erro) as [<- | [<- | [<- | [<- | []]]]];
    simpl; tauto.
Qed.

(** C7, as the code has it.  Whenever the list of reasons is returned,
    each of its entries either is the entry of a validation error or the
    generic placeholder, and carries the impact and the color of its
    severity under the map critica (95, danger), alta (80, warning),
    media (60, medium), baixa (30, primary); or is one of the three
    entries written with values of their own: the classifier's (alta, 85,
    danger) or (baixa, 15, success), and the high amount's (media, 60,
    warning). *)
Theorem razoes_e_mapa_de_gravidade {F : Type} (dados : Dados)
  (validacao : Resultado) (predicao_ml : Predicao.t F) (razoes : list Razao.t) :
  _gerar_razoes_detalhadas dados validacao predicao_ml = Ok razoes ->
  forall r, In r razoes ->
    ((Razao.categoria r = "validacao_tecnica" \/ Razao.categoria r = "geral")
     /\ no_mapa r
     /\ Razao.impacto r = _calcular_impacto (Razao.gravidade r)
     /\ Razao.cor r = _get_cor_gravidade (Razao.gravidade r))
    \/ entrada_fixa r.
Proof.
  unfold _gerar_razoes_detalhadas, extend, append. cbv zeta. cbn [app].
  destruct (maior (valor dados) 10000) as [elevado|]; [|discriminate].
  cbn [bind]. intros [= <-] r H.
  assert (V : forall x, In x (map razao_validacao (erros validacao)) ->
              (Razao.categoria x = "validacao_tecnica"
               \/ Razao.categoria x = "geral")
              /\ no_mapa x
              /\ Razao.impacto x = _calcular_impacto (Razao.gravidade x)
              /\ Razao.cor x = _get_cor_gravidade (Razao.gravidade x)).
  { intros x Hx. apply in_map_iff in Hx as (erro & <- & _).
    split; [now left|]. split; [apply razao_validacao_no_mapa|].
    split; reflexivity. }
  repeat match type of H with
         | context [if ?c then _ else _] => destruct c
         | context [match ?v with _ => _ end] => destruct v
         end;
    repeat (apply in_app_or in H as [H | H]);
    try (left; now apply V);
    try (destruct H as [<- | []]);
    try (right; unfold entrada_fixa; simpl; tauto);
    try (left; unfold razao_generica, no_mapa; simpl; tauto).
Qed.

(** With an amount and a score of 1 or more, the entry of a suspicious
    pattern is among the reasons: the score is a percentage, an integer
    from 0 to 100, and it is compared with 0.7. *)
Lemma razao_suspeita_com_score_positivo {F : Type} (dados : Dados)
  (validacao : Resultado) (predicao_ml : Predicao.t F) (v : Q) :
  valor dados = PNum v ->
  1 <= Predicao.score_fraude predicao_ml ->
  exists razoes,
    _gerar_razoes_detalhadas dados validacao predicao_ml = Ok razoes
    /\ In (razao_padrao_suspeito (Predicao.score_fraude predicao_ml)) razoes.
Proof.
  intros E H. unfold _gerar_razoes_detalhadas, extend, append. cbv zeta.
  rewrite E. cbn [maior bind app].
  assert (S : score_maior (Predicao.score_fraude predicao_ml) (7 # 10) = true).
  { unfold score_maior, Qgt_bool, Qle_bool. simpl.
    apply negb_true_iff, Z.leb_gt. lia. }
  rewrite S. eexists. split; [reflexivity|].
  destruct (negb (Qle_bool v 10000));
    match goal with
    | |- In _ (if vazia ?l then _ else _) =>
        destruct (vazia l) eqn:Z;
        [destruct (erros validacao) in Z; discriminate Z|]
    end;
    rewrite ?in_app_iff; simpl; tauto.
Qed.

(** ** The scenario of an authentic boleto *)

(** C6, at its input.  The text is parsed, the validation finds no error,
    the classifier says authentic with confidence 0.95 and the risk level
    is BAIXO; but the reasons hold the entry of a suspicious pattern, of
    severity alta: the score is [int(0.05 * 100) = 5], and 5 is greater
    than 0.7. *)
Theorem boleto_autentico_com_razao_alta :
  exists f,
    processar_boleto rt_exemplo modelo_autentico texto_exemplo = Ok f
    /\ validar_boleto_febraban rt_exemplo
         (parse_dados_boleto rt_exemplo texto_exemplo)
       = {| valido := true; erros := [];
            detalhes :=
              [("linha_digitavel", resultado true []);
               ("valor", resultado true []);
               ("vencimento", resultado true []);
               ("cnpj", resultado true []);
               ("banco", resultado true [])] |}
    /\ FraudeAnalise.isFraudulento f = false
    /\ FraudeAnalise.score f = 5
    /\ Recomendacao.nivel_risco
         (Explicacao.recomendacao (FraudeAnalise.explicacao f)) = "BAIXO"
    /\ Explicacao.razoes (FraudeAnalise.explicacao f)
       = [razao_padrao_suspeito 5]
    /\ Razao.gravidade (razao_padrao_suspeito 5) = "alta".
Proof.
  eexists. split; [vm_compute; reflexivity|].
  vm_compute. repeat split.
Qed.

(** With the classifier of the scenario this is so for every text: an
    analysis that completes has the risk level BAIXO and the entry of a
    suspicious pattern among its reasons. *)
Lemma classificador_autentico_razao_alta (rt : Runtime) (texto : string)
  (f : FraudeAnalise.t) :
  processar_boleto rt modelo_autentico texto = Ok f ->
  Recomendacao.nivel_risco
    (Explicacao.recomendacao (FraudeAnalise.explicacao f)) = "BAIXO"
  /\ In (razao_padrao_suspeito 5)
        (Explicacao.razoes (FraudeAnalise.explicacao f)).
Proof.
  unfold processar_boleto. cbv zeta.
  destruct (preparar_features _) as [features|]; [|discriminate]. cbn [bind].
  change (predizer_fraude modelo_autentico features)
    with (Ok {| Predicao.is_fraudulento := false;
                Predicao.classe_predita := 1;
                Predicao.score_fraude := 5;
                Predicao.confianca := 19 # 20;
                Predicao.probabilidades := (1 # 20, 19 # 20);
                Predicao.features_usadas := features |}).
  cbn [bind]. unfold gerar_explicacao_humanizada. cbv zeta.
  set (dados := parse_dados_boleto rt texto).
  set (validacao := validar_boleto_febraban rt dados).
  set (p := Predicao.mk _ _ _ _ _ _).
  destruct (_gerar_razoes_detalhadas dados validacao p) as [razoes|] eqn:E;
    [|discriminate].
  cbn [bind]. intros [= <-]. cbn. split; [reflexivity|].
  destruct (valor dados) as [|s|v|n] eqn:V;
    try (unfold _gerar_razoes_detalhadas in E; cbv zeta in E; rewrite V in E;
         discriminate E).
  destruct (razao_suspeita_com_score_positivo dados validacao p v V)
    as (razoes' & E' & I); [simpl; lia|].
  rewrite E in E'. injection E' as <-. exact I.
Qed.

(** Without a CNPJ before it in the text, the last block of the linha
    digitável is taken for the CNPJ, and fails as one. *)
Lemma cnpj_tirado_da_linha :
  extrair_cnpj
    "00190.00009 01234.567004 00000.000000 1 00000000015000 R$ 150,00"
  = Some "00.000.000/0150-00"
  /\ erros (validar_cnpj rt_exemplo (PStr "00.000.000/0150-00"))
     = [erro_primeiro_dv; erro_segundo_dv].
Proof. split; vm_compute; reflexivity. Qed.

(** ** The amount *)

(** The amounts of the specification's examples, and two that the third
    pattern reads out of other figures. *)
Lemma extrair_valor_exemplos :
  extrair_valor "Valor: R$ 1.234,56" = Some (123456 # 100)
  /\ extrair_valor "sem quantia" = None
  /\ extrair_valor "00190.00009" = Some (19000 # 1)
  /\ extrair_valor "total 1,234,56 e 7,50" = None.
Proof. repeat split; vm_compute; reflexivity. Qed.

(** ** The name of the bank *)

(** C10. When no linha digitável is extracted from the text, the parsed
    record has a null [codigo_banco] and the [banco_nome] ['Banco None']:
    the lookup is made with the null code, and its default is not empty. *)
Theorem banco_nome_sem_linha (rt : Runtime) (texto : string) :
  extrair_linha_digitavel texto = None ->
  codigo_banco (parse_dados_boleto rt texto) = PNone
  /\ banco_nome (parse_dados_boleto rt texto) = PStr "Banco None".
Proof.
  intros H. unfold parse_dados_boleto. cbv zeta. rewrite H.
  cbn [de_str truthy].
  destruct (truthy (de_str (extrair_codigo_barras texto))),
    (truthy (de_float (extrair_valor texto))),
    (truthy (de_str (extrair_vencimento rt texto))),
    (truthy (de_str (extrair_cnpj texto)));
    split; reflexivity.
Qed.

Lemma dict_get_nao_vazio (d : list (string * string)) (chave padrao : string) :
  Forall (fun kv => snd kv <> "") d -> padrao <> "" ->
  dict_get d chave padrao <> "".
Proof.
  intros H P. induction H as [|[k x] d Hx _ IH]; simpl; [assumption|].
  now destruct (k =? chave)%string.
Qed.

Lemma append_nao_vazio (a r : string) (c : ascii) :
  truthy (PStr (a ++ String c r)) = true.
Proof. now destruct a. Qed.

(** An extracted linha digitável is not empty. *)
Lemma linha_extraida_nao_vazia (texto linha : string) :
  extrair_linha_digitavel texto = Some linha -> truthy (PStr linha) = true.
Proof.
  unfold extrair_linha_digitavel. cbv zeta.
  destruct (re_search padrao_linha _) as [gs|].
  - intros [= <-]. apply append_nao_vazio.
  - destruct (re_search (padrao_so_digitos 47) _) as [gs|]; [|discriminate].
    intros [= <-]. apply append_nao_vazio.
Qed.

(** The [banco_nome] of a parsed record is never null. *)
Lemma banco_nome_nunca_nulo (rt : Runtime) (texto : string) :
  exists nome, banco_nome (parse_dados_boleto rt texto) = PStr nome
               /\ nome <> "".
Proof.
  destruct (extrair_linha_digitavel texto) as [linha|] eqn:E.
  - assert (X : dict_get bancos (slice linha 0 3)
                  ("Banco " ++ slice linha 0 3) <> "").
    { apply dict_get_nao_vazio; [|discriminate].
      unfold bancos. repeat constructor; discriminate. }
    exists (dict_get bancos (slice linha 0 3) ("Banco " ++ slice linha 0 3)).
    split; [|exact X].
    unfold parse_dados_boleto. cbv zeta. rewrite E. cbn [de_str].
    rewrite (linha_extraida_nao_vazia texto linha E).
    destruct (truthy (de_str (extrair_codigo_barras texto))),
      (truthy (de_float (extrair_valor texto))),
      (truthy (de_str (extrair_vencimento rt texto))),
      (truthy (de_str (extrair_cnpj texto)));
      cbn [codigo_banco com_codigo_banco com_linha_digitavel com_codigo_barras
           com_valor com_vencimento com_beneficiario_cnpj dados_vazios
           identificar_banco formatar];
      (replace (truthy (PStr (dict_get bancos (slice linha 0 3)
                                ("Banco " ++ slice linha 0 3))))
         with true
         by (symmetry; unfold truthy; now destruct (String.eqb_spec
               (dict_get bancos (slice linha 0 3) ("Banco " ++ slice linha 0 3))
               "")));
      reflexivity.
  - exists "Banco None". split; [|discriminate].
    unfold parse_dados_boleto. cbv zeta. rewrite E. cbn [de_str truthy].
    destruct (truthy (de_str (extrair_codigo_barras texto))),
      (truthy (de_float (extrair_valor texto))),
      (truthy (de_str (extrair_vencimento rt texto))),
      (truthy (de_str (extrair_cnpj texto)));
      reflexivity.
Qed.

(** ** The matcher on digits *)

Lemma casar_vezes_S (n : nat) (r : regex) (k : Estado -> option Estado) (e : Estado) :
  casar (vezes (S n) r) k e = casar r (casar (vezes n r) k) e.
Proof. destruct n; reflexivity. Qed.

Lemma casar_seq (r1 r2 : regex) (k : Estado -> option Estado) (e : Estado) :
  casar (Seq r1 r2) k e = casar r1 (casar r2 k) e.
Proof. reflexivity. Qed.

Lemma casar_classe (p : ascii -> bool) (k : Estado -> option Estado)
  (e e' : Estado) :
  casar (Classe p) k e = Some e' ->
  exists c s,
    adiante e = String c s /\ p c = true
    /\ k {| anterior := Some c; adiante := s; grupos := grupos e |} = Some e'.
Proof.
  simpl. destruct (adiante e) as [|c s]; [discriminate|].
  destruct (p c) eqn:P; [|discriminate]. intros H. now exists c, s.
Qed.

Lemma casar_vezes_digito (n : nat) (k : Estado -> option Estado) :
  forall e e',
    casar (vezes n digito) k e = Some e' ->
    exists w e1,
      adiante e = w ++ adiante e1 /\ digitos_n n w
      /\ grupos e1 = grupos e /\ k e1 = Some e'.
Proof.
  induction n as [|n IH]; intros e e' H.
  - exists "", e. repeat split. exact H.
  - rewrite casar_vezes_S in H.
    apply casar_classe in H as (c & s & A & P & H).
    apply IH in H as (w & e1 & A1 & [L D] & G & K). cbn in A1, G.
    exists (String c w), e1. repeat split.
    + rewrite A, A1. reflexivity.
    + simpl. now rewrite L.
    + simpl. now rewrite P, D.
    + exact G.
    + exact K.
Qed.

Lemma casar_grupo_digitos (n : nat) (k : Estado -> option Estado)
  (e e' : Estado) :
  casar (Grupo (vezes n digito)) k e = Some e' ->
  exists w e1,
    digitos_n n w /\ grupos e1 = (grupos e ++ [w])%list /\ k e1 = Some e'.
Proof.
  intros H. cbn [casar] in H.
  apply casar_vezes_digito in H as (w & e1 & A & D & G & K).
  exists w. eexists. split; [exact D|]. split; [|exact K].
  cbn [grupos]. unfold append. rewrite G, A, length_append.
  replace (String.length w + String.length (adiante e1)
           - String.length (adiante e1))%nat with (String.length w) by lia.
  now rewrite take_append.
Qed.

Lemma casar_opc_classe (p : ascii -> bool) (k : Estado -> option Estado)
  (e e' : Estado) :
  casar (Opc (Classe p)) k e = Some e' ->
  exists e1, grupos e1 = grupos e /\ k e1 = Some e'.
Proof.
  intros H. cbn [casar] in H.
  destruct (adiante e) as [|c s].
  - now exists e.
  - destruct (p c).
    + destruct (k _) as [x|] eqn:K.
      * injection H as <-. eexists. split; [|exact K]. reflexivity.
      * now exists e.
    + now exists e.
Qed.

Lemma casar_fronteira (k : Estado -> option Estado) (e e' : Estado) :
  casar Fronteira k e = Some e' -> k e = Some e'.
Proof. cbn [casar]. now destruct (xorb _ _). Qed.

Lemma procurar_casar (r : regex) (s : string) :
  forall antes e,
    procurar r antes s = Some e ->
    exists antes' s',
      casar r Some {| anterior := antes'; adiante := s'; grupos := [] |} = Some e.
Proof.
  induction s as [|c s IH]; intros antes e H; simpl in H.
  - destruct (casar r Some _) eqn:C; [|discriminate].
    injection H as <-. eauto.
  - destruct (casar r Some _) eqn:C.
    + injection H as <-. eauto.
    + eauto.
Qed.

Ltac passo_do_padrao H :=
  first
    [ apply casar_grupo_digitos in H as (? & ? & ? & ? & H)
    | apply casar_opc_classe in H as (? & ? & H)
    | apply casar_fronteira in H ].

Lemma re_search_padrao_linha (texto : string) (gs : list string) :
  re_search padrao_linha texto = Some gs ->
  exists g1 g2 g3 g4 g5 g6 g7 g8,
    gs = [g1; g2; g3; g4; g5; g6; g7; g8]
    /\ digitos_n 5 g1 /\ digitos_n 5 g2 /\ digitos_n 5 g3 /\ digitos_n 6 g4
    /\ digitos_n 5 g5 /\ digitos_n 6 g6 /\ digitos_n 1 g7 /\ digitos_n 14 g8.
Proof.
  unfold re_search. destruct (procurar _ _ _) as [e|] eqn:P; [|discriminate].
  intros [= <-]. apply procurar_casar in P as (a & s & H).
  unfold padrao_linha in H. cbn [sequencia] in H.
  change (Grupo digito) with (Grupo (vezes 1 digito)) in H.
  repeat (rewrite casar_seq in H; passo_do_padrao H).
  passo_do_padrao H. injection H as <-.
  repeat match goal with
         | G : grupos ?x = grupos ?y |- _ => rewrite G in *; clear G
         | G : grupos _ = (_ ++ _)%list |- _ => rewrite G in *; clear G
         end.
  cbn [grupos app].
  do 8 eexists. split; [reflexivity|]. repeat split; 
    match goal with D : digitos_n _ _ |- _ => first [exact (proj1 D) | exact (proj2 D)] end.
Qed.

Lemma re_search_so_digitos (n : nat) (texto : string) (gs : list string) :
  re_search (padrao_so_digitos n) texto = Some gs ->
  exists d, gs = [d] /\ digitos_n n d.
Proof.
  unfold re_search. destruct (procurar _ _ _) as [e|] eqn:P; [|discriminate].
  intros [= <-]. apply procurar_casar in P as (a & s & H).
  unfold padrao_so_digitos in H. cbn [sequencia] in H.
  rewrite casar_seq in H. apply casar_fronteira in H.
  rewrite casar_seq in H.
  apply casar_grupo_digitos in H as (w & e1 & D & G & H).
  apply casar_fronteira in H. injection H as <-.
  exists w. now rewrite G.
Qed.

Lemma filter_str_append (p : ascii -> bool) (a b : string) :
  filter_str p (a ++ b) = filter_str p a ++ filter_str p b.
Proof.
  induction a as [|c a IH]; simpl; [reflexivity|].
  destruct (p c); simpl; now rewrite IH.
Qed.

Lemma append_assoc (a b c : string) : (a ++ b) ++ c = a ++ b ++ c.
Proof. induction a as [|x a IH]; simpl; [reflexivity | now rewrite IH]. Qed.

Lemma replace_append (a : ascii) (b x y : string) :
  replace a b (x ++ y) = replace a b x ++ replace a b y.
Proof.
  induction x as [|c x IH]; simpl; [reflexivity|].
  destruct (Ascii.eqb c a); simpl; rewrite IH; [now rewrite append_assoc | reflexivity].
Qed.

Lemma replace_ausente (p : ascii -> bool) (a : ascii) (b s : string) :
  p a = false -> forall_str p s = true -> replace a b s = s.
Proof.
  intros A. induction s as [|c s IH]; simpl; [reflexivity|].
  intros H. apply andb_true_iff in H as [Hc Hs].
  destruct (Ascii.eqb_spec c a) as [->|_]; [congruence|]. now rewrite IH.
Qed.

Lemma take_append_menor (n : nat) (a b : string) :
  (n <= String.length a)%nat -> take n (a ++ b) = take n a.
Proof.
  revert a. induction n as [|n IH]; intros [|c a] H; simpl in *;
    try reflexivity; [lia|]. rewrite IH by lia. reflexivity.
Qed.

Lemma slice_inicio (a b : string) (j : nat) :
  String.length a = j -> slice (a ++ b) 0 j = a.
Proof. intros <-. unfold slice. rewrite Nat.sub_0_r. simpl. apply take_append. Qed.

Lemma slice_pular (a b : string) (n i j : nat) :
  String.length a = n -> slice (a ++ b) (n + i) (n + j) = slice b i j.
Proof.
  intros <-. unfold slice.
  replace (String.length a + j - (String.length a + i))%nat with (j - i)%nat by lia.
  f_equal. induction a as [|c a IH]; simpl; [reflexivity | exact IH].
Qed.

Lemma slice_tudo (a : string) (j : nat) :
  String.length a = j -> slice a 0 j = a.
Proof. intros <-. unfold slice. rewrite Nat.sub_0_r. simpl. apply take_all. lia. Qed.

(** The eight groups of a line, with their separators, and the 47 digits
    they are. *)
Lemma grupos_da_linha (g1 g2 g3 g4 g5 g6 g7 g8 : string) :
  digitos_n 5 g1 -> digitos_n 5 g2 -> digitos_n 5 g3 -> digitos_n 6 g4 ->
  digitos_n 5 g5 -> digitos_n 6 g6 -> digitos_n 1 g7 -> digitos_n 14 g8 ->
  let d := g1 ++ g2 ++ g3 ++ g4 ++ g5 ++ g6 ++ g7 ++ g8 in
  digitos_n 47 d
  /\ g1 ++ "." ++ g2 ++ " " ++ g3 ++ "." ++ g4 ++ " " ++ g5 ++ "." ++ g6
     ++ " " ++ g7 ++ " " ++ g8 = formatar_linha d.
Proof.
  intros [L1 D1] [L2 D2] [L3 D3] [L4 D4] [L5 D5] [L6 D6] [L7 D7] [L8 D8] d.
  split.
  - split.
    + unfold d. rewrite !length_append. lia.
    + unfold d. rewrite !forall_str_append, D1, D2, D3, D4, D5, D6, D7, D8.
      reflexivity.
  - unfold formatar_linha, d.
    rewrite (slice_inicio g1 _ 5 L1).
    rewrite (slice_pular g1 _ 5 0 5 L1), (slice_inicio g2 _ 5 L2).
    rewrite (slice_pular g1 _ 5 5 10 L1), (slice_pular g2 _ 5 0 5 L2),
      (slice_inicio g3 _ 5 L3).
    rewrite (slice_pular g1 _ 5 10 16 L1), (slice_pular g2 _ 5 5 11 L2),
      (slice_pular g3 _ 5 0 6 L3), (slice_inicio g4 _ 6 L4).
    rewrite (slice_pular g1 _ 5 16 21 L1), (slice_pular g2 _ 5 11 16 L2),
      (slice_pular g3 _ 5 6 11 L3), (slice_pular g4 _ 6 0 5 L4),
      (slice_inicio g5 _ 5 L5).
    rewrite (slice_pular g1 _ 5 21 27 L1), (slice_pular g2 _ 5 16 22 L2),
      (slice_pular g3 _ 5 11 17 L3), (slice_pular g4 _ 6 5 11 L4),
      (slice_pular g5 _ 5 0 6 L5), (slice_inicio g6 _ 6 L6).
    rewrite (slice_pular g1 _ 5 27 28 L1), (slice_pular g2 _ 5 22 23 L2),
      (slice_pular g3 _ 5 17 18 L3), (slice_pular g4 _ 6 11 12 L4),
      (slice_pular g5 _ 5 6 7 L5), (slice_pular g6 _ 6 0 1 L6),
      (slice_inicio g7 _ 1 L7).
    rewrite (slice_pular g1 _ 5 28 42 L1), (slice_pular g2 _ 5 23 37 L2),
      (slice_pular g3 _ 5 18 32 L3), (slice_pular g4 _ 6 12 26 L4),
      (slice_pular g5 _ 5 7 21 L5), (slice_pular g6 _ 6 1 15 L6),
      (slice_pular g7 _ 1 0 14 L7), (slice_tudo g8 14 L8).
    reflexivity.
Qed.

Lemma drop_drop (a b : nat) (s : string) : drop a (drop b s) = drop (b + a) s.
Proof.
  revert s. induction b as [|b IH]; intros s; [reflexivity|].
  destruct s as [|c s]; [now destruct a | apply IH].
Qed.

Lemma take_mais (a b : nat) (s : string) :
  take a s ++ take b (drop a s) = take (a + b) s.
Proof.
  revert s. induction a as [|a IH]; intros s; [reflexivity|].
  destruct s as [|c s]; [now destruct b|]. simpl. now rewrite IH.
Qed.

Lemma slice_juntar (s : string) (i j k : nat) :
  (i <= j)%nat -> (j <= k)%nat -> slice s i j ++ slice s j k = slice s i k.
Proof.
  intros Hi Hj. unfold slice.
  replace (drop j s) with (drop (j - i) (drop i s))
    by (rewrite drop_drop; f_equal; lia).
  rewrite take_mais. f_equal. lia.
Qed.

(** The groups of a string of 47 digits. *)
Lemma linha_em_grupos (d : string) :
  digitos_n 47 d ->
  exists g1 g2 g3 g4 g5 g6 g7 g8,
    digitos_n 5 g1 /\ digitos_n 5 g2 /\ digitos_n 5 g3 /\ digitos_n 6 g4
    /\ digitos_n 5 g5 /\ digitos_n 6 g6 /\ digitos_n 1 g7 /\ digitos_n 14 g8
    /\ d = g1 ++ g2 ++ g3 ++ g4 ++ g5 ++ g6 ++ g7 ++ g8
    /\ formatar_linha d
       = g1 ++ "." ++ g2 ++ " " ++ g3 ++ "." ++ g4 ++ " " ++ g5 ++ "." ++ g6
         ++ " " ++ g7 ++ " " ++ g8.
Proof.
  intros [L D].
  assert (S : forall i j, (i <= j)%nat -> (j <= 47)%nat ->
                          digitos_n (j - i) (slice d i j)).
  { intros i j Hi Hj. split; [apply length_slice; lia | now apply forall_str_slice]. }
  exists (slice d 0 5), (slice d 5 10), (slice d 10 15), (slice d 15 21),
    (slice d 21 26), (slice d 26 32), (slice d 32 33), (slice d 33 47).
  repeat (split; [refine (S _ _ _ _); lia|]).
  split; [|reflexivity].
  pose proof (fun i j k => slice_juntar d i j k) as J.
  rewrite (J 32 33 47)%nat, (J 26 32 47)%nat, (J 21 26 47)%nat,
    (J 15 21 47)%nat, (J 10 15 47)%nat, (J 5 10 47)%nat, (J 0 5 47)%nat by lia.
  symmetry. apply slice_tudo. exact L.
Qed.

Lemma formatar_linha_digitos (d : string) :
  digitos_n 47 d ->
  filter_str is_digit (formatar_linha d) = d
  /\ replace " " "" (replace "." "" (formatar_linha d)) = d
  /\ slice (formatar_linha d) 0 3 = slice d 0 3.
Proof.
  intros D.
  destruct (linha_em_grupos d D)
    as (g1 & g2 & g3 & g4 & g5 & g6 & g7 & g8 & [L1 D1] & [L2 D2] & [L3 D3]
        & [L4 D4] & [L5 D5] & [L6 D6] & [L7 D7] & [L8 D8] & E & F).
  rewrite F, E. repeat split.
  - rewrite !filter_str_append.
    rewrite (filter_str_id _ g1 D1), (filter_str_id _ g2 D2),
      (filter_str_id _ g3 D3), (filter_str_id _ g4 D4),
      (filter_str_id _ g5 D5), (filter_str_id _ g6 D6),
      (filter_str_id _ g7 D7), (filter_str_id _ g8 D8).
    reflexivity.
  - rewrite !replace_append.
    pose proof (fun g => replace_ausente is_digit "." "" g eq_refl) as P.
    rewrite (P g1 D1), (P g2 D2), (P g3 D3), (P g4 D4), (P g5 D5), (P g6 D6),
      (P g7 D7), (P g8 D8).
    change (replace "." "" ".") with "". change (replace "." "" " ") with " ".
    pose proof (fun g => replace_ausente is_digit " " "" g eq_refl) as Q.
    rewrite (Q g1 D1), (Q g2 D2), (Q g3 D3), (Q g4 D4), (Q g5 D5), (Q g6 D6),
      (Q g7 D7), (Q g8 D8).
    reflexivity.
  - unfold slice. cbn [Nat.sub drop].
    rewrite !take_append_menor by lia. reflexivity.
Qed.

(** ** What the extractors return *)

Lemma linha_extraida (texto linha : string) :
  extrair_linha_digitavel texto = Some linha ->
  exists d, digitos_n 47 d /\ linha = formatar_linha d.
Proof.
  unfold extrair_linha_digitavel. cbv zeta.
  destruct (re_search padrao_linha _) as [gs|] eqn:R.
  - apply re_search_padrao_linha in R
      as (g1 & g2 & g3 & g4 & g5 & g6 & g7 & g8 & -> & D1 & D2 & D3 & D4 & D5
          & D6 & D7 & D8).
    intros [= <-]. cbn [grupo nth].
    destruct (grupos_da_linha g1 g2 g3 g4 g5 g6 g7 g8 D1 D2 D3 D4 D5 D6 D7 D8)
      as [D E].
    eexists. split; [exact D | exact E].
  - destruct (re_search (padrao_so_digitos 47) _) as [gs|] eqn:S; [|discriminate].
    apply re_search_so_digitos in S as (d & -> & D).
    intros [= <-]. exists d. split; [exact D | reflexivity].
Qed.

Lemma barras_extraido (texto codigo : string) :
  extrair_codigo_barras texto = Some codigo -> digitos_n 44 codigo.
Proof.
  unfold extrair_codigo_barras.
  destruct (re_search (padrao_so_digitos 44) texto) as [gs|] eqn:S; [|discriminate].
  apply re_search_so_digitos in S as (d & -> & D). now intros [= <-].
Qed.

Lemma primeiro_que_Some {A B : Type} (f : A -> option B) (l : list A) (y : B) :
  primeiro_que f l = Some y -> exists x, In x l /\ f x = Some y.
Proof.
  induction l as [|x l IH]; simpl; [discriminate|].
  destruct (f x) as [z|] eqn:E.
  - intros [= <-]. eauto.
  - intros H. destruct (IH H) as (x' & I & F). eauto.
Qed.

Lemma cnpj_extraido (texto cnpj : string) :
  extrair_cnpj texto = Some cnpj ->
  exists d, digitos_n 14 d /\ cnpj = formatar_cnpj d.
Proof.
  unfold extrair_cnpj. intros H.
  apply primeiro_que_Some in H as (p & _ & H).
  destruct (re_search p texto) as [gs|]; [|discriminate].
  destruct (String.length (filter_str is_digit (grupo gs 0)) =? 14)%nat eqn:L;
    [|discriminate].
  injection H as <-. exists (filter_str is_digit (grupo gs 0)).
  split; [|reflexivity].
  split; [now apply Nat.eqb_eq | apply forall_str_filter].
Qed.

Lemma formatar_cnpj_digitos (d : string) :
  digitos_n 14 d -> filter_str is_digit (formatar_cnpj d) = d.
Proof.
  intros [L D]. unfold formatar_cnpj.
  rewrite !filter_str_append.
  rewrite !(filter_str_id is_digit (slice d _ _)) by now apply forall_str_slice.
  change (filter_str is_digit ".") with "".
  change (filter_str is_digit "/") with "".
  change (filter_str is_digit "-") with "".
  cbn [String.append].
  rewrite (slice_juntar d 8 12 14), (slice_juntar d 5 8 14),
    (slice_juntar d 2 5 14), (slice_juntar d 0 2 14) by lia.
  now apply slice_tudo.
Qed.

(** X1. Whatever the text, a linha digitável that
    [extrair_linha_digitavel] returns has 47 digits and is the layout of
    them, [AAAAA.AAAAA BBBBB.BBBBBB CCCCC.CCCCCC D EEEEEEEEEEEEEE], of 54
    characters. *)
Theorem extrair_linha_digitavel_formato (texto linha : string) :
  extrair_linha_digitavel texto = Some linha ->
  let digitos := filter_str is_digit linha in
  String.length digitos = 47%nat
  /\ linha = formatar_linha digitos
  /\ String.length linha = 54%nat.
Proof.
  intros H. destruct (linha_extraida texto linha H) as (d & D & ->).
  destruct (formatar_linha_digitos d D) as (F & _ & _). cbv zeta. rewrite F.
  split; [exact (proj1 D)|]. split; [reflexivity|].
  destruct D as [L D]. unfold formatar_linha.
  rewrite !length_append, !length_slice by lia. reflexivity.
Qed.

(** X2. Whatever the text, a CNPJ that [extrair_cnpj] returns has 14 digits
    and is the layout of them, [XX.XXX.XXX/XXXX-XX], of 18 characters; and
    a código de barras that [extrair_codigo_barras] returns is 44
    digits. *)
Theorem extrair_cnpj_e_barras_formato (texto : string) :
  (forall cnpj, extrair_cnpj texto = Some cnpj ->
     String.length (filter_str is_digit cnpj) = 14%nat
     /\ cnpj = formatar_cnpj (filter_str is_digit cnpj)
     /\ String.length cnpj = 18%nat)
  /\ (forall codigo, extrair_codigo_barras texto = Some codigo ->
        String.length codigo = 44%nat /\ forall_str is_digit codigo = true).
Proof.
  split.
  - intros cnpj H. destruct (cnpj_extraido texto cnpj H) as (d & D & ->).
    rewrite (formatar_cnpj_digitos d D).
    split; [exact (proj1 D)|]. split; [reflexivity|].
    destruct D as [L D]. unfold formatar_cnpj.
    rewrite !length_append, !length_slice by lia. reflexivity.
  - intros codigo H. exact (barras_extraido texto codigo H).
Qed.

(** ** [int] of a string of digits *)

Lemma digito_nao_espaco (c : ascii) : is_digit c = true -> is_space c = false.
Proof.
  intros H. apply is_digit_cases in H. simpl in H.
  repeat (destruct H as [<- | H]; [reflexivity|]). contradiction.
Qed.

Lemma digito_nao_sinal (c : ascii) :
  is_digit c = true ->
  Ascii.eqb c "-" = false /\ Ascii.eqb c "+" = false /\ Ascii.eqb c "_" = false.
Proof.
  intros H. apply is_digit_cases in H. simpl in H.
  repeat (destruct H as [<- | H]; [repeat split|]). contradiction.
Qed.

Lemma strip_esquerda_digitos (s : string) :
  forall_str is_digit s = true -> strip_esquerda s = s.
Proof.
  destruct s as [|c s]; [reflexivity|]. simpl. intros H.
  apply andb_true_iff in H as [Hc _]. now rewrite (digito_nao_espaco c Hc).
Qed.

Lemma forall_str_of_list (p : ascii -> bool) (l : list ascii) :
  Forall (fun c => p c = true) l -> forall_str p (string_of_list_ascii l) = true.
Proof. induction 1 as [|c l Hc _ IH]; simpl; [reflexivity | now rewrite Hc]. Qed.

Lemma forall_str_inverter (p : ascii -> bool) (s : string) :
  forall_str p s = true -> forall_str p (inverter s) = true.
Proof.
  intros H. unfold inverter. apply forall_str_of_list.
  apply Forall_rev. now apply forall_str_Forall.
Qed.

Lemma inverter_inverter (s : string) : inverter (inverter s) = s.
Proof.
  unfold inverter.
  now rewrite list_ascii_of_string_of_list_ascii, rev_involutive,
    string_of_list_ascii_of_string.
Qed.

Lemma strip_digitos (s : string) : forall_str is_digit s = true -> strip s = s.
Proof.
  intros H. unfold strip. rewrite (strip_esquerda_digitos s H).
  rewrite (strip_esquerda_digitos _ (forall_str_inverter _ _ H)).
  apply inverter_inverter.
Qed.

Lemma digitos_agrupados_digitos (s : string) :
  forall_str is_digit s = true -> s <> "" -> digitos_agrupados s = true.
Proof.
  induction s as [|c s IH]; [congruence|]. intros H _.
  simpl in H. apply andb_true_iff in H as [Hc Hs].
  cbn [digitos_agrupados]. rewrite Hc. cbn [andb].
  destruct s as [|d s]; [reflexivity|].
  assert (Hd : is_digit d = true)
    by (simpl in Hs; now apply andb_true_iff in Hs as [Hd _]).
  destruct (digito_nao_sinal d Hd) as (_ & _ & ->).
  apply IH; [exact Hs | discriminate].
Qed.

(** [int] of decimal digits is their value. *)
Lemma int_str_digitos (s : string) :
  forall_str is_digit s = true -> s <> "" -> int_str s = Ok (int_digitos s).
Proof.
  intros H N. unfold int_str. rewrite (strip_digitos s H).
  destruct s as [|c s]; [congruence|].
  assert (Hc : is_digit c = true)
    by (simpl in H; now apply andb_true_iff in H as [Hc _]).
  destruct (digito_nao_sinal c Hc) as (-> & -> & _).
  rewrite (digitos_agrupados_digitos _ H N), (filter_str_id _ _ H).
  now rewrite Z.mul_1_l.
Qed.

Lemma digitos_n_nao_vazio (n : nat) (w : string) :
  digitos_n (S n) w -> w <> "".
Proof. intros [L _] ->. discriminate L. Qed.

Lemma int_digitos_limite (s : string) :
  forall_str is_digit s = true ->
  0 <= int_digitos s < 10 ^ Z.of_nat (String.length s).
Proof.
  unfold int_digitos.
  assert (G : forall l a,
             Forall (fun c => is_digit c = true) l -> 0 <= a ->
             let r := fold_left
                        (fun n c => 10 * n + (Z.of_nat (nat_of_ascii c) - 48)) l a in
             a * 10 ^ Z.of_nat (List.length l) <= r
             < (a + 1) * 10 ^ Z.of_nat (List.length l)).
  { induction l as [|c l IH]; intros a F A; cbn [fold_left List.length].
    - cbv zeta. change (10 ^ Z.of_nat 0) with 1. lia.
    - inversion F as [|? ? Hc Hl]; subst.
      destruct (int_char_digit c Hc) as (x & E & B & _).
      unfold int_char in E. rewrite Hc in E. injection E as E.
      rewrite E. specialize (IH (10 * a + x) Hl ltac:(lia)). cbv zeta in IH.
      cbv zeta. rewrite Nat2Z.inj_succ, Z.pow_succ_r by lia.
      set (P := 10 ^ Z.of_nat (List.length l)) in *.
      assert (0 < P) by (apply Z.pow_pos_nonneg; lia).
      nia. }
  intros H. specialize (G _ 0 (forall_str_Forall _ _ H) ltac:(lia)).
  cbv zeta in G.
  assert (L : List.length (list_ascii_of_string s) = String.length s).
  { clear. induction s; simpl; congruence. }
  rewrite L in G. lia.
Qed.

Lemma parse_campos (rt : Runtime) (texto : string) :
  let d := parse_dados_boleto rt texto in
  linha_digitavel d = de_str (extrair_linha_digitavel texto)
  /\ codigo_banco d
     = match extrair_linha_digitavel texto with
       | Some linha => PStr (slice linha 0 3)
       | None => PNone
       end
  /\ codigo_barras d = campo (de_str (extrair_codigo_barras texto))
  /\ valor d = campo (de_float (extrair_valor texto))
  /\ vencimento d = campo (de_str (extrair_vencimento rt texto))
  /\ beneficiario_cnpj d = campo (de_str (extrair_cnpj texto))
  /\ beneficiario_nome d = PNone
  /\ agencia d = PNone.
Proof.
  unfold parse_dados_boleto, campo. cbv zeta.
  destruct (extrair_linha_digitavel texto) as [linha|] eqn:E; cbn [de_str].
  - rewrite (linha_extraida_nao_vazia texto linha E).
    destruct (truthy (de_str (extrair_codigo_barras texto))),
      (truthy (de_float (extrair_valor texto))),
      (truthy (de_str (extrair_vencimento rt texto))),
      (truthy (de_str (extrair_cnpj texto)));
      cbn [codigo_banco com_codigo_banco com_linha_digitavel com_codigo_barras
           com_valor com_vencimento com_beneficiario_cnpj dados_vazios
           identificar_banco formatar];
      match goal with
      | |- context [if truthy ?v then _ else _] => destruct (truthy v)
      end; repeat split.
  - cbn [truthy].
    destruct (truthy (de_str (extrair_codigo_barras texto))),
      (truthy (de_float (extrair_valor texto))),
      (truthy (de_str (extrair_vencimento rt texto))),
      (truthy (de_str (extrair_cnpj texto))); repeat split.
Qed.

Ltac forma_por_calculo :=
  cbv beta iota delta [sem_erro_de_forma conferir_dv append extend erro_dv
                       resultado erros];
  repeat match goal with
         | |- context [if ?c then _ else _] => destruct c
         end;
  cbn [app]; repeat constructor.

Lemma forma_achados (r : Resultado) :
  sem_erro_de_forma (erros r) -> sem_erro_de_forma (achados r).
Proof. unfold achados. destruct (valido r); [constructor | trivial]. Qed.

Lemma forma_linha (rt : Runtime) (d : string) :
  digitos_n 47 d ->
  sem_erro_de_forma (erros (validar_linha_digitavel rt (PStr (formatar_linha d)))).
Proof.
  intros D. destruct (formatar_linha_digitos d D) as (F & _ & _).
  destruct (validar_linha_digitavel_47 (formatar_linha d))
    as (i1 & c1 & i2 & c2 & i3 & c3 & _ & _ & _ & _ & _ & _ & R).
  { rewrite F. exact (proj1 D). }
  cbv zeta in R. unfold validar_linha_digitavel. rewrite R.
  forma_por_calculo.
Qed.

(** The check of a code of 44 digits returns, with the error of its check
    digit or none. *)
Lemma validar_codigo_barras_44 (codigo : string) :
  digitos_n 44 (filter_str is_digit codigo) ->
  exists es,
    validar_codigo_barras_try (PStr codigo) = Ok (resultado (vazia es) es)
    /\ sem_erro_de_forma es.
Proof.
  intros [L D]. set (d := filter_str is_digit codigo) in *.
  destruct (index_some d 4) as [x I]; [lia|].
  destruct (calcular_dv_modulo11_digito (slice d 0 4 ++ slice d 5 44))
    as (c & C & _).
  { rewrite forall_str_append, !forall_str_slice by exact D. reflexivity. }
  unfold validar_codigo_barras_try.
  cbv beta iota zeta delta [re_sub_nao_digitos bind].
  change (filter_str is_digit codigo) with d. rewrite L.
  cbv beta iota delta [Nat.eqb negb]. rewrite I, C.
  eexists. split; [reflexivity|]. forma_por_calculo.
Qed.

Lemma forma_barras (rt : Runtime) (codigo : string) :
  digitos_n 44 codigo ->
  sem_erro_de_forma (erros (validar_codigo_barras rt (PStr codigo))).
Proof.
  intros D. destruct (validar_codigo_barras_44 codigo) as (es & R & F).
  { now rewrite (filter_str_id _ _ (proj2 D)). }
  unfold validar_codigo_barras. now rewrite R.
Qed.

Lemma forma_cnpj (rt : Runtime) (d : string) :
  digitos_n 14 d ->
  sem_erro_de_forma (erros (validar_cnpj rt (PStr (formatar_cnpj d)))).
Proof.
  intros D. pose proof (formatar_cnpj_digitos d D) as F. destruct D as [L D].
  destruct (index_some d 0) as [c0 I0]; [lia|].
  destruct (soma_ponderada_total d peso1 12 D) as [s1 S1]; [lia | simpl; lia |].
  destruct (soma_ponderada_total d peso2 13 D) as [s2 S2]; [lia | simpl; lia |].
  destruct (int_at_digito d 12 D) as (x12 & X12 & _); [lia|].
  destruct (int_at_digito d 13 D) as (x13 & X13 & _); [lia|].
  unfold validar_cnpj, validar_cnpj_try.
  cbv beta iota zeta delta [re_sub_nao_digitos bind].
  rewrite F, L. cbv beta iota delta [Nat.eqb negb]. rewrite I0.
  destruct (d =? repeat_str (String c0 EmptyString) 14)%string.
  - forma_por_calculo.
  - rewrite S1, X12, S2, X13. cbv beta iota zeta delta [bind].
    forma_por_calculo.
Qed.

Lemma forma_vencimento (rt : Runtime) (v : pyval) :
  sem_erro_de_forma (erros (validar_vencimento rt v)).
Proof.
  unfold validar_vencimento.
  destruct (validar_vencimento_try rt v) as [r|e] eqn:E;
    [|repeat constructor].
  revert r E. change (sempre (fun r => sem_erro_de_forma (erros r))
                        (validar_vencimento_try rt v)).
  unfold validar_vencimento_try. cbv zeta. passo_a_passo; forma_por_calculo.
Qed.

Lemma forma_banco (rt : Runtime) (v : pyval) :
  sempre (fun r => sem_erro_de_forma (erros r)) (validar_codigo_banco rt v).
Proof.
  unfold validar_codigo_banco. cbv zeta. passo_a_passo; forma_por_calculo.
Qed.

Lemma forma_valor (q : Q) :
  Qle_bool q 0 = false ->
  sempre (fun r => sem_erro_de_forma (erros r)) (validar_valor (PNum q)).
Proof.
  intros H. unfold validar_valor. cbv zeta. cbn [menor_igual maior bind].
  rewrite H. apply sempre_Ok. forma_por_calculo.
Qed.

Lemma um_de_ponto (c : ascii) : um_de "." c = Ascii.eqb c ".".
Proof. unfold um_de. simpl. now rewrite orb_false_r. Qed.

Lemma antes_de_digitos (s : string) :
  forall_str digito_ou_ponto s = true ->
  forall_str is_digit (antes_de "." s) = true.
Proof.
  induction s as [|c s IH]; simpl; [reflexivity|]. intros H.
  apply andb_true_iff in H as [Hc Hs].
  destruct (Ascii.eqb c ".") eqn:E; [reflexivity|].
  unfold digito_ou_ponto in Hc. rewrite um_de_ponto, E, orb_false_r in Hc.
  simpl. now rewrite Hc, IH.
Qed.

Lemma sem_ponto_digitos (s : string) :
  forall_str digito_ou_ponto s = true -> contar "." s = 0%nat ->
  forall_str is_digit s = true.
Proof.
  induction s as [|c s IH]; simpl; [reflexivity|]. intros H C.
  apply andb_true_iff in H as [Hc Hs].
  destruct (Ascii.eqb c ".") eqn:E; [discriminate|].
  unfold digito_ou_ponto in Hc. rewrite um_de_ponto, E, orb_false_r in Hc.
  now rewrite Hc, IH.
Qed.

Lemma depois_de_digitos (s : string) :
  forall_str digito_ou_ponto s = true -> (contar "." s <= 1)%nat ->
  forall_str is_digit (depois_de "." s) = true.
Proof.
  induction s as [|c s IH]; simpl; [reflexivity|]. intros H C.
  apply andb_true_iff in H as [Hc Hs].
  destruct (Ascii.eqb c ".") eqn:E.
  - apply sem_ponto_digitos; [exact Hs | lia].
  - now apply IH.
Qed.

Lemma float_de_str_nao_negativo (s : string) (v : Q) :
  float_de_str s = Ok v -> (0 <= v)%Q.
Proof.
  unfold float_de_str.
  destruct (forall_str _ s) eqn:F; [|discriminate].
  destruct (negb _); [|discriminate].
  destruct (contar "." s <=? 1)%nat eqn:C; [|discriminate].
  cbn [andb]. intros [= <-]. apply Nat.leb_le in C.
  assert (D : forall_str is_digit (antes_de "." s ++ depois_de "." s) = true).
  { rewrite forall_str_append, (antes_de_digitos s F), (depois_de_digitos s F C).
    reflexivity. }
  pose proof (int_digitos_limite _ D) as [B _].
  assert (P : 0 < 10 ^ Z.of_nat (String.length (depois_de "." s)))
    by (apply Z.pow_pos_nonneg; lia).
  unfold Qle, Qdiv, Qmult, Qinv, inject_Z. simpl.
  destruct (10 ^ Z.of_nat (String.length (depois_de "." s))) eqn:X;
    try lia. simpl. lia.
Qed.

Lemma extrair_valor_nao_negativo (texto : string) (v : Q) :
  extrair_valor texto = Some v -> (0 <= v)%Q.
Proof.
  unfold extrair_valor. intros H.
  apply primeiro_que_Some in H as (p & _ & H).
  destruct (re_search p texto) as [gs|]; [|discriminate].
  destruct (float_de_str _) as [x|] eqn:E; [|discriminate].
  injection H as <-. exact (float_de_str_nao_negativo _ _ E).
Qed.

(** The amount of a parsed record is [None] or a positive number. *)
Lemma valor_do_parser (rt : Runtime) (texto : string) :
  valor (parse_dados_boleto rt texto) = PNone
  \/ exists q, valor (parse_dados_boleto rt texto) = PNum q
               /\ Qle_bool q 0 = false /\ extrair_valor texto = Some q.
Proof.
  destruct (parse_campos rt texto) as (_ & _ & _ & V & _). rewrite V.
  unfold campo. destruct (extrair_valor texto) as [q|] eqn:E; cbn [de_float truthy];
    [|now left].
  destruct (Qeq_bool q 0) eqn:Z; cbn [negb]; [now left|].
  right. exists q. split; [reflexivity|]. split; [|reflexivity].
  pose proof (extrair_valor_nao_negativo texto q E) as P.
  destruct (Qle_bool q 0) eqn:L; [|reflexivity].
  apply Qle_bool_iff in L.
  assert (q == 0)%Q by (apply Qle_antisym; assumption).
  apply Qeq_bool_iff in H. congruence.
Qed.

Lemma parser_bem_tipado (rt : Runtime) (texto : string) :
  bem_tipado (parse_dados_boleto rt texto) = true.
Proof.
  unfold bem_tipado.
  destruct (parse_campos rt texto) as (_ & B & _ & V & _). rewrite B, V.
  unfold campo.
  destruct (extrair_valor texto); cbn [de_float];
    [destruct (truthy _)|];
    destruct (extrair_linha_digitavel texto); reflexivity.
Qed.

(** X3. On the record that [parse_dados_boleto] gives, for every text, no
    field validator raises, so the handler of [validar_boleto_febraban] is
    not entered; and no error of the validation is one of those about the
    form of a field: the three counts of digits, an amount that is not
    positive, the message of a handler. *)
Theorem validacao_do_parser_sem_erro_de_forma (rt : Runtime) (texto : string) :
  let dados := parse_dados_boleto rt texto in
  validar_boleto_febraban_try rt dados = Ok (validar_boleto_febraban rt dados)
  /\ forall e, In e (erros (validar_boleto_febraban rt dados)) ->
               erro_de_forma e = false.
Proof.
  intros dados.
  destruct (boleto_bem_tipado rt dados (parser_bem_tipado rt texto)) as [r R].
  assert (E : validar_boleto_febraban rt dados = r)
    by (unfold validar_boleto_febraban; now rewrite R).
  rewrite E. split; [exact R|].
  apply Forall_forall. change (sem_erro_de_forma (erros r)).
  destruct (boleto_decomposto rt dados r R) as (rv & rb & V & B & -> & _).
  destruct (parse_campos rt texto) as (Li & _ & Ba & _ & _ & Cn & _).
  fold dados in Li, Ba, Cn.
  unfold sem_erro_de_forma. rewrite !Forall_app. repeat split.
  - unfold contribuicao. rewrite Li.
    destruct (extrair_linha_digitavel texto) as [linha|] eqn:X; cbn [de_str truthy].
    + destruct (linha_extraida texto linha X) as (d & D & ->).
      destruct (negb _); [|repeat constructor].
      apply forma_achados. now apply forma_linha.
    + repeat constructor.
  - unfold contribuicao. rewrite Ba. unfold campo.
    destruct (extrair_codigo_barras texto) as [c|] eqn:X; cbn [de_str truthy];
      [|constructor].
    destruct (negb _); cbn [truthy]; [|constructor].
    destruct (negb _); [|constructor].
    apply forma_achados. apply forma_barras. now apply (barras_extraido texto).
  - unfold contribuicao.
    destruct (valor_do_parser rt texto) as [N | (q & N & P & _)];
      fold dados in N.
    + rewrite N. cbn [truthy]. repeat constructor.
    + destruct (truthy (valor dados)) eqn:T; [|repeat constructor].
      apply forma_achados. specialize (V eq_refl). rewrite N in V.
      exact (forma_valor q P rv V).
  - unfold contribuicao.
    destruct (truthy (vencimento dados)); [|repeat constructor].
    apply forma_achados, forma_vencimento.
  - unfold contribuicao. rewrite Cn. unfold campo.
    destruct (extrair_cnpj texto) as [c|] eqn:X; cbn [de_str truthy];
      [|constructor].
    destruct (cnpj_extraido texto c X) as (d & D & ->).
    destruct (negb _); cbn [truthy]; [|constructor].
    destruct (negb _); [|constructor].
    apply forma_achados. now apply forma_cnpj.
  - unfold contribuicao.
    destruct (truthy (codigo_banco dados)) eqn:T; [|repeat constructor].
    apply forma_achados. exact (forma_banco rt _ rb (B eq_refl)).
Qed.

Lemma int_str_slice (d : string) (i j : nat) :
  forall_str is_digit d = true -> (i < j)%nat -> (j <= String.length d)%nat ->
  int_str (slice d i j) = Ok (int_digitos (slice d i j))
  /\ 0 <= int_digitos (slice d i j) < 10 ^ Z.of_nat (j - i).
Proof.
  intros D Hi Hj.
  assert (Ds : forall_str is_digit (slice d i j) = true)
    by now apply forall_str_slice.
  assert (Ls : String.length (slice d i j) = (j - i)%nat)
    by now apply length_slice.
  split.
  - apply int_str_digitos; [exact Ds|]. intros E. rewrite E in Ls. simpl in Ls. lia.
  - rewrite <- Ls. now apply int_digitos_limite.
Qed.

(** X4. On every text [preparar_features] returns on the record that
    [parse_dados_boleto] gives.  The features [banco], [codigoBanco] and
    [linha_codBanco] are one number, the first three digits of the linha
    digitável; [agencia] is 0, no extractor filling it; the numbers read
    off the line are within their count of digits, and they are 0 when
    there is no line; the amount is not negative. *)
Theorem features_do_parser (rt : Runtime) (texto : string) :
  exists f,
    preparar_features (parse_dados_boleto rt texto) = Ok f
    /\ Features.banco f = Features.codigoBanco f
    /\ Features.codigoBanco f = Features.linha_codBanco f
    /\ Features.agencia f = 0
    /\ 0 <= Features.linha_codBanco f <= 999
    /\ 0 <= Features.linha_moeda f <= 9
    /\ 0 <= Features.linha_valor f <= 9999999999
    /\ (0 <= Features.valor f)%Q
    /\ (extrair_linha_digitavel texto = None ->
        Features.linha_codBanco f = 0 /\ Features.linha_moeda f = 0
        /\ Features.linha_valor f = 0).
Proof.
  destruct (parse_campos rt texto) as (Li & Bc & _ & _ & _ & _ & _ & Ag).
  set (dados := parse_dados_boleto rt texto) in *.
  assert (V : exists q, match valor dados with
                        | PNone => Ok 0%Q
                        | v => float_de v
                        end = Ok q /\ (0 <= q)%Q).
  { destruct (valor_do_parser rt texto) as [N | (q & N & P & X)];
      fold dados in N; rewrite N.
    - exists 0%Q. split; [reflexivity | discriminate].
    - exists q. split; [reflexivity|].
      exact (extrair_valor_nao_negativo texto q X). }
  destruct V as (q & V & Pq).
  unfold preparar_features. rewrite Li, Bc, Ag, V.
  destruct (extrair_linha_digitavel texto) as [linha|] eqn:X.
  - destruct (linha_extraida texto linha X) as (d & D & ->).
    destruct (formatar_linha_digitos d D) as (_ & Rp & Sl).
    cbn [de_str]. rewrite (linha_extraida_nao_vazia texto _ X).
    cbv beta iota zeta delta [bind]. rewrite Rp, Sl.
    destruct D as [L D]. rewrite L.
    cbv beta iota delta [Nat.leb].
    destruct (int_str_slice d 0 3 D) as [I1 B1]; [lia | lia |].
    destruct (int_str_slice d 37 47 D) as [I3 B3]; [lia | lia |].
    destruct (int_str_slice d 3 4 D) as [I2 B2]; [lia | lia |].
    destruct (index_some d 3) as [c I]; [lia|].
    assert (S34 : slice d 3 4 = String c EmptyString).
    { generalize (index_slice d 3 4 0 ltac:(lia)). rewrite Nat.add_0_r, I.
      unfold index. destruct (String.get 0 (slice d 3 4)) eqn:G; [|discriminate].
      intros [= ->].
      assert (Ls : String.length (slice d 3 4) = 1%nat)
        by (rewrite length_slice; lia).
      destruct (slice d 3 4) as [|x [|y s]]; try discriminate Ls.
      simpl in G. now injection G as ->. }
    rewrite S34 in I2, B2.
    rewrite I1, I, I2, I3. cbn [int_de]. rewrite I1.
    cbv beta iota zeta delta [bind].
    eexists. split; [reflexivity|].
    cbn [Features.banco Features.codigoBanco Features.linha_codBanco
         Features.agencia Features.linha_moeda Features.linha_valor
         Features.valor].
    change (10 ^ Z.of_nat (3 - 0)) with 1000 in B1.
    change (10 ^ Z.of_nat (4 - 3)) with 10 in B2.
    change (10 ^ Z.of_nat (47 - 37)) with 10000000000 in B3.
    do 3 (split; [reflexivity|]). do 3 (split; [lia|]).
    split; [exact Pq | intros [=]].
  - cbn [de_str truthy]. cbv beta iota zeta delta [bind replace String.length Nat.leb].
    eexists. split; [reflexivity|].
    cbn [Features.banco Features.codigoBanco Features.linha_codBanco
         Features.agencia Features.linha_moeda Features.linha_valor
         Features.valor].
    do 3 (split; [reflexivity|]). do 3 (split; [lia|]).
    split; [exact Pq | intros _; repeat split].
Qed.

(** ** The job *)

Lemma preparar_features_retorna (rt : Runtime) (texto : string) :
  exists f, preparar_features (parse_dados_boleto rt texto) = Ok f.
Proof.
  destruct (parse_campos rt texto) as (Li & Bc & _ & _ & _ & _ & _ & Ag).
  set (dados := parse_dados_boleto rt texto) in *.
  assert (V : exists q, match valor dados with
                        | PNone => Ok 0%Q
                        | v => float_de v
                        end = Ok q).
  { destruct (valor_do_parser rt texto) as [N | (q & N & _)];
      fold dados in N; rewrite N; eexists; reflexivity. }
  destruct V as (q & V).
  unfold preparar_features. rewrite Li, Bc, Ag, V.
  destruct (extrair_linha_digitavel texto) as [linha|] eqn:X.
  - destruct (linha_extraida texto linha X) as (d & D & ->).
    destruct (formatar_linha_digitos d D) as (_ & Rp & Sl).
    cbn [de_str]. rewrite (linha_extraida_nao_vazia texto _ X).
    cbv beta iota zeta delta [bind]. rewrite Rp, Sl.
    destruct D as [L D]. rewrite L.
    cbv beta iota delta [Nat.leb].
    destruct (int_str_slice d 0 3 D) as [I1 _]; [lia | lia |].
    destruct (int_str_slice d 37 47 D) as [I3 _]; [lia | lia |].
    destruct (index_some d 3) as [c I]; [lia|].
    assert (I2 : int_str (String c EmptyString)
                 = Ok (int_digitos (String c EmptyString))).
    { apply int_str_digitos; [|discriminate].
      cbn [forall_str]. rewrite andb_true_r.
      apply (forall_str_get is_digit 3 d c D).
      unfold index in I. now destruct (String.get 3 d); inversion I. }
    rewrite I1, I, I2, I3. cbn [int_de]. rewrite I1.
    cbv beta iota zeta delta [bind].
    eexists. reflexivity.
  - cbn [de_str truthy]. cbv beta iota zeta delta [bind replace String.length Nat.leb].
    eexists. reflexivity.
Qed.

Lemma predizer_fraude_retorna {F : Type} (modelo : Modelo F) (features : F) :
  (2 <= List.length (predict_proba modelo features))%nat ->
  exists p, predizer_fraude modelo features = Ok p.
Proof.
  intros H. unfold predizer_fraude. cbv zeta.
  destruct (predict_proba modelo features) as [|a [|b l]]; simpl in H; try lia.
  eexists. reflexivity.
Qed.

Lemma gerar_explicacao_com_valor {F : Type} (rt : Runtime) (dados : Dados)
  (validacao : Resultado) (p : Predicao.t F) :
  match valor dados with
  | PNum _ => exists x, gerar_explicacao_humanizada rt dados validacao p = Ok x
  | v => gerar_explicacao_humanizada rt dados validacao p
         = Raise (TypeError ">" v)
  end.
Proof.
  unfold gerar_explicacao_humanizada, _gerar_razoes_detalhadas. cbv zeta.
  destruct (Predicao.is_fraudulento p);
    destruct (valor dados); cbn [maior bind]; try reflexivity;
    eexists; reflexivity.
Qed.

(** X5. With a classifier that gives two probabilities, the job completes
    exactly on the texts from which [extrair_valor] reads an amount that is
    not zero.  On every other text it fails with a TypeError: the
    explanation compares the amount of the record, [None], with 10000. *)
Theorem processar_boleto_exige_valor (rt : Runtime)
  (modelo : Modelo Features.t) (texto : string) :
  (forall f, (2 <= List.length (predict_proba modelo f))%nat) ->
  match extrair_valor texto with
  | Some q =>
      if Qeq_bool q 0
      then processar_boleto rt modelo texto = Raise (TypeError ">" PNone)
      else exists f, processar_boleto rt modelo texto = Ok f
  | None => processar_boleto rt modelo texto = Raise (TypeError ">" PNone)
  end.
Proof.
  intros M. unfold processar_boleto. cbv zeta.
  destruct (preparar_features_retorna rt texto) as [f ->]. cbn [bind].
  destruct (predizer_fraude_retorna modelo f (M f)) as [p ->]. cbn [bind].
  pose proof (gerar_explicacao_com_valor rt (parse_dados_boleto rt texto)
                (validar_boleto_febraban rt (parse_dados_boleto rt texto)) p) as G.
  destruct (parse_campos rt texto) as (_ & _ & _ & V & _).
  rewrite V in G. unfold campo in G.
  destruct (extrair_valor texto) as [q|]; cbn [de_float truthy] in G.
  - destruct (Qeq_bool q 0); cbn [negb] in G.
    + now rewrite G.
    + destruct G as [x ->]. cbn [bind]. eexists. reflexivity.
  - now rewrite G.
Qed.

Lemma valido_sem_erros (rt : Runtime) (dados : Dados) (r : Resultado) :
  validar_boleto_febraban_try rt dados = Ok r -> valido r = vazia (erros r).
Proof.
  unfold validar_boleto_febraban_try. cbv zeta.
  destruct (if truthy (valor dados) then _ else _) as [ac|]; [|discriminate].
  cbn [bind].
  destruct (if truthy (codigo_banco dados) then _ else _) as [[es ds]|];
    [|discriminate].
  cbn [bind]. now intros [= <-].
Qed.

(** X6. A job that completes on a text from which no linha digitável is
    read, or no vencimento, gives the verdict of fraud, by the validation
    alone and whatever the classifier says: the error of each field that
    is missing is one of the reasons. *)
Theorem sem_linha_ou_vencimento_e_fraude (rt : Runtime)
  (modelo : Modelo Features.t) (texto : string) (f : FraudeAnalise.t) :
  processar_boleto rt modelo texto = Ok f ->
  extrair_linha_digitavel texto = None \/ extrair_vencimento rt texto = None ->
  FraudeAnalise.isFraudulento f = true
  /\ In "validacao_febraban" (FraudeAnalise.metodos f)
  /\ (extrair_linha_digitavel texto = None ->
      In linha_nao_encontrada (FraudeAnalise.motivos f))
  /\ (extrair_vencimento rt texto = None ->
      In vencimento_nao_encontrado (FraudeAnalise.motivos f)).
Proof.
  intros P H.
  destruct (processar_boleto_veredito rt modelo texto f P) as (p & x & ->).
  set (dados := parse_dados_boleto rt texto).
  destruct (boleto_bem_tipado rt dados (parser_bem_tipado rt texto)) as [r R].
  assert (E : validar_boleto_febraban rt dados = r)
    by (unfold validar_boleto_febraban; now rewrite R).
  rewrite E.
  destruct (boleto_decomposto rt dados r R) as (rv & rb & _ & _ & Er & _).
  destruct (parse_campos rt texto) as (Li & _ & _ & _ & Ve & _).
  fold dados in Li, Ve.
  assert (ML : extrair_linha_digitavel texto = None ->
               In linha_nao_encontrada (erros r)).
  { intros N. rewrite Er, in_app_iff. left. unfold contribuicao.
    rewrite Li, N. now left. }
  assert (MV : extrair_vencimento rt texto = None ->
               In vencimento_nao_encontrado (erros r)).
  { intros N. rewrite Er, !in_app_iff. do 3 right. left. unfold contribuicao.
    rewrite Ve, N. now left. }
  assert (V : valido r = false).
  { rewrite (valido_sem_erros rt dados r R).
    destruct H as [N | N]; [apply ML in N | apply MV in N];
      now destruct (erros r). }
  unfold fraude_analise, append. cbv zeta.
  cbn [FraudeAnalise.isFraudulento FraudeAnalise.metodos FraudeAnalise.motivos].
  rewrite V. cbn [negb orb app]. split; [reflexivity|]. split.
  - destruct (Predicao.is_fraudulento p); now left.
  - split; assumption.
Qed.

(** ** A digit that is changed *)

Lemma soma_posicional_app (termo : nat -> Z -> Z) (xs ys : list Z) :
  forall i,
    soma_posicional termo i (xs ++ ys)
    = soma_posicional termo i xs
      + soma_posicional termo (i + List.length xs) ys.
Proof.
  induction xs as [|x xs IH]; intros i; simpl.
  - now rewrite Nat.add_0_r.
  - rewrite IH, Nat.add_succ_r. simpl. lia.
Qed.

Lemma list_ascii_append (a b : string) :
  list_ascii_of_string (a ++ b)
  = (list_ascii_of_string a ++ list_ascii_of_string b)%list.
Proof. induction a as [|c a IH]; simpl; [reflexivity | now rewrite IH]. Qed.

(** The sum over a sequence, around one of its digits: what the digits
    after it give, its own term, and what the digits before it give. *)
Lemma soma_em_torno (termo : nat -> Z -> Z) (a b : string) (c : ascii) :
  soma_posicional termo 0 (valores_da_direita (a ++ String c b))
  = soma_posicional termo 0 (valores_da_direita b)
    + termo (String.length b) (Z.of_nat (nat_of_ascii c) - 48)
    + soma_posicional termo (S (String.length b)) (valores_da_direita a).
Proof.
  unfold valores_da_direita. rewrite list_ascii_append. cbn [list_ascii_of_string].
  rewrite rev_app_distr. cbn [rev]. rewrite <- app_assoc, !map_app.
  rewrite !soma_posicional_app. cbn [map soma_posicional List.length app].
  rewrite !length_map, !length_rev.
  assert (L : List.length (list_ascii_of_string b) = String.length b)
    by (clear; induction b; simpl; congruence).
  rewrite L, Nat.add_0_l, Nat.add_1_r. lia.
Qed.

Lemma valor_do_digito (c : ascii) :
  is_digit c = true -> 0 <= Z.of_nat (nat_of_ascii c) - 48 <= 9.
Proof.
  intros H. destruct (int_char_digit c H) as (d & E & B & _).
  rewrite (int_char_valor c H) in E. injection E as ->. exact B.
Qed.

Lemma valor_do_digito_inj (c c' : ascii) :
  Z.of_nat (nat_of_ascii c) - 48 = Z.of_nat (nat_of_ascii c') - 48 -> c = c'.
Proof.
  intros H. assert (E : nat_of_ascii c = nat_of_ascii c') by lia.
  rewrite <- (ascii_nat_embedding c), <- (ascii_nat_embedding c'). now rewrite E.
Qed.

Ltac por_casos x :=
  match goal with
  | B : ?lo <= x <= ?hi |- _ =>
      let C := fresh "C" in
      assert (C : x = 0 \/ x = 1 \/ x = 2 \/ x = 3 \/ x = 4 \/ x = 5 \/ x = 6
                  \/ x = 7 \/ x = 8 \/ x = 9) by lia;
      clear B;
      repeat (destruct C as [C | C]; [subst x|]); [..|subst x]
  end.

(** The term of a digit under modulo 10 is again a digit, and two digits
    have two terms. *)
Lemma termo10_digito (i : nat) (d : Z) :
  0 <= d <= 9 -> 0 <= termo10 i d <= 9.
Proof.
  intros B. unfold termo10, multiplicador10. cbv zeta.
  destruct (Nat.even i); por_casos d; vm_compute; split; discriminate.
Qed.

Lemma termo10_inj (i : nat) (d d' : Z) :
  0 <= d <= 9 -> 0 <= d' <= 9 -> termo10 i d = termo10 i d' -> d = d'.
Proof.
  intros B B'. unfold termo10, multiplicador10. cbv zeta.
  destruct (Nat.even i); por_casos d; por_casos d'; vm_compute;
    intros E; first [reflexivity | discriminate E].
Qed.

Lemma str_digito_inj (d d' : Z) :
  0 <= d <= 9 -> 0 <= d' <= 9 -> str d = str d' -> d = d'.
Proof.
  intros B B'. por_casos d; por_casos d'; vm_compute;
    intros E; first [reflexivity | discriminate E].
Qed.

Lemma mod_soma_distinta (n A t t' : Z) :
  0 < n -> 0 <= t < n -> 0 <= t' < n -> t <> t' ->
  (A + t) mod n <> (A + t') mod n.
Proof.
  intros N B B' D E.
  assert (Z : ((A + t) - (A + t')) mod n = 0).
  { rewrite Zminus_mod, E, Z.sub_diag. now apply Z.mod_0_l; lia. }
  apply Z.mod_divide in Z; [|lia]. destruct Z as [k K].
  assert (T : t - t' = k * n) by lia.
  destruct (Z.lt_trichotomy k 0) as [L | [L | L]]; nia.
Qed.

(** [calcular_dv_modulo10] tells any two sequences of digits apart that
    differ in one digit. *)
Lemma dv_modulo10_troca (a b : string) (c c' : ascii) :
  forall_str is_digit a = true -> forall_str is_digit b = true ->
  is_digit c = true -> is_digit c' = true -> c <> c' ->
  exists dv dv',
    calcular_dv_modulo10 (a ++ String c b) = Ok dv
    /\ calcular_dv_modulo10 (a ++ String c' b) = Ok dv'
    /\ dv <> dv'.
Proof.
  intros Da Db Dc Dc' N.
  assert (D : forall x, is_digit x = true ->
                        forall_str is_digit (a ++ String x b) = true).
  { intros x Dx. rewrite forall_str_append. simpl. now rewrite Da, Dx, Db. }
  rewrite (calcular_dv_modulo10_spec _ (D c Dc)),
    (calcular_dv_modulo10_spec _ (D c' Dc')).
  do 2 eexists. split; [reflexivity|]. split; [reflexivity|].
  unfold dv_modulo10_spec. cbv zeta. rewrite !soma_em_torno.
  set (A := soma_posicional termo10 0 (valores_da_direita b)).
  set (B := soma_posicional termo10 (S (String.length b)) (valores_da_direita a)).
  set (t := termo10 (String.length b) (Z.of_nat (nat_of_ascii c) - 48)).
  set (t' := termo10 (String.length b) (Z.of_nat (nat_of_ascii c') - 48)).
  assert (Bt : 0 <= t <= 9) by (apply termo10_digito; now apply valor_do_digito).
  assert (Bt' : 0 <= t' <= 9) by (apply termo10_digito; now apply valor_do_digito).
  assert (Nt : t <> t').
  { intros E. apply N, valor_do_digito_inj.
    apply (termo10_inj (String.length b)); try now apply valor_do_digito.
    exact E. }
  assert (M : (A + t + B) mod 10 <> (A + t' + B) mod 10).
  { replace (A + t + B) with ((A + B) + t) by lia.
    replace (A + t' + B) with ((A + B) + t') by lia.
    apply mod_soma_distinta; lia. }
  assert (R : 0 <= (A + t + B) mod 10 < 10) by (apply Z.mod_pos_bound; lia).
  assert (R' : 0 <= (A + t' + B) mod 10 < 10) by (apply Z.mod_pos_bound; lia).
  intros E. apply str_digito_inj in E.
  - destruct (Z.eqb_spec ((A + t + B) mod 10) 0),
      (Z.eqb_spec ((A + t' + B) mod 10) 0); lia.
  - destruct (Z.eqb_spec ((A + t + B) mod 10) 0); lia.
  - destruct (Z.eqb_spec ((A + t' + B) mod 10) 0); lia.
Qed.

Lemma multiplicador11_limites (i : nat) : 2 <= multiplicador11 i <= 9.
Proof.
  unfold multiplicador11.
  assert (i mod 8 < 8)%nat by (apply Nat.mod_upper_bound; lia). lia.
Qed.

Lemma produto_nao_multiplo_de_11 (x m : Z) :
  -9 <= x <= 9 -> x <> 0 -> 2 <= m <= 9 -> (x * m) mod 11 <> 0.
Proof.
  intros Bx Nx Bm E. apply Z.mod_divide in E; [|lia]. destruct E as [k K].
  assert (Cm : m = 2 \/ m = 3 \/ m = 4 \/ m = 5 \/ m = 6 \/ m = 7 \/ m = 8
               \/ m = 9) by lia.
  repeat (destruct Cm as [-> | Cm]; [lia|]). subst m. lia.
Qed.

(** Under modulo 11 the sums of two sequences that differ in one digit
    differ, and their check digits differ unless both are ["1"], the
    digit that stands for the rests 0 and 1. *)
Lemma dv_modulo11_troca (a b : string) (c c' : ascii) :
  forall_str is_digit a = true -> forall_str is_digit b = true ->
  is_digit c = true -> is_digit c' = true -> c <> c' ->
  exists dv dv',
    calcular_dv_modulo11 (a ++ String c b) = Ok dv
    /\ calcular_dv_modulo11 (a ++ String c' b) = Ok dv'
    /\ (dv = dv' -> dv = "1").
Proof.
  intros Da Db Dc Dc' N.
  assert (D : forall x, is_digit x = true ->
                        forall_str is_digit (a ++ String x b) = true).
  { intros x Dx. rewrite forall_str_append. simpl. now rewrite Da, Dx, Db. }
  rewrite (calcular_dv_modulo11_spec _ (D c Dc)),
    (calcular_dv_modulo11_spec _ (D c' Dc')).
  do 2 eexists. split; [reflexivity|]. split; [reflexivity|].
  unfold dv_modulo11_spec. cbv zeta. rewrite !soma_em_torno.
  set (A := soma_posicional termo11 0 (valores_da_direita b)).
  set (B := soma_posicional termo11 (S (String.length b)) (valores_da_direita a)).
  unfold termo11.
  set (m := multiplicador11 (String.length b)).
  set (x := Z.of_nat (nat_of_ascii c) - 48).
  set (x' := Z.of_nat (nat_of_ascii c') - 48).
  assert (Bx : 0 <= x <= 9) by now apply valor_do_digito.
  assert (Bx' : 0 <= x' <= 9) by now apply valor_do_digito.
  assert (Nx : x <> x') by (intros E; now apply N, valor_do_digito_inj).
  assert (Bm : 2 <= m <= 9) by apply multiplicador11_limites.
  assert (M : (A + x * m + B) mod 11 <> (A + x' * m + B) mod 11).
  { intros E.
    apply (produto_nao_multiplo_de_11 (x - x') m); try lia.
    replace ((x - x') * m) with ((A + x * m + B) - (A + x' * m + B)) by lia.
    rewrite Zminus_mod, E, Z.sub_diag. now apply Z.mod_0_l. }
  assert (R : 0 <= (A + x * m + B) mod 11 < 11) by (apply Z.mod_pos_bound; lia).
  assert (R' : 0 <= (A + x' * m + B) mod 11 < 11) by (apply Z.mod_pos_bound; lia).
  set (r := (A + x * m + B) mod 11) in *.
  set (r' := (A + x' * m + B) mod 11) in *.
  assert (G : forall s, 0 <= s < 11 ->
                1 <= (if (11 - s =? 0) || (11 - s =? 10) || (11 - s =? 11)
                      then 1 else 11 - s) <= 9
                /\ ((if (11 - s =? 0) || (11 - s =? 10) || (11 - s =? 11)
                     then 1 else 11 - s) = 1 \/
                    (if (11 - s =? 0) || (11 - s =? 10) || (11 - s =? 11)
                     then 1 else 11 - s) = 11 - s)).
  { intros s Bs.
    destruct (Z.eqb_spec (11 - s) 0), (Z.eqb_spec (11 - s) 10),
      (Z.eqb_spec (11 - s) 11); cbn [orb]; lia. }
  destruct (G r R) as [B1 C1], (G r' R') as [B2 C2].
  intros E. apply str_digito_inj in E; try lia.
  destruct C1 as [C1 | C1]; [now rewrite C1|].
  destruct C2 as [C2 | C2]; [rewrite E, C2; reflexivity|]. lia.
Qed.

Lemma trocar_decompor (i : nat) (c x : ascii) (s : string) :
  String.get i s = Some x ->
  s = take i s ++ String x (drop (S i) s)
  /\ trocar i c s = take i s ++ String c (drop (S i) s).
Proof.
  revert s. induction i as [|i IH]; intros [|y s] G; simpl in G; try discriminate.
  - injection G as ->. now split.
  - destruct (IH s G) as [E1 E2].
    split; cbn [take drop trocar String.append]; f_equal; assumption.
Qed.

Lemma length_trocar (i : nat) (c : ascii) (s : string) :
  String.length (trocar i c s) = String.length s.
Proof.
  revert i. induction s as [|x s IH]; intros [|i]; simpl; try reflexivity.
  now rewrite IH.
Qed.

Lemma forall_str_trocar (p : ascii -> bool) (i : nat) (c : ascii) (s : string) :
  p c = true -> forall_str p s = true -> forall_str p (trocar i c s) = true.
Proof.
  intros Pc. revert i. induction s as [|x s IH]; intros [|i] H; simpl in *;
    try reflexivity; apply andb_true_iff in H as [Hx Hs].
  - now rewrite Pc, Hs.
  - now rewrite Hx, IH.
Qed.

Lemma get_trocar_outro (i j : nat) (c : ascii) (s : string) :
  i <> j -> String.get j (trocar i c s) = String.get j s.
Proof.
  revert i j. induction s as [|x s IH]; intros [|i] [|j] N; simpl;
    try reflexivity; try congruence.
  apply IH. congruence.
Qed.

Lemma get_trocar_mesmo (i : nat) (c : ascii) (s : string) :
  (i < String.length s)%nat -> String.get i (trocar i c s) = Some c.
Proof.
  revert i. induction s as [|x s IH]; intros [|i] L; simpl in *; try lia;
    [reflexivity | apply IH; lia].
Qed.

Lemma take_trocar_fora (n i : nat) (c : ascii) (s : string) :
  (n <= i)%nat -> take n (trocar i c s) = take n s.
Proof.
  revert n i. induction s as [|x s IH]; intros [|n] [|i] L; simpl;
    try reflexivity; try lia.
  rewrite IH by lia. reflexivity.
Qed.

Lemma take_trocar_dentro (n i : nat) (c : ascii) (s : string) :
  (i < n)%nat -> take n (trocar i c s) = trocar i c (take n s).
Proof.
  revert n i. induction s as [|x s IH]; intros [|n] [|i] L; simpl;
    try reflexivity; try lia.
  rewrite IH by lia. reflexivity.
Qed.

Lemma drop_trocar_antes (n i : nat) (c : ascii) (s : string) :
  (i < n)%nat -> drop n (trocar i c s) = drop n s.
Proof.
  revert n i. induction s as [|x s IH]; intros [|n] [|i] L; simpl;
    try reflexivity; try lia.
  apply IH. lia.
Qed.

Lemma drop_trocar_depois (n i : nat) (c : ascii) (s : string) :
  (n <= i)%nat -> drop n (trocar i c s) = trocar (i - n) c (drop n s).
Proof.
  revert n i. induction s as [|x s IH]; intros [|n] [|i] L; simpl;
    try reflexivity; try lia.
  apply IH. lia.
Qed.

Lemma slice_trocar_fora (i a b : nat) (c : ascii) (s : string) :
  (i < a \/ b <= i)%nat -> slice (trocar i c s) a b = slice s a b.
Proof.
  intros [L | L]; unfold slice.
  - now rewrite drop_trocar_antes.
  - destruct (Nat.le_gt_cases a i) as [A | A].
    + rewrite drop_trocar_depois by exact A. apply take_trocar_fora. lia.
    + now rewrite drop_trocar_antes.
Qed.

Lemma slice_trocar_dentro (i a b : nat) (c : ascii) (s : string) :
  (a <= i < b)%nat -> slice (trocar i c s) a b = trocar (i - a) c (slice s a b).
Proof.
  intros [A B]. unfold slice. rewrite drop_trocar_depois by exact A.
  apply take_trocar_dentro. lia.
Qed.

(** The check digit of a sequence with one digit changed is another. *)
Lemma dv_modulo10_trocar (i : nat) (c x : ascii) (s : string) :
  forall_str is_digit s = true -> is_digit c = true ->
  String.get i s = Some x -> x <> c ->
  calcular_dv_modulo10 (trocar i c s) <> calcular_dv_modulo10 s.
Proof.
  intros D Dc G N.
  destruct (trocar_decompor i c x s G) as [E1 E2].
  assert (Dx : is_digit x = true) by exact (forall_str_get _ _ _ _ D G).
  assert (Da : forall_str is_digit (take i s) = true) by now apply forall_str_take.
  assert (Db : forall_str is_digit (drop (S i) s) = true)
    by now apply forall_str_drop.
  revert E1 E2 Da Db. generalize (take i s) (drop (S i) s). intros a b E1 E2 Da Db.
  destruct (dv_modulo10_troca a b x c Da Db Dx Dc N) as (dv & dv' & A & B & M).
  rewrite E2, E1, A, B. congruence.
Qed.

Lemma confere10_fora (d : string) (s e i : nat) (c : ascii) :
  (s <= e)%nat -> (i < s \/ e < i)%nat ->
  confere10 (trocar i c d) s e = confere10 d s e.
Proof.
  intros S H. unfold confere10, index.
  rewrite get_trocar_outro by lia. rewrite slice_trocar_fora by lia. reflexivity.
Qed.

Lemma confere10_trocar (d : string) (s e i : nat) (c x : ascii) :
  forall_str is_digit d = true -> is_digit c = true ->
  (s <= i <= e)%nat -> (e < String.length d)%nat ->
  String.get i d = Some x -> x <> c ->
  confere10 d s e = true -> confere10 (trocar i c d) s e = false.
Proof.
  intros D Dc [A B] L G N. unfold confere10, index.
  destruct (Nat.eq_dec i e) as [->|Ne].
  - rewrite get_trocar_mesmo by exact L. rewrite G.
    rewrite slice_trocar_fora by lia.
    destruct (calcular_dv_modulo10 (slice d s e)) as [dv|]; [|discriminate].
    intros E. apply String.eqb_eq in E. subst dv.
    apply String.eqb_neq. congruence.
  - rewrite get_trocar_outro by exact Ne.
    rewrite slice_trocar_dentro by lia.
    destruct (String.get e d) as [y|]; [|discriminate].
    assert (Gs : String.get (i - s) (slice d s e) = Some x).
    { unfold slice. rewrite get_take by lia. rewrite get_drop.
      now replace (s + (i - s))%nat with i by lia. }
    pose proof (dv_modulo10_trocar (i - s) c x (slice d s e)
                  (forall_str_slice _ _ _ _ D) Dc Gs N) as M.
    destruct (calcular_dv_modulo10 (slice d s e)) as [dv|]; [|discriminate].
    intros E. apply String.eqb_eq in E. subst dv.
    destruct (calcular_dv_modulo10 (trocar (i - s) c (slice d s e))) as [dv'|];
      [|reflexivity].
    apply String.eqb_neq. congruence.
Qed.

(** The verdict on a line of 47 digits is that of its three check digits. *)
Lemma linha_valida_sse (rt : Runtime) (linha : string) :
  let d := filter_str is_digit linha in
  String.length d = 47%nat ->
  valido (validar_linha_digitavel rt (PStr linha))
  = confere10 d 0 9 && confere10 d 10 20 && confere10 d 21 31.
Proof.
  intros d L.
  destruct (validar_linha_digitavel_47 linha L)
    as (i1 & c1 & i2 & c2 & i3 & c3 & I1 & C1 & I2 & C2 & I3 & C3 & R).
  cbv zeta in R. fold d in I1, C1, I2, C2, I3, C3.
  unfold validar_linha_digitavel. rewrite R. unfold confere10.
  rewrite I1, C1, I2, C2, I3, C3. unfold conferir_dv, append. cbn [valido resultado].
  destruct (i1 =? c1)%string, (i2 =? c2)%string, (i3 =? c3)%string; reflexivity.
Qed.

(** X7. In a valid line of 47 digits, another digit at one of the first 32
    positions makes the line invalid, and another digit at one of the last
    15 leaves it valid. *)
Theorem linha_digitavel_troca_de_digito (rt : Runtime) (d : string) (i : nat)
  (c x : ascii) :
  forall_str is_digit d = true -> String.length d = 47%nat ->
  is_digit c = true -> String.get i d = Some x -> x <> c ->
  valido (validar_linha_digitavel rt (PStr d)) = true ->
  valido (validar_linha_digitavel rt (PStr (trocar i c d))) = (32 <=? i)%nat.
Proof.
  intros D L Dc G N V.
  assert (D' : forall_str is_digit (trocar i c d) = true)
    by now apply forall_str_trocar.
  pose proof (linha_valida_sse rt d) as S. cbv zeta in S.
  pose proof (linha_valida_sse rt (trocar i c d)) as S'. cbv zeta in S'.
  rewrite (filter_str_id _ _ D) in S. rewrite (filter_str_id _ _ D') in S'.
  rewrite S in V by exact L. rewrite S' by now rewrite length_trocar.
  apply andb_true_iff in V as [V V3]. apply andb_true_iff in V as [V1 V2].
  destruct (Nat.leb_spec 32 i) as [I | I].
  - rewrite !confere10_fora by lia. now rewrite V1, V2, V3.
  - destruct (Nat.le_gt_cases i 9) as [I1 | I1].
    + rewrite (confere10_trocar d 0 9 i c x) by (assumption || lia). reflexivity.
    + destruct (Nat.le_gt_cases i 20) as [I2 | I2].
      * rewrite (confere10_trocar d 10 20 i c x) by (assumption || lia).
        now rewrite andb_false_r.
      * rewrite (confere10_trocar d 21 31 i c x) by (assumption || lia).
        now rewrite andb_false_r.
Qed.

Lemma barras_valido_sse (rt : Runtime) (codigo : string) :
  let d := filter_str is_digit codigo in
  String.length d = 44%nat ->
  valido (validar_codigo_barras rt (PStr codigo)) = confere11 d.
Proof.
  intros d L.
  assert (D : forall_str is_digit d = true) by apply forall_str_filter.
  destruct (index_some d 4) as [x I]; [lia|].
  destruct (calcular_dv_modulo11_digito (codigo_sem_dv d)) as (c & C & _).
  { unfold codigo_sem_dv.
    rewrite forall_str_append, !forall_str_slice by exact D. reflexivity. }
  unfold validar_codigo_barras, validar_codigo_barras_try, confere11.
  cbv beta iota zeta delta [re_sub_nao_digitos bind].
  change (filter_str is_digit codigo) with d. rewrite L.
  cbv beta iota delta [Nat.eqb negb].
  fold (codigo_sem_dv d). rewrite I, C.
  now destruct (String x "" =? String c "")%string.
Qed.

Lemma dv_modulo11_trocar (i : nat) (c x : ascii) (s : string) :
  forall_str is_digit s = true -> is_digit c = true ->
  String.get i s = Some x -> x <> c ->
  calcular_dv_modulo11 (trocar i c s) = calcular_dv_modulo11 s ->
  calcular_dv_modulo11 s = Ok "1".
Proof.
  intros D Dc G N.
  destruct (trocar_decompor i c x s G) as [E1 E2].
  assert (Dx : is_digit x = true) by exact (forall_str_get _ _ _ _ D G).
  assert (Da : forall_str is_digit (take i s) = true) by now apply forall_str_take.
  assert (Db : forall_str is_digit (drop (S i) s) = true)
    by now apply forall_str_drop.
  revert E1 E2 Da Db. generalize (take i s) (drop (S i) s). intros a b E1 E2 Da Db.
  destruct (dv_modulo11_troca a b x c Da Db Dx Dc N) as (dv & dv' & A & B & M).
  rewrite E2, E1, A, B. intros [= E]. f_equal. apply M. now symmetry.
Qed.

Lemma trocar_append (i : nat) (c : ascii) (a b : string) :
  trocar i c (a ++ b)
  = if (i <? String.length a)%nat then trocar i c a ++ b
    else a ++ trocar (i - String.length a) c b.
Proof.
  revert i. induction a as [|x a IH]; intros i.
  - cbn. now rewrite Nat.sub_0_r.
  - destruct i as [|i]; [reflexivity|].
    cbn [String.append trocar String.length]. rewrite IH.
    change (S i <? S (String.length a))%nat with (i <? String.length a)%nat.
    cbn [Nat.sub]. destruct (i <? String.length a)%nat; reflexivity.
Qed.

Lemma codigo_sem_dv_trocar (d : string) (i : nat) (c : ascii) :
  String.length d = 44%nat -> i <> 4%nat ->
  codigo_sem_dv (trocar i c d)
  = trocar (if (i <? 4)%nat then i else i - 1) c (codigo_sem_dv d).
Proof.
  intros L N. unfold codigo_sem_dv. rewrite trocar_append.
  rewrite length_slice by lia. change (4 - 0)%nat with 4%nat.
  destruct (Nat.ltb_spec i 4) as [I | I].
  - rewrite (slice_trocar_dentro i 0 4) by lia.
    rewrite (slice_trocar_fora i 5 44) by lia.
    rewrite (proj2 (Nat.ltb_lt i 4) I). now rewrite Nat.sub_0_r.
  - rewrite (slice_trocar_fora i 0 4) by lia.
    rewrite (proj2 (Nat.ltb_ge (i - 1) 4)) by lia. f_equal.
    destruct (Nat.lt_ge_cases i 44) as [J | J].
    + rewrite (slice_trocar_dentro i 5 44) by lia. f_equal. lia.
    + rewrite (slice_trocar_fora i 5 44) by lia.
      assert (T : forall n s, (String.length s <= n)%nat -> trocar n c s = s).
      { clear. intros n s. revert n.
        induction s as [|y s IH]; intros [|n] H; simpl in *; try reflexivity;
          try lia. rewrite IH by lia. reflexivity. }
      symmetry. apply T. rewrite length_slice; lia.
Qed.

(** X8. In a valid code of 44 digits, another digit in place of one of its
    digits makes the code invalid, unless the check digit of the valid code
    is 1 and the digit changed is not the check digit. *)
Theorem codigo_barras_troca_de_digito (rt : Runtime) (d : string) (i : nat)
  (c x : ascii) :
  forall_str is_digit d = true -> String.length d = 44%nat ->
  is_digit c = true -> String.get i d = Some x -> x <> c ->
  valido (validar_codigo_barras rt (PStr d)) = true ->
  valido (validar_codigo_barras rt (PStr (trocar i c d))) = true ->
  index d 4 = Ok "1" /\ i <> 4%nat.
Proof.
  intros D L Dc G N V V'.
  assert (D' : forall_str is_digit (trocar i c d) = true)
    by now apply forall_str_trocar.
  pose proof (barras_valido_sse rt d) as S. cbv zeta in S.
  pose proof (barras_valido_sse rt (trocar i c d)) as S'. cbv zeta in S'.
  rewrite (filter_str_id _ _ D) in S. rewrite (filter_str_id _ _ D') in S'.
  rewrite S in V by exact L. rewrite S' in V' by now rewrite length_trocar.
  unfold confere11, index in V, V'.
  assert (I : (i < 44)%nat).
  { rewrite <- L. destruct (Nat.lt_ge_cases i (String.length d)) as [H|H];
      [exact H|].
    exfalso. clear - G H. revert i G H.
    induction d as [|y d IH]; intros [|i] G H; simpl in *; try discriminate;
      try lia. apply (IH i G). lia. }
  destruct (Nat.eq_dec i 4) as [->|Ni].
  - exfalso. rewrite get_trocar_mesmo in V' by lia. rewrite G in V.
    unfold codigo_sem_dv in V'.
    rewrite !slice_trocar_fora in V' by lia. fold (codigo_sem_dv d) in V'.
    destruct (calcular_dv_modulo11 (codigo_sem_dv d)) as [dv|]; [|discriminate].
    apply String.eqb_eq in V, V'. congruence.
  - split; [|exact Ni].
    rewrite get_trocar_outro in V' by exact Ni.
    rewrite (codigo_sem_dv_trocar d i c L Ni) in V'.
    set (j := if (i <? 4)%nat then i else (i - 1)%nat) in *.
    assert (Gj : String.get j (codigo_sem_dv d) = Some x).
    { unfold j, codigo_sem_dv. destruct (Nat.ltb_spec i 4) as [J | J].
      - rewrite get_append_left by (rewrite length_slice; lia).
        unfold slice. rewrite get_take by lia. now rewrite get_drop.
      - replace (i - 1)%nat with (String.length (slice d 0 4) + (i - 5))%nat
          by (rewrite length_slice; lia).
        rewrite get_append_right. unfold slice. rewrite get_take by lia.
        rewrite get_drop. now replace (5 + (i - 5))%nat with i by lia. }
    assert (Ds : forall_str is_digit (codigo_sem_dv d) = true).
    { unfold codigo_sem_dv.
      rewrite forall_str_append, !forall_str_slice by exact D. reflexivity. }
    pose proof (dv_modulo11_trocar j c x (codigo_sem_dv d) Ds Dc Gj N) as M.
    unfold index. destruct (String.get 4 d) as [y|]; [|discriminate].
    destruct (calcular_dv_modulo11 (codigo_sem_dv d)) as [dv|]; [|discriminate].
    destruct (calcular_dv_modulo11 (trocar j c (codigo_sem_dv d))) as [dv'|];
      [|discriminate].
    apply String.eqb_eq in V, V'. subst dv dv'.
    specialize (M eq_refl). now rewrite M.
Qed.

(** X9. [calcular_dv_modulo10] gives two check digits to two sequences of
    digits that differ in one digit. *)
Theorem dv_modulo10_detecta_troca (sequencia : string) (i : nat) (c x : ascii) :
  forall_str is_digit sequencia = true -> is_digit c = true ->
  String.get i sequencia = Some x -> x <> c ->
  exists dv dv',
    calcular_dv_modulo10 sequencia = Ok dv
    /\ calcular_dv_modulo10 (trocar i c sequencia) = Ok dv'
    /\ dv <> dv'.
Proof.
  intros D Dc G N.
  destruct (calcular_dv_modulo10_digito sequencia D) as (a & A & _).
  destruct (calcular_dv_modulo10_digito (trocar i c sequencia)) as (b & B & _);
    [now apply forall_str_trocar|].
  pose proof (dv_modulo10_trocar i c x sequencia D Dc G N) as M.
  do 2 eexists. split; [exact A|]. split; [exact B|]. congruence.
Qed.

(** ** The vencimento *)

(** X10. Under [calcular_dv_modulo11] two sequences of digits that differ
    in one digit have two check digits, unless the check digit of both
    is 1. *)
Theorem dv_modulo11_detecta_troca (sequencia : string) (i : nat) (c x : ascii) :
  forall_str is_digit sequencia = true -> is_digit c = true ->
  String.get i sequencia = Some x -> x <> c ->
  exists dv dv',
    calcular_dv_modulo11 sequencia = Ok dv
    /\ calcular_dv_modulo11 (trocar i c sequencia) = Ok dv'
    /\ (dv = dv' -> dv = "1").
Proof.
  intros D Dc G N.
  destruct (calcular_dv_modulo11_digito sequencia D) as (a & A & _).
  destruct (calcular_dv_modulo11_digito (trocar i c sequencia)) as (b & B & _);
    [now apply forall_str_trocar|].
  do 2 eexists. split; [exact A|]. split; [exact B|].
  intros E.
  assert (M : calcular_dv_modulo11 sequencia = Ok "1").
  { apply (dv_modulo11_trocar i c x sequencia D Dc G N). congruence. }
  congruence.
Qed.

(** ** The banks *)

(** X11. A vencimento that [strptime] reads is valid exactly when it is less
    than 1826 days behind the clock and less than 731 days ahead of it, to
    the microsecond; outside that window the result has one error, the
    one of its side. *)
Theorem validar_vencimento_janela (rt : Runtime) (s : string) (v : Z) :
  strptime rt (PStr s) "%d/%m/%Y" = Ok v ->
  let r := validar_vencimento rt (PStr s) in
  let antigo := v <= agora rt - 1826 * microssegundos_por_dia in
  let distante := agora rt + 731 * microssegundos_por_dia <= v in
  (valido r = true <-> ~ antigo /\ ~ distante)
  /\ (antigo -> erros r = [vencimento_antigo s])
  /\ (distante -> erros r = [vencimento_distante s]).
Proof.
  intros P. unfold validar_vencimento, validar_vencimento_try. cbv zeta.
  rewrite P. cbn [bind formatar]. unfold days, append, microssegundos_por_dia.
  destruct (Z.gtb_spec ((agora rt - v) / 86400000000) (5 * 365)) as [A | A];
    destruct (Z.gtb_spec ((v - agora rt) / 86400000000) (2 * 365)) as [B | B];
    cbn [resultado valido erros vazia app];
    (split; [split; [try discriminate; intros _
                    | intros [? ?]; try reflexivity]
            | split; intros ?; try reflexivity]);
    Z.div_mod_to_equations; lia.
Qed.

(** X12. Every code that [identificar_banco] has a name for is accepted by
    [validar_codigo_banco]; the codes 422, 140 and 197 are accepted too,
    and their name is the default, ['Banco '] and the code; every other
    code gets the default name and the error of an unknown bank. *)
Theorem bancos_do_parser_e_do_validador (rt : Runtime) (codigo : string) :
  (forall nome, In (codigo, nome) bancos ->
     identificar_banco rt (PStr codigo) = Ok nome
     /\ validar_codigo_banco rt (PStr codigo) = Ok (resultado true []))
  /\ (In codigo bancos_sem_nome ->
      identificar_banco rt (PStr codigo) = Ok ("Banco " ++ codigo)
      /\ validar_codigo_banco rt (PStr codigo) = Ok (resultado true []))
  /\ (~ In codigo (map fst bancos ++ bancos_sem_nome) ->
      identificar_banco rt (PStr codigo) = Ok ("Banco " ++ codigo)
      /\ validar_codigo_banco rt (PStr codigo)
         = Ok (resultado false ["Código de banco desconhecido: " ++ codigo])).
Proof.
  split; [|split].
  - intros nome H. unfold bancos in H. simpl in H.
    repeat (destruct H as [[= <- <-] | H]; [split; reflexivity|]).
    contradiction.
  - intros H. unfold bancos_sem_nome in H. simpl in H.
    repeat (destruct H as [<- | H]; [split; reflexivity|]). contradiction.
  - intros H. cbn [map fst bancos bancos_sem_nome app In] in H.
    unfold identificar_banco, validar_codigo_banco, pertence, bancos,
      bancos_validos. cbn [formatar dict_get existsb bind].
    repeat match goal with
           | |- context [(?a =? codigo)%string] =>
               destruct (String.eqb_spec a codigo) as [E | _];
               [exfalso; apply H; rewrite <- E; tauto|]
           | |- context [(codigo =? ?a)%string] =>
               destruct (String.eqb_spec codigo a) as [E | _];
               [exfalso; apply H; rewrite E; tauto|]
           end.
    split; reflexivity.
Qed.

(** ** The explanation *)

Lemma score_maior_inteiro (s : Z) (n d : positive) :
  (Zpos n < Zpos d) -> score_maior s (Zpos n # d) = (1 <=? s).
Proof.
  intros H. unfold score_maior, Qgt_bool, Qle_bool. cbn [Qnum Qden inject_Z].
  destruct (Z.leb_spec (s * Zpos d) (Zpos n * 1));
    destruct (Z.leb_spec 1 s); cbn [negb]; try reflexivity; nia.
Qed.

Lemma score_menor_inteiro (s : Z) (n d : positive) :
  (Zpos n < Zpos d) -> score_menor s (Zpos n # d) = negb (1 <=? s).
Proof.
  intros H. unfold score_menor, Qgt_bool, Qle_bool. cbn [Qnum Qden inject_Z].
  destruct (Z.leb_spec (Zpos n * 1) (s * Zpos d));
    destruct (Z.leb_spec 1 s); cbn [negb]; try reflexivity; nia.
Qed.

(** X13. The reasons are the entries of the validation errors in their
    order, then one entry of the classifier, then the entry of a high
    amount if the amount is above 10000; the placeholder is never there. *)
Theorem razoes_detalhadas_estrutura {F : Type} (dados : Dados)
  (validacao : Resultado) (p : Predicao.t F) :
  match valor dados with
  | PNum q =>
      _gerar_razoes_detalhadas dados validacao p
      = Ok (map razao_validacao (erros validacao)
            ++ [razao_do_classificador (Predicao.score_fraude p)]
            ++ (if Qle_bool q 10000 then [] else [razao_valor_elevado q]))%list
  | v => _gerar_razoes_detalhadas dados validacao p = Raise (TypeError ">" v)
  end
  /\ forall razoes,
       _gerar_razoes_detalhadas dados validacao p = Ok razoes ->
       ~ In razao_generica razoes.
Proof.
  assert (S : forall q, valor dados = PNum q ->
            _gerar_razoes_detalhadas dados validacao p
            = Ok (map razao_validacao (erros validacao)
                  ++ [razao_do_classificador (Predicao.score_fraude p)]
                  ++ (if Qle_bool q 10000 then []
                      else [razao_valor_elevado q]))%list).
  { intros q V. unfold _gerar_razoes_detalhadas, extend, append. cbv zeta.
    rewrite V. cbn [maior bind].
    rewrite (score_maior_inteiro _ 7 10), (score_menor_inteiro _ 3 10) by lia.
    unfold razao_do_classificador.
    destruct (1 <=? Predicao.score_fraude p); cbn [negb app];
      destruct (Qle_bool q 10000); cbn [negb];
      match goal with
      | |- context [vazia ?l] =>
          replace (vazia l) with false
            by (destruct (erros validacao); reflexivity)
      end; rewrite <- ?app_assoc; rewrite ?app_nil_r; reflexivity. }
  split.
  - destruct (valor dados) as [|s|q|n] eqn:V; try (now apply S);
      unfold _gerar_razoes_detalhadas; cbv zeta; rewrite V; reflexivity.
  - intros razoes R I.
    destruct (valor dados) as [|s|q|n] eqn:V;
      try (unfold _gerar_razoes_detalhadas in R; cbv zeta in R; rewrite V in R;
           discriminate R).
    rewrite (S q eq_refl) in R. injection R as <-.
    apply in_app_or in I as [I | I].
    + apply in_map_iff in I as (e & E & _).
      apply (f_equal Razao.categoria) in E. discriminate E.
    + destruct I as [I | I].
      * unfold razao_do_classificador in I.
        destruct (1 <=? Predicao.score_fraude p);
          apply (f_equal Razao.categoria) in I; discriminate I.
      * destruct (Qle_bool q 10000); [contradiction|].
        destruct I as [I | []].
        apply (f_equal Razao.categoria) in I. discriminate I.
Qed.

(** The head of a filtered list is the first element of the list that
    passes. *)
Lemma filter_primeiro {A : Type} (p : A -> bool) (l : list A) (c : A)
  (cs : list A) :
  filter p l = c :: cs ->
  exists antes depois,
    l = (antes ++ c :: depois)%list
    /\ (forall a, In a antes -> p a = false)
    /\ p c = true.
Proof.
  induction l as [|x l IH]; cbn [filter]; [discriminate|].
  destruct (p x) eqn:Px.
  - intros [= -> _]. exists [], l. repeat split; [|exact Px].
    intros a [].
  - intros H. destruct (IH H) as (antes & depois & -> & N & C).
    exists (x :: antes), depois. repeat split; [|exact C].
    intros a [<- | I]; [exact Px | now apply N].
Qed.

(** X14. The main reason of [_identificar_principal_motivo].  With no
    error it is one of two sentences, by whether the score is 1 or more:
    the score is an integer, so the sentences for a score between 0.6 and
    0.8 and for one between 0.3 and 0.6 are never given.  With errors it
    quotes the first one that has ['inválido'] or ['incorreto'] in it,
    the one with no such error before it in the list, whose severity is
    then ['critica']; and the first error when there is no such one. *)
Theorem principal_motivo_casos {F : Type} (validacao : Resultado)
  (p : Predicao.t F) :
  let motivo := _identificar_principal_motivo validacao p in
  match erros validacao with
  | [] =>
      motivo = if 1 <=? Predicao.score_fraude p then motivo_suspeito
               else motivo_autentico
  | primeiro :: _ =>
      (exists antes e depois,
         erros validacao = (antes ++ e :: depois)%list
         /\ (forall a, In a antes -> erro_critico a = false)
         /\ erro_critico e = true
         /\ _determinar_gravidade e = "critica"
         /\ motivo = "Possível irregularidade detectada: " ++ e)
      \/ (motivo = "Inconsistência identificada: " ++ primeiro
          /\ forall e, In e (erros validacao) -> erro_critico e = false)
  end.
Proof.
  unfold _identificar_principal_motivo. cbv zeta.
  destruct (erros validacao) as [|e0 es] eqn:E.
  - rewrite (score_maior_inteiro _ 8 10), (score_maior_inteiro _ 6 10),
      (score_menor_inteiro _ 3 10) by lia.
    now destruct (1 <=? Predicao.score_fraude p).
  - fold (erro_critico). change (fun e => contem "inválido" (lower e)
                                          || contem "incorreto" (lower e))
      with erro_critico.
    destruct (filter erro_critico (e0 :: es)) as [|c cs] eqn:Fi.
    + right. split; [reflexivity|]. intros e I.
      destruct (erro_critico e) eqn:C; [|reflexivity].
      assert (X : In e (filter erro_critico (e0 :: es)))
        by (apply filter_In; now split).
      rewrite Fi in X. contradiction.
    + left.
      destruct (filter_primeiro erro_critico _ c cs Fi)
        as (antes & depois & L & N & C).
      exists antes, c, depois. repeat split; try assumption.
      unfold _determinar_gravidade, alguma. cbv zeta. cbn [existsb].
      unfold erro_critico in C. apply orb_true_iff in C as [-> | ->];
        [reflexivity | now rewrite orb_true_r].
Qed.

(** ** The verdict of [test_ocr] *)

(** X15. [test_ocr] and the job [processar_boleto] give one verdict to one
    validation and one prediction: the same [isFraudulento], score,
    confidence and [metodos].  They differ in two keys: [test_ocr] has
    [motivos] only for an invalid validation, where the job has an empty
    list, and it has [explicacao] only for an authenticated caller. *)
Theorem test_ocr_e_job_concordam {F : Type} (is_authenticated : bool)
  (validacao : Resultado) (p : Predicao.t F) (x : Explicacao.t) :
  let r := resultado_final is_authenticated validacao p x in
  let f := fraude_analise validacao p x in
  ResultadoFinal.isFraudulento r = FraudeAnalise.isFraudulento f
  /\ ResultadoFinal.score r = FraudeAnalise.score f
  /\ ResultadoFinal.confianca r = FraudeAnalise.confianca f
  /\ ResultadoFinal.metodos r = FraudeAnalise.metodos f
  /\ ResultadoFinal.motivos r
     = (if valido validacao then None else Some (FraudeAnalise.motivos f))
  /\ ResultadoFinal.explicacao r
     = (if is_authenticated then Some (FraudeAnalise.explicacao f) else None).
Proof.
  unfold resultado_final, fraude_analise. cbv zeta.
  destruct (valido validacao), (Predicao.is_fraudulento p), is_authenticated;
    repeat split.
Qed.

(** ** The quota *)

Lemma find_one_ip (colecao : list Acesso.t) (ip : string) (a : Acesso.t) :
  find_one colecao ip = Some a -> Acesso.ip_address a = ip.
Proof.
  unfold find_one. intros H. apply find_some in H as [_ H].
  now apply String.eqb_eq.
Qed.

Lemma find_one_update_one (colecao : list Acesso.t) (ip : string)
  (u : Acesso.t -> Acesso.t) (upsert : bool) :
  (forall a, Acesso.ip_address (u a) = Acesso.ip_address a) ->
  find_one (update_one colecao ip u upsert) ip
  = match find_one colecao ip with
    | Some a => Some (u a)
    | None => if upsert then Some (u (acesso_novo ip)) else None
    end.
Proof.
  intros P. unfold find_one.
  induction colecao as [|a resto IH]; cbn [update_one find].
  - destruct upsert; [|reflexivity]. cbn [find]. rewrite P.
    cbn [acesso_novo Acesso.ip_address]. now rewrite String.eqb_refl.
  - destruct (Acesso.ip_address a =? ip)%string eqn:E; cbn [find].
    + now rewrite P, E.
    + now rewrite E.
Qed.

Lemma find_one_insert_one (colecao : list Acesso.t) (ip : string)
  (doc : Acesso.t) :
  Acesso.ip_address doc = ip ->
  find_one (insert_one colecao doc) ip
  = match find_one colecao ip with
    | Some a => Some a
    | None => Some doc
    end.
Proof.
  intros P. unfold find_one, insert_one, append.
  induction colecao as [|a resto IH]; cbn [app find].
  - now rewrite P, String.eqb_refl.
  - destruct (Acesso.ip_address a =? ip)%string; [reflexivity | exact IH].
Qed.

Lemma limite_anonimo_casos (detail : string) (db : list Acesso.t) (ip : string)
  (t1 t2 : Z) :
  limite_anonimo detail db ip t1 t2
  = if 2 <=? contagem_do_dia db ip t1 then HTTPException 403 detail
    else Retorna (update_one db ip (inc_analises_hoje t2) true).
Proof.
  unfold limite_anonimo, contagem_do_dia. cbv zeta.
  destruct (find_one db ip) as [a|]; [|reflexivity].
  destruct (Acesso.ultima_analise a); reflexivity.
Qed.

Lemma depois_de_contar (db : list Acesso.t) (ip : string) (t2 : Z) :
  let db' := update_one db ip (inc_analises_hoje t2) true in
  exists a,
    find_one db' ip = Some a
    /\ Acesso.analises_hoje a = Some (contagem_guardada db ip + 1)
    /\ Acesso.ultima_analise a = Some t2.
Proof.
  cbv zeta. rewrite find_one_update_one by reflexivity.
  unfold contagem_guardada, get_analises_hoje.
  destruct (find_one db ip) as [a|]; eexists; (split; [reflexivity|]);
    cbn; [destruct (Acesso.analises_hoje a)|]; split; reflexivity.
Qed.

Lemma contagens_depois_de_contar (db : list Acesso.t) (ip : string)
  (t2 t3 : Z) :
  date t3 = date t2 ->
  let db' := update_one db ip (inc_analises_hoje t2) true in
  contagem_guardada db' ip = contagem_guardada db ip + 1
  /\ contagem_do_dia db' ip t3 = contagem_guardada db ip + 1.
Proof.
  intros D. cbv zeta.
  destruct (depois_de_contar db ip t2) as (a & Fa & Ca & Ua). cbv zeta in Fa.
  split.
  - unfold contagem_guardada at 1. rewrite Fa.
    unfold get_analises_hoje. now rewrite Ca.
  - unfold contagem_do_dia. rewrite Fa, Ua, D, Z.ltb_irrefl.
    unfold get_analises_hoje. now rewrite Ca.
Qed.

Lemma analises_restantes_da_contagem (db : list Acesso.t) (ip : string) :
  analises_restantes db ip = Z.max 0 (2 - contagem_guardada db ip).
Proof. reflexivity. Qed.

(** X16. What the response says is left is what is left: after an analysis
    that was counted, [analises_restantes] is 0 exactly when the next
    request of the same day is refused. *)
Theorem analises_restantes_e_o_proximo_pedido (detail detail' : string)
  (db db' : list Acesso.t) (ip : string) (t1 t2 t3 t4 : Z) :
  limite_anonimo detail db ip t1 t2 = Retorna db' ->
  date t3 = date t2 ->
  contagem_guardada db' ip = contagem_guardada db ip + 1
  /\ (analises_restantes db' ip = 0
      <-> limite_anonimo detail' db' ip t3 t4 = HTTPException 403 detail').
Proof.
  rewrite limite_anonimo_casos.
  destruct (2 <=? contagem_do_dia db ip t1); [discriminate|].
  intros [= <-] D.
  destruct (contagens_depois_de_contar db ip t2 t3 D) as [G C].
  cbv zeta in G, C. split; [exact G|].
  rewrite limite_anonimo_casos, C, analises_restantes_da_contagem, G.
  destruct (Z.leb_spec 2 (contagem_guardada db ip + 1)).
  - split; [reflexivity | lia].
  - split; [lia | discriminate].
Qed.

(** X17. An address that was counted on an earlier day gets one analysis a
    day: the count is compared from zero on a new day, but the stored
    count goes on from where it was. *)
Theorem uma_analise_por_dia (detail : string) (db : list Acesso.t)
  (ip : string) (a : Acesso.t) (c u t1 t2 t3 t4 : Z) :
  find_one db ip = Some a ->
  Acesso.analises_hoje a = Some c -> 1 <= c ->
  Acesso.ultima_analise a = Some u -> date u < date t1 ->
  date t2 = date t1 -> date t3 = date t1 ->
  exists db',
    limite_anonimo detail db ip t1 t2 = Retorna db'
    /\ contagem_guardada db' ip = c + 1
    /\ analises_restantes db' ip = 0
    /\ limite_anonimo detail db' ip t3 t4 = HTTPException 403 detail.
Proof.
  intros Fa Ca C Ua U D2 D3.
  assert (G : contagem_guardada db ip = c)
    by (unfold contagem_guardada, get_analises_hoje; now rewrite Fa, Ca).
  assert (R : limite_anonimo detail db ip t1 t2
              = Retorna (update_one db ip (inc_analises_hoje t2) true)).
  { rewrite limite_anonimo_casos. unfold contagem_do_dia. rewrite Fa, Ua.
    now rewrite (proj2 (Z.ltb_lt _ _) U). }
  eexists. split; [exact R|].
  destruct (contagens_depois_de_contar db ip t2 t3) as [S Cd];
    [congruence|].
  cbv zeta in S, Cd. rewrite G in S, Cd. split; [exact S|]. split.
  - rewrite analises_restantes_da_contagem, S. lia.
  - rewrite limite_anonimo_casos, Cd.
    destruct (Z.leb_spec 2 (c + 1)); [reflexivity | lia].
Qed.

(** X18. [/auth/quick-access] permits exactly when the limit of the
    endpoints lets the request through, before the call and after it. *)
Theorem acesso_rapido_e_limite (detail : string) (db : list Acesso.t)
  (ip : string) (t t1 t2 : Z) :
  date t1 = date t ->
  let r := fst (verificar_acesso_anonimo db ip t) in
  let db0 := snd (verificar_acesso_anonimo db ip t) in
  (AcessoRapido.permitido r = true
   <-> limite_anonimo detail db ip t1 t2 <> HTTPException 403 detail)
  /\ (AcessoRapido.permitido r = true
      <-> limite_anonimo detail db0 ip t1 t2 <> HTTPException 403 detail)
  /\ (AcessoRapido.permitido r = true ->
      AcessoRapido.analises_restantes r = 2 - contagem_do_dia db ip t
      /\ contagem_do_dia db0 ip t1 = contagem_do_dia db ip t).
Proof.
  intros D. cbv zeta. rewrite !limite_anonimo_casos.
  unfold verificar_acesso_anonimo, contagem_do_dia. cbv zeta. rewrite D.
  destruct (find_one db ip) as [a|] eqn:Fa.
  - destruct (Acesso.ultima_analise a) as [u|] eqn:Ua.
    + destruct (date u <? date t) eqn:N; cbn [fst snd AcessoRapido.permitido
                                               AcessoRapido.analises_restantes].
      * rewrite find_one_update_one by reflexivity. rewrite Fa.
        cbn [set_analises_hoje_0 Acesso.ultima_analise]. rewrite Ua, N.
        cbn. repeat split; discriminate.
      * destruct (2 <=? get_analises_hoje a) eqn:L;
          cbn [fst snd AcessoRapido.permitido AcessoRapido.analises_restantes];
          rewrite Fa, Ua, N, ?L;
          repeat split; try discriminate; try congruence.
    + destruct (2 <=? get_analises_hoje a) eqn:L;
        cbn [fst snd AcessoRapido.permitido AcessoRapido.analises_restantes];
        rewrite Fa, Ua, ?L;
        repeat split; try discriminate; try congruence.
  - cbn [fst snd AcessoRapido.permitido AcessoRapido.analises_restantes].
    rewrite find_one_insert_one by reflexivity. rewrite Fa.
    cbn. repeat split; discriminate.
Qed.

(** X19. What [analisar_boleto] leaves behind for a caller without a token.
    A request that is refused for the limit changes nothing; every other
    request is counted, also the one whose file is refused; and an
    analysis and a job are added, under one identifier, exactly when the
    request is answered. *)
Theorem analisar_boleto_anonimo_efeitos (amb : Ambiente) (db : Banco)
  (host : string) (file : Arquivo) :
  let r := fst (analisar_boleto_anonimo amb db host file) in
  let db' := snd (analisar_boleto_anonimo amb db host file) in
  match r with
  | HTTPException status_code _ =>
      analises db' = analises db /\ fila db' = fila db
      /\ (status_code = 403 /\ acessos_anonimos db' = acessos_anonimos db
          \/ status_code = 400
             /\ contagem_guardada (acessos_anonimos db') host
                = contagem_guardada (acessos_anonimos db) host + 1)
  | Retorna resposta =>
      contagem_guardada (acessos_anonimos db') host
      = contagem_guardada (acessos_anonimos db) host + 1
      /\ Resposta.analises_restantes resposta
         = Z.max 0 (1 - contagem_guardada (acessos_anonimos db) host)
      /\ exists doc job,
           analises db' = (analises db ++ [doc])%list
           /\ fila db' = (fila db ++ [job])%list
           /\ Analise._id doc = Resposta.id resposta
           /\ Job.analise_id job = Resposta.id resposta
           /\ Job.file_base64 job = b64encode amb (file_bytes file)
           /\ Analise.ip_address doc = host
  end.
Proof.
  cbv zeta. unfold analisar_boleto_anonimo.
  rewrite limite_anonimo_casos.
  destruct (2 <=? contagem_do_dia (acessos_anonimos db) host (utcnow amb 0)).
  - cbn [fst snd]. repeat split. left. now split.
  - destruct (depois_de_contar (acessos_anonimos db) host (utcnow amb 1))
      as (a & Fa & Ca & Ua). cbv zeta in Fa.
    assert (G : contagem_guardada
                  (update_one (acessos_anonimos db) host
                     (inc_analises_hoje (utcnow amb 1)) true) host
                = contagem_guardada (acessos_anonimos db) host + 1).
    { unfold contagem_guardada at 1. rewrite Fa. unfold get_analises_hoje.
      now rewrite Ca. }
    cbv zeta. cbn [acessos_anonimos analises fila].
    destruct (negb (existsb _ allowed_types)); cbn [fst snd acessos_anonimos
                                                    analises fila].
    + repeat split. right. now split.
    + destruct (10 * 1024 * 1024 <? String.length (file_bytes file))%nat;
        cbn [fst snd acessos_anonimos analises fila].
      * repeat split. right. now split.
      * destruct (String.length (file_bytes file) =? 0)%nat;
          cbn [fst snd acessos_anonimos analises fila].
        -- repeat split. right. now split.
        -- split; [exact G|]. split.
           ++ cbn [Resposta.analises_restantes]. unfold analises_restantes.
              cbv zeta.
              fold (contagem_guardada
                      (update_one (acessos_anonimos db) host
                         (inc_analises_hoje (utcnow amb 1)) true) host).
              rewrite G. f_equal. lia.
           ++ do 2 eexists. repeat split.
Qed.

(** X20. [/auth/quick-access/register] writes what the limit of an endpoint
    writes for a request that it lets through, and checks nothing: an
    address that makes one analysis and one such call has two analyses
    counted, and its next request of the day is refused. *)
Theorem registro_avulso_conta_em_dobro (detail : string)
  (db db' : list Acesso.t) (ip : string) (t1 t2 t3 t4 t5 : Z) :
  limite_anonimo detail db ip t1 t2 = Retorna db' ->
  0 <= contagem_guardada db ip ->
  date t4 = date t3 ->
  let db'' := snd (registrar_analise_anonima db' ip t3) in
  snd (registrar_analise_anonima db ip t2) = db'
  /\ contagem_guardada db'' ip = contagem_guardada db ip + 2
  /\ limite_anonimo detail db'' ip t4 t5 = HTTPException 403 detail.
Proof.
  rewrite limite_anonimo_casos.
  destruct (2 <=? contagem_do_dia db ip t1); [discriminate|].
  intros [= <-] P D. cbv zeta. unfold registrar_analise_anonima. cbn [snd].
  split; [reflexivity|].
  destruct (depois_de_contar db ip t2) as (a & Fa & Ca & Ua). cbv zeta in Fa.
  set (db' := update_one db ip (inc_analises_hoje t2) true) in *.
  assert (G : contagem_guardada db' ip = contagem_guardada db ip + 1).
  { unfold contagem_guardada at 1. rewrite Fa. unfold get_analises_hoje.
    now rewrite Ca. }
  destruct (depois_de_contar db' ip t3) as (b & Fb & Cb & Ub). cbv zeta in Fb.
  set (db'' := update_one db' ip (inc_analises_hoje t3) true) in *.
  assert (H : contagem_guardada db'' ip = contagem_guardada db ip + 2).
  { unfold contagem_guardada at 1. rewrite Fb. unfold get_analises_hoje.
    rewrite Cb, G. lia. }
  split; [exact H|].
  rewrite limite_anonimo_casos. unfold contagem_do_dia.
  rewrite Fb, Ub, D, Z.ltb_irrefl. unfold get_analises_hoje. rewrite Cb, G.
  now rewrite (proj2 (Z.leb_le 2 _)) by lia.
Qed.

(** ** The token *)

(** X21. [verificar_token_obrigatorio] returns a payload exactly when
    [verificar_token_opcional] returns it and it is not empty.  Whenever
    it raises, the status is 401 and the message is one of three: the
    messages ['Formato de autenticação inválido'] and ['Token inválido ou
    expirado'] are raised inside the [try], caught by [except Exception]
    and replaced by ['Erro na autenticação']. *)
Theorem token_obrigatorio_e_opcional (jwt_decode : string -> jwt_decode_result)
  (authorization : string) :
  match verificar_token_obrigatorio jwt_decode authorization with
  | Retorna payload =>
      payload <> []
      /\ verificar_token_opcional jwt_decode (Some authorization) = Some payload
  | HTTPException status_code detail =>
      status_code = 401
      /\ In detail ["Token de autenticação não fornecido";
                    "Formato de token inválido"; "Erro na autenticação"]
      /\ (verificar_token_opcional jwt_decode (Some authorization) = None
          \/ verificar_token_opcional jwt_decode (Some authorization) = Some [])
  end.
Proof.
  unfold verificar_token_obrigatorio, verificar_token_obrigatorio_try,
    verificar_token_opcional.
  destruct (authorization =? "")%string.
  - split; [reflexivity|]. split; [simpl; tauto | now left].
  - destruct (split authorization) as [|scheme [|token [|x l]]];
      try (split; [reflexivity|]; split; [simpl; tauto | now left]).
    destruct (negb (lower scheme =? "bearer")%string);
      [split; [reflexivity|]; split; [simpl; tauto | now left]|].
    destruct (decodificar_token jwt_decode token) as [[|kv payload]|].
    + split; [reflexivity|]. split; [simpl; tauto | now right].
    + split; [discriminate | reflexivity].
    + split; [reflexivity|]. split; [simpl; tauto | now left].
Qed.

(** ** The explanation and the fused verdict *)


(** * Instances and counterexamples *)

(** C2 at block 1 of the linha digitável of the scenario: the prefix
    001900000 has the check digit 9. *)
Lemma dv_modulo10_roundtrip_witness :
  forall_str is_digit "001900000" = true
  /\ String.length "001900000" = tamanho Bloco1
  /\ exists dv,
       calcular_dv_modulo10 "001900000" = Ok dv /\
       forall linha antes depois,
         filter_str is_digit linha = antes ++ "001900000" ++ dv ++ depois ->
         String.length antes = inicio Bloco1 ->
         String.length (filter_str is_digit linha) = 47%nat ->
         forall e,
           In e (erros (validar_linha_digitavel rt_exemplo (PStr linha))) ->
           erro_do_bloco Bloco1 e = false.
Proof.
  split; [reflexivity|]. split; [reflexivity|].
  apply (dv_modulo10_roundtrip rt_exemplo Bloco1 "001900000"); reflexivity.
Defined.

(** C3 at a code of 44 digits. *)
Lemma dv_modulo11_roundtrip_witness :
  let codigo := "00190000000000150000000000000000000000000000" in
  forall_str is_digit codigo = true
  /\ String.length codigo = 44%nat
  /\ exists dv,
       calcular_dv_modulo11 (slice codigo 0 4 ++ slice codigo 5 44) = Ok dv /\
       validar_codigo_barras rt_exemplo
         (PStr (slice codigo 0 4 ++ dv ++ slice codigo 5 44))
       = resultado true [].
Proof.
  intros codigo. split; [reflexivity|]. split; [reflexivity|].
  apply (dv_modulo11_roundtrip rt_exemplo codigo); reflexivity.
Defined.

(** C4 at the CNPJ 11.222.333/0001-81, with 9 as the other digit. *)
Lemma cnpj_digitos_verificadores_witness :
  let corpo := "112223330001" in
  let cnpj := corpo ++ "81" in
  forall_str is_digit corpo = true
  /\ String.length corpo = 12%nat
  /\ (forall c, cnpj <> repeat_str (String c EmptyString) 14)
  /\ confere cnpj peso1 12 = true
  /\ confere cnpj peso2 13 = true
  /\ validar_cnpj rt_exemplo (PStr cnpj) = resultado true []
  /\ validar_cnpj rt_exemplo (PStr (corpo ++ "89"))
     = resultado false [erro_segundo_dv]
  /\ validar_cnpj rt_exemplo (PStr (corpo ++ "91"))
     = resultado false
         (erro_primeiro_dv
          :: (if confere (corpo ++ "91") peso2 13 then []
              else [erro_segundo_dv])).
Proof.
  intros corpo cnpj.
  assert (N : forall c, cnpj <> repeat_str (String c EmptyString) 14).
  { intros c E. vm_compute in E. injection E as <-. discriminate. }
  split; [reflexivity|]. split; [reflexivity|]. split; [exact N|].
  split; [reflexivity|]. split; [reflexivity|].
  destruct (cnpj_digitos_verificadores rt_exemplo corpo "8" "1" "9"
              eq_refl eq_refl eq_refl eq_refl eq_refl N eq_refl eq_refl)
    as (A & B & C & _).
  split; [exact A|]. split; [apply B; discriminate | apply C; discriminate].
Defined.

(** C4 as stated fails at the first check digit: 11.222.333/0001-81 is
    valid, and with 9 in place of its first check digit it has two errors,
    not one. *)
Lemma cnpj_primeiro_dv_dois_erros :
  validar_cnpj rt_exemplo (PStr "11222333000181") = resultado true []
  /\ validar_cnpj rt_exemplo (PStr "11222333000191")
     = resultado false [erro_primeiro_dv; erro_segundo_dv]
  /\ List.length (erros (validar_cnpj rt_exemplo (PStr "11222333000191")))
     <> 1%nat.
Proof. repeat split; vm_compute; (reflexivity || discriminate). Qed.

(** C5 at a classifier that gives the floats nearest to 0.35 and 0.65. *)
Lemma score_e_confianca_witness :
  predict_proba modelo_0_35 tt = [p_0_35; p_0_65]
  /\ (0 <= p_0_35)%Q /\ (p_0_35 <= 1)%Q
  /\ exists p,
       predizer_fraude modelo_0_35 tt = Ok p
       /\ Predicao.score_fraude p = Qfloor (mul_float p_0_35 100)
       /\ 0 <= Predicao.score_fraude p <= 100
       /\ (inject_Z (Predicao.score_fraude p) - (1 # 2 ^ 47)
           <= p_0_35 * 100)%Q
       /\ (p_0_35 * 100 < inject_Z (Predicao.score_fraude p + 1))%Q
       /\ Qfloor (p_0_35 * 100) <= Predicao.score_fraude p
          <= Qfloor (p_0_35 * 100) + 1
       /\ ((mul_float p_0_35 100 == p_0_35 * 100)%Q ->
           Predicao.score_fraude p = Qfloor (p_0_35 * 100))
       /\ Predicao.confianca p
          = (if Qle_bool p_0_65 p_0_35 then p_0_35 else p_0_65)
       /\ (p_0_35 <= Predicao.confianca p)%Q
       /\ (p_0_65 <= Predicao.confianca p)%Q.
Proof.
  split; [reflexivity|]. split; [discriminate|]. split; [discriminate|].
  apply (score_e_confianca modelo_0_35 tt p_0_35 p_0_65);
    [reflexivity | discriminate | discriminate].
Defined.

(** C5 as stated fails where the product has a fraction of a half or
    more: with the probabilities 0.6875 and 0.3125, which binary floating
    point holds exactly as it does their products by 100, the score is 68
    and the rounded product is 69. *)
Lemma score_cortado_nao_arredondado :
  exists p,
    predizer_fraude (modelo_constante unit 0 [11 # 16; 5 # 16]) tt = Ok p
    /\ Predicao.score_fraude p = 68
    /\ arredondar_par ((11 # 16) * 100) = 69
    /\ Predicao.score_fraude p <> arredondar_par ((11 # 16) * 100).
Proof.
  eexists. split; [reflexivity|].
  repeat split; vm_compute; (reflexivity || discriminate).
Qed.

(** C7 at an invalid validation with a prediction of fraud. *)
Lemma razoes_e_mapa_de_gravidade_witness :
  let validacao := resultado false [erro_primeiro_dv] in
  let razoes := [razao_validacao erro_primeiro_dv; razao_padrao_suspeito 75] in
  _gerar_razoes_detalhadas dados_exemplo validacao predicao_fraude = Ok razoes
  /\ forall r, In r razoes ->
       ((Razao.categoria r = "validacao_tecnica" \/ Razao.categoria r = "geral")
        /\ no_mapa r
        /\ Razao.impacto r = _calcular_impacto (Razao.gravidade r)
        /\ Razao.cor r = _get_cor_gravidade (Razao.gravidade r))
       \/ entrada_fixa r.
Proof.
  intros validacao razoes. split; [vm_compute; reflexivity|].
  apply (razoes_e_mapa_de_gravidade dados_exemplo validacao predicao_fraude).
  vm_compute; reflexivity.
Defined.

(** C7 as stated fails at the entry of the classifier: its severity is
    alta, whose impact and color in the map are 80 and warning, and it
    carries 85 and danger. *)
Lemma razao_do_classificador_fora_do_mapa :
  exists razoes r,
    _gerar_razoes_detalhadas dados_exemplo (resultado true []) predicao_fraude
    = Ok razoes
    /\ In r razoes
    /\ Razao.gravidade r = "alta"
    /\ Razao.impacto r = 85 /\ Razao.cor r = "danger"
    /\ _calcular_impacto "alta" = 80 /\ _get_cor_gravidade "alta" = "warning"
    /\ ~ no_mapa r.
Proof.
  exists [razao_padrao_suspeito 75], (razao_padrao_suspeito 75).
  split; [vm_compute; reflexivity|]. split; [now left|].
  repeat (split; [reflexivity|]).
  unfold no_mapa. simpl.
  intros [H | [H | [H | [H | []]]]]; discriminate H.
Qed.

(** C9 at the fields of the scenario without their vencimento. *)
Lemma campos_nao_encontrados_witness :
  let dados := com_vencimento PNone dados_exemplo in
  let r := {| valido := false; erros := [vencimento_nao_encontrado];
              detalhes := [("linha_digitavel", resultado true []);
                           ("valor", resultado true []);
                           ("cnpj", resultado true []);
                           ("banco", resultado true [])] |} in
  validar_boleto_febraban_try rt_exemplo dados = Ok r
  /\ validar_boleto_febraban rt_exemplo dados = r
  /\ (In linha_nao_encontrada (erros r)
      <-> truthy (linha_digitavel dados) = false)
  /\ (In valor_nao_encontrado (erros r) <-> truthy (valor dados) = false)
  /\ (In vencimento_nao_encontrado (erros r)
      <-> truthy (vencimento dados) = false)
  /\ (In banco_nao_encontrado (erros r)
      <-> truthy (codigo_banco dados) = false)
  /\ tem_chave "codigo_barras" (detalhes r) = truthy (codigo_barras dados)
  /\ tem_chave "cnpj" (detalhes r) = truthy (beneficiario_cnpj dados)
  /\ (forall e, In e (erros r) ->
        In e mensagens_de_falta
        \/ exists chave sub, In (chave, sub) (detalhes r) /\ In e (erros sub)).
Proof.
  intros dados r. split; [vm_compute; reflexivity|].
  apply (campos_nao_encontrados rt_exemplo dados r). vm_compute; reflexivity.
Defined.

(** C9 as stated fails at an amount that is there and is zero: it is
    reported as not found. *)
Lemma valor_zero_dado_por_faltante :
  valor dados_valor_zero = PNum 0
  /\ valor dados_valor_zero <> PNone
  /\ erros (validar_boleto_febraban rt_exemplo dados_valor_zero)
     = [valor_nao_encontrado]
  /\ In valor_nao_encontrado
        (erros (validar_boleto_febraban rt_exemplo dados_valor_zero)).
Proof.
  split; [reflexivity|]. split; [discriminate|].
  split; [vm_compute; reflexivity | vm_compute; now left].
Qed.

(** When a field validator raises, the messages collected before it are
    lost: with no linha digitável and a text for amount the only error is
    that of the handler. *)
Lemma excecao_apaga_faltantes :
  linha_digitavel dados_valor_texto = PNone
  /\ validar_boleto_febraban rt_exemplo dados_valor_texto
     = {| valido := false;
          erros := ["Erro na validação: "
                    ++ str_exn rt_exemplo (TypeError "<=" (PStr "abc"))];
          detalhes := [] |}
  /\ ~ In linha_nao_encontrada
         (erros (validar_boleto_febraban rt_exemplo dados_valor_texto)).
Proof.
  split; [reflexivity|]. split; [vm_compute; reflexivity|].
  vm_compute. intros [H | []]. discriminate H.
Qed.

(** C10 at the empty text. *)
Lemma banco_nome_sem_linha_witness :
  extrair_linha_digitavel "" = None
  /\ codigo_banco (parse_dados_boleto rt_exemplo "") = PNone
  /\ banco_nome (parse_dados_boleto rt_exemplo "") = PStr "Banco None".
Proof.
  split; [reflexivity|].
  apply (banco_nome_sem_linha rt_exemplo ""). reflexivity.
Defined.

(** X9 at the first block of the scenario, with 1 for its first digit. *)
Lemma dv_modulo10_detecta_troca_witness :
  forall_str is_digit "001900000" = true
  /\ is_digit "1" = true
  /\ String.get 0 "001900000" = Some "0"%char
  /\ "0"%char <> "1"%char
  /\ exists dv dv',
       calcular_dv_modulo10 "001900000" = Ok dv
       /\ calcular_dv_modulo10 (trocar 0 "1" "001900000") = Ok dv'
       /\ dv <> dv'.
Proof.
  do 3 (split; [reflexivity|]). split; [discriminate|].
  apply (dv_modulo10_detecta_troca "001900000" 0 "1" "0");
    reflexivity || discriminate.
Defined.

(** X10 at a sequence of zeros, whose check digit is 1, as it is with 6
    for its last digit. *)
Lemma dv_modulo11_detecta_troca_witness :
  forall_str is_digit "0000" = true
  /\ is_digit "6" = true
  /\ String.get 3 "0000" = Some "0"%char
  /\ "0"%char <> "6"%char
  /\ exists dv dv',
       calcular_dv_modulo11 "0000" = Ok dv
       /\ calcular_dv_modulo11 (trocar 3 "6" "0000") = Ok dv'
       /\ (dv = dv' -> dv = "1").
Proof.
  do 3 (split; [reflexivity|]). split; [discriminate|].
  apply (dv_modulo11_detecta_troca "0000" 3 "6" "0");
    reflexivity || discriminate.
Defined.

(** X7 at the line of the scenario, with 8 for its digit at index 3. *)
Lemma linha_digitavel_troca_de_digito_witness :
  forall_str is_digit linha_exemplo = true
  /\ String.length linha_exemplo = 47%nat
  /\ is_digit "8" = true
  /\ String.get 3 linha_exemplo = Some "9"%char
  /\ "9"%char <> "8"%char
  /\ valido (validar_linha_digitavel rt_exemplo (PStr linha_exemplo)) = true
  /\ valido (validar_linha_digitavel rt_exemplo
               (PStr (trocar 3 "8" linha_exemplo)))
     = (32 <=? 3)%nat.
Proof.
  do 4 (split; [reflexivity|]). split; [discriminate|].
  split; [reflexivity|].
  apply (linha_digitavel_troca_de_digito rt_exemplo linha_exemplo 3 "8" "9");
    reflexivity || discriminate.
Defined.

(** X8 at a code whose check digit is 1, with 6 for its last digit. *)
Lemma codigo_barras_troca_de_digito_witness :
  forall_str is_digit barras_exemplo = true
  /\ String.length barras_exemplo = 44%nat
  /\ is_digit "6" = true
  /\ String.get 43 barras_exemplo = Some "0"%char
  /\ "0"%char <> "6"%char
  /\ valido (validar_codigo_barras rt_exemplo (PStr barras_exemplo)) = true
  /\ valido (validar_codigo_barras rt_exemplo
               (PStr (trocar 43 "6" barras_exemplo))) = true
  /\ index barras_exemplo 4 = Ok "1" /\ 43%nat <> 4%nat.
Proof.
  do 4 (split; [reflexivity|]). split; [discriminate|].
  do 2 (split; [reflexivity|]).
  apply (codigo_barras_troca_de_digito rt_exemplo barras_exemplo 43 "6" "0");
    reflexivity || discriminate.
Defined.

(** X11 at the vencimento of the scenario, thirty days ahead. *)
Lemma validar_vencimento_janela_witness :
  let v := 63931939200000000 in
  strptime rt_exemplo (PStr "03/12/2026") "%d/%m/%Y" = Ok v
  /\ let r := validar_vencimento rt_exemplo (PStr "03/12/2026") in
     let antigo := v <= agora rt_exemplo - 1826 * microssegundos_por_dia in
     let distante := agora rt_exemplo + 731 * microssegundos_por_dia <= v in
     (valido r = true <-> ~ antigo /\ ~ distante)
     /\ (antigo -> erros r = [vencimento_antigo "03/12/2026"])
     /\ (distante -> erros r = [vencimento_distante "03/12/2026"]).
Proof.
  intros v. split; [reflexivity|].
  apply (validar_vencimento_janela rt_exemplo "03/12/2026" v). reflexivity.
Defined.

(** X1 at the text of the scenario. *)
Lemma extrair_linha_digitavel_formato_witness :
  let linha := "00190.00009 01234.567004 00000.000000 1 00000000015000" in
  extrair_linha_digitavel texto_exemplo = Some linha
  /\ String.length (filter_str is_digit linha) = 47%nat
  /\ linha = formatar_linha (filter_str is_digit linha)
  /\ String.length linha = 54%nat.
Proof.
  intros linha. split; [vm_compute; reflexivity|].
  apply (extrair_linha_digitavel_formato texto_exemplo linha).
  vm_compute; reflexivity.
Defined.

(** X5 at the classifier and at the text of the scenario. *)
Lemma processar_boleto_exige_valor_witness :
  (forall f, (2 <= List.length (predict_proba modelo_autentico f))%nat)
  /\ match extrair_valor texto_exemplo with
     | Some q =>
         if Qeq_bool q 0
         then processar_boleto rt_exemplo modelo_autentico texto_exemplo
              = Raise (TypeError ">" PNone)
         else exists f,
                processar_boleto rt_exemplo modelo_autentico texto_exemplo = Ok f
     | None =>
         processar_boleto rt_exemplo modelo_autentico texto_exemplo
         = Raise (TypeError ">" PNone)
     end.
Proof.
  assert (M : forall f, (2 <= List.length (predict_proba modelo_autentico f))%nat)
    by (intros f; simpl; lia).
  split; [exact M|].
  exact (processar_boleto_exige_valor rt_exemplo modelo_autentico texto_exemplo M).
Defined.


(** X16 at an address that is not in the collection, on the day of the
    scenario. *)
Lemma analises_restantes_e_o_proximo_pedido_witness :
  let db' := [inc_analises_hoje (agora_exemplo + 1) (acesso_novo ip_exemplo)] in
  limite_anonimo limite_de_analisar [] ip_exemplo agora_exemplo
    (agora_exemplo + 1) = Retorna db'
  /\ date (agora_exemplo + 2) = date (agora_exemplo + 1)
  /\ contagem_guardada db' ip_exemplo = contagem_guardada [] ip_exemplo + 1
  /\ (analises_restantes db' ip_exemplo = 0
      <-> limite_anonimo limite_de_test_ocr db' ip_exemplo (agora_exemplo + 2)
            (agora_exemplo + 3)
          = HTTPException 403 limite_de_test_ocr).
Proof.
  intros db'. do 2 (split; [reflexivity|]).
  apply (analises_restantes_e_o_proximo_pedido limite_de_analisar
           limite_de_test_ocr [] db' ip_exemplo agora_exemplo
           (agora_exemplo + 1) (agora_exemplo + 2) (agora_exemplo + 3));
    reflexivity.
Defined.

(** X17 at an address with two analyses counted the day before. *)
Lemma uma_analise_por_dia_witness :
  find_one [acesso_de_ontem] ip_exemplo = Some acesso_de_ontem
  /\ Acesso.analises_hoje acesso_de_ontem = Some 2
  /\ 1 <= 2
  /\ Acesso.ultima_analise acesso_de_ontem = Some (agora_exemplo - 86400000000)
  /\ date (agora_exemplo - 86400000000) < date agora_exemplo
  /\ date (agora_exemplo + 1) = date agora_exemplo
  /\ date (agora_exemplo + 2) = date agora_exemplo
  /\ exists db',
       limite_anonimo limite_de_analisar [acesso_de_ontem] ip_exemplo
         agora_exemplo (agora_exemplo + 1) = Retorna db'
       /\ contagem_guardada db' ip_exemplo = 2 + 1
       /\ analises_restantes db' ip_exemplo = 0
       /\ limite_anonimo limite_de_analisar db' ip_exemplo (agora_exemplo + 2)
            (agora_exemplo + 3)
          = HTTPException 403 limite_de_analisar.
Proof.
  do 2 (split; [reflexivity|]). split; [lia|]. do 4 (split; [reflexivity|]).
  apply (uma_analise_por_dia limite_de_analisar [acesso_de_ontem] ip_exemplo
           acesso_de_ontem 2 (agora_exemplo - 86400000000) agora_exemplo
           (agora_exemplo + 1) (agora_exemplo + 2) (agora_exemplo + 3));
    reflexivity || lia.
Defined.

(** X18 at the same address, on the day of the scenario. *)
Lemma acesso_rapido_e_limite_witness :
  date (agora_exemplo + 1) = date agora_exemplo
  /\ let r := fst (verificar_acesso_anonimo [acesso_de_ontem] ip_exemplo
                     agora_exemplo) in
     let db0 := snd (verificar_acesso_anonimo [acesso_de_ontem] ip_exemplo
                       agora_exemplo) in
     (AcessoRapido.permitido r = true
      <-> limite_anonimo limite_de_analisar [acesso_de_ontem] ip_exemplo
            (agora_exemplo + 1) (agora_exemplo + 2)
          <> HTTPException 403 limite_de_analisar)
     /\ (AcessoRapido.permitido r = true
         <-> limite_anonimo limite_de_analisar db0 ip_exemplo
               (agora_exemplo + 1) (agora_exemplo + 2)
             <> HTTPException 403 limite_de_analisar)
     /\ (AcessoRapido.permitido r = true ->
         AcessoRapido.analises_restantes r
         = 2 - contagem_do_dia [acesso_de_ontem] ip_exemplo agora_exemplo
         /\ contagem_do_dia db0 ip_exemplo (agora_exemplo + 1)
            = contagem_do_dia [acesso_de_ontem] ip_exemplo agora_exemplo).
Proof.
  split; [reflexivity|].
  apply (acesso_rapido_e_limite limite_de_analisar [acesso_de_ontem] ip_exemplo
           agora_exemplo (agora_exemplo + 1) (agora_exemplo + 2)).
  reflexivity.
Defined.

(** X20 at an address that is not in the collection, on the day of the
    scenario. *)
Lemma registro_avulso_conta_em_dobro_witness :
  let db' := [inc_analises_hoje (agora_exemplo + 1) (acesso_novo ip_exemplo)] in
  limite_anonimo limite_de_analisar [] ip_exemplo agora_exemplo
    (agora_exemplo + 1) = Retorna db'
  /\ 0 <= contagem_guardada [] ip_exemplo
  /\ date (agora_exemplo + 3) = date (agora_exemplo + 2)
  /\ let db'' := snd (registrar_analise_anonima db' ip_exemplo
                        (agora_exemplo + 2)) in
     snd (registrar_analise_anonima [] ip_exemplo (agora_exemplo + 1)) = db'
     /\ contagem_guardada db'' ip_exemplo = contagem_guardada [] ip_exemplo + 2
     /\ limite_anonimo limite_de_analisar db'' ip_exemplo (agora_exemplo + 3)
          (agora_exemplo + 4)
        = HTTPException 403 limite_de_analisar.
Proof.
  intros db'. split; [reflexivity|]. split; [vm_compute; discriminate|].
  split; [reflexivity|].
  apply (registro_avulso_conta_em_dobro limite_de_analisar [] db' ip_exemplo
           agora_exemplo (agora_exemplo + 1) (agora_exemplo + 2)
           (agora_exemplo + 3) (agora_exemplo + 4));
    [reflexivity | vm_compute; discriminate | reflexivity].
Defined.

(** X6 at a text with an amount and nothing else. *)
Lemma sem_linha_ou_vencimento_e_fraude_witness :
  (extrair_linha_digitavel texto_so_com_valor = None
   \/ extrair_vencimento rt_exemplo texto_so_com_valor = None)
  /\ exists f,
       processar_boleto rt_exemplo modelo_autentico texto_so_com_valor = Ok f
       /\ FraudeAnalise.isFraudulento f = true
       /\ In "validacao_febraban" (FraudeAnalise.metodos f)
       /\ (extrair_linha_digitavel texto_so_com_valor = None ->
           In linha_nao_encontrada (FraudeAnalise.motivos f))
       /\ (extrair_vencimento rt_exemplo texto_so_com_valor = None ->
           In vencimento_nao_encontrado (FraudeAnalise.motivos f)).
Proof.
  assert (H : extrair_linha_digitavel texto_so_com_valor = None
              \/ extrair_vencimento rt_exemplo texto_so_com_valor = None)
    by (left; vm_compute; reflexivity).
  split; [exact H|].
  destruct (processar_boleto rt_exemplo modelo_autentico texto_so_com_valor)
    as [f|e] eqn:E.
  - exists f. split; [reflexivity|].
    exact (sem_linha_ou_vencimento_e_fraude rt_exemplo modelo_autentico
             texto_so_com_valor f E H).
  - vm_compute in E. discriminate E.
Defined.
